(** * nodejs-xray-vls: the bootstrap pipeline of [app.js]

    A shallow embedding of the [XrayProxy] class and of [main]:
    identity derivation, ISP lookup with retry, artifact download and
    extraction, configuration generation, process supervision and cleanup.

    Conventions of the embedding.
    - JavaScript strings are byte strings ([string]); text is UTF-8.
    - The library functions the program calls are modelled by what they
      compute: MD5, [JSON.stringify] and [JSON.parse], [parseInt],
      [encodeURIComponent], Base64, [path.join] and [path.dirname].
    - The file system is a finite map from path names to nodes; a node is
      a regular file (bytes and permission bits) or a directory.  A write
      fails on a directory, [unlinkSync] fails on a directory and on a
      missing path; a file or directory is created only in a directory
      that is there.
    - A synchronous call that may throw returns a [completion]; a promise
      is described by how it ends ([settled]).
    - What the program cannot decide (the answers of the network, the
      entries of an archive, the CPU architecture, the script directory,
      the random identifier) is a record of type [platform] passed to the
      code, so that every function runs on a concrete platform.
    - The one unbounded recursion, the following of redirects, takes a
      bound on the number of requests and says when it is exceeded. *)

From Stdlib Require Import ZArith Ascii String List Lia Bool.
From Stdlib Require DecimalString DecimalZ DecimalPos DecimalFacts.
From stdpp Require Import gmap strings list fin_maps.
Import ListNotations.

Local Open Scope Z_scope.

Set Warnings "-register-all".

(* ===================================================================== *)
(** ** Byte strings *)
(* ===================================================================== *)

Module Str.

Definition code (c : ascii) : Z := Z.of_N (N_of_ascii c).
Definition chr (z : Z) : ascii := ascii_of_N (Z.to_N (z mod 256)).

Fixpoint bytes (s : string) : list Z :=
  match s with
  | EmptyString => []
  | String c s' => code c :: bytes s'
  end.

Fixpoint of_bytes (l : list Z) : string :=
  match l with
  | [] => EmptyString
  | b :: l' => String (chr b) (of_bytes l')
  end.

(** [s.startsWith(p)] *)
Definition startsWith (p s : string) : bool := String.prefix p s.

(** [s.slice(b, e)] for [0 <= b <= e]: the characters at positions
    [b .. e-1] that exist. *)
Definition slice (b e : nat) (s : string) : string :=
  String.substring b (e - b) s.

(** [s.replace(/ /g, '_')] *)
Fixpoint replace_spaces (s : string) : string :=
  match s with
  | EmptyString => EmptyString
  | String c s' =>
      String (if Ascii.eqb c " "%char then "_"%char else c) (replace_spaces s')
  end.

(** JavaScript truthiness of a string: non-empty. *)
Definition truthy (s : string) : bool :=
  match s with EmptyString => false | _ => true end.

Definition hexdigit (n : Z) : ascii :=
  if n <? 10 then chr (48 + n) else chr (87 + n).


(** Two lowercase hexadecimal digits per byte, as [digest('hex')]. *)
Fixpoint hex (l : list Z) : string :=
  match l with
  | [] => EmptyString
  | b :: l' =>
      String (hexdigit ((b mod 256) / 16))
        (String (hexdigit (b mod 16)) (hex l'))
  end.

Fixpoint all_chars (p : ascii -> bool) (s : string) : bool :=
  match s with
  | EmptyString => true
  | String c s' => p c && all_chars p s'
  end.

End Str.

(* ===================================================================== *)
(** ** MD5 (RFC 1321), the hash behind [crypto.createHash('md5')] *)
(* ===================================================================== *)

Module MD5.

Definition w32 (x : Z) : Z := x mod 2 ^ 32.
Definition add32 (x y : Z) : Z := w32 (x + y).
Definition not32 (x : Z) : Z := 2 ^ 32 - 1 - x.
Definition rotl32 (x n : Z) : Z :=
  w32 (Z.lor (Z.shiftl x n) (Z.shiftr x (32 - n))).

Definition K : list Z :=
  [ 3614090360; 3905402710; 606105819; 3250441966;
    4118548399; 1200080426; 2821735955; 4249261313;
    1770035416; 2336552879; 4294925233; 2304563134;
    1804603682; 4254626195; 2792965006; 1236535329;
    4129170786; 3225465664; 643717713; 3921069994;
    3593408605; 38016083; 3634488961; 3889429448;
    568446438; 3275163606; 4107603335; 1163531501;
    2850285829; 4243563512; 1735328473; 2368359562;
    4294588738; 2272392833; 1839030562; 4259657740;
    2763975236; 1272893353; 4139469664; 3200236656;
    681279174; 3936430074; 3572445317; 76029189;
    3654602809; 3873151461; 530742520; 3299628645;
    4096336452; 1126891415; 2878612391; 4237533241;
    1700485571; 2399980690; 4293915773; 2240044497;
    1873313359; 4264355552; 2734768916; 1309151649;
    4149444226; 3174756917; 718787259; 3951481745 ].

Definition shifts : list Z :=
  [ 7; 12; 17; 22; 7; 12; 17; 22; 7; 12; 17; 22; 7; 12; 17; 22;
    5; 9; 14; 20; 5; 9; 14; 20; 5; 9; 14; 20; 5; 9; 14; 20;
    4; 11; 16; 23; 4; 11; 16; 23; 4; 11; 16; 23; 4; 11; 16; 23;
    6; 10; 15; 21; 6; 10; 15; 21; 6; 10; 15; 21; 6; 10; 15; 21 ].

Record state := mk { sa : Z; sb : Z; sc : Z; sd : Z }.

Definition init : state :=
  mk 1732584193 4023233417 2562383102 271733878.

(** Little-endian 32-bit words of a block of bytes. *)
Fixpoint words (l : list Z) : list Z :=
  match l with
  | b0 :: b1 :: b2 :: b3 :: l' =>
      (b0 + 256 * b1 + 65536 * b2 + 16777216 * b3) :: words l'
  | _ => []
  end.

Definition word_bytes (x : Z) : list Z :=
  [ x mod 256; (x / 256) mod 256; (x / 65536) mod 256;
    (x / 16777216) mod 256 ].

(** One of the 64 operations of a block. *)
Definition step (m : list Z) (st : state) (i : nat) : state :=
  let '(mk a b c d) := st in
  let iz := Z.of_nat i in
  let '(f, g) :=
    if iz <? 16 then (Z.lor (Z.land b c) (Z.land (not32 b) d), iz)
    else if iz <? 32 then
      (Z.lor (Z.land d b) (Z.land (not32 d) c), (5 * iz + 1) mod 16)
    else if iz <? 48 then (Z.lxor (Z.lxor b c) d, (3 * iz + 5) mod 16)
    else (Z.lxor c (Z.lor b (not32 d)), (7 * iz) mod 16) in
  let f' :=
    add32 (add32 (add32 f a) (nth i K 0)) (nth (Z.to_nat g) m 0) in
  mk d (add32 b (rotl32 f' (nth i shifts 0))) b c.

Definition compress (st : state) (block : list Z) : state :=
  let st' := fold_left (step (words block)) (seq 0 64) st in
  mk (add32 (sa st) (sa st')) (add32 (sb st) (sb st'))
     (add32 (sc st) (sc st')) (add32 (sd st) (sd st')).

(** Padding: a [0x80] byte, zeros up to 56 modulo 64, then the bit
    length on 8 little-endian bytes. *)
Definition pad (msg : list Z) : list Z :=
  let len := Z.of_nat (length msg) in
  let zeros := Z.to_nat ((55 - len) mod 64) in
  let bits := (8 * len) mod 2 ^ 64 in
  msg ++ [128] ++ repeat 0 zeros
      ++ word_bytes (bits mod 2 ^ 32) ++ word_bytes (bits / 2 ^ 32).

Fixpoint blocks (fuel : nat) (st : state) (l : list Z) : state :=
  match fuel, l with
  | S fuel', _ :: _ => blocks fuel' (compress st (firstn 64 l)) (skipn 64 l)
  | _, _ => st
  end.

Definition digest_of (st : state) : list Z :=
  word_bytes (sa st) ++ word_bytes (sb st)
    ++ word_bytes (sc st) ++ word_bytes (sd st).

Definition digest (msg : list Z) : list Z :=
  let p := pad msg in digest_of (blocks (length p) init p).

(** [crypto.createHash('md5').update(s).digest('hex')] *)
Definition hexdigest (s : string) : string :=
  Str.hex (digest (Str.bytes s)).

End MD5.


(* ===================================================================== *)
(** ** Exceptions and completions *)
(* ===================================================================== *)

(** What a call can throw, or a promise be rejected with. *)
Inductive exn :=
| SyntaxError                 (* JSON.parse on a malformed text *)
| TypeError                   (* a property read on null *)
| RequestError (msg : string) (* the 'error' event of a request *)
| TimeoutError                (* the error made up after the 5 s timeout *)
| ENOENT (path : string)
| EISDIR (path : string)
| EEXIST (path : string)
| ArchiveError                (* yauzl: not an archive, or an unreadable entry *)
| ENOTDIR (path : string).

(** The completion of a synchronous call. *)
Inductive completion (A : Type) :=
| Normal (a : A)
| Throw (e : exn).
Arguments Normal {A} a.
Arguments Throw {A} e.

#[global] Instance completion_ret : MRet completion := fun _ a => Normal a.

#[global] Instance completion_bind : MBind completion := fun _ _ k c =>
  match c with
  | Normal a => k a
  | Throw e => Throw e
  end.

(* ===================================================================== *)
(** ** JSON: values, [JSON.stringify(v, null, 2)], [JSON.parse] *)
(* ===================================================================== *)

Module JSON.

(** A number is an integer, a decimal kept as it was written, or NaN
    (which [parseInt] produces and [JSON.stringify] prints as null).
    Integers are exact here and doubles in the runtime: the two agree
    for magnitudes below 2^53, and the statements about ports keep to
    that range. *)
Inductive number :=
| Int (z : Z)
| Dec (lexeme : string)
| NaN.

Inductive value :=
| Null
| Bool (b : bool)
| Num (n : number)
| Str (s : string)
| Arr (items : list value)
| Obj (fields : list (string * value)).

Definition dq : ascii := "034"%char.
Definition nl : ascii := "010"%char.

Definition print_int (z : Z) : string :=
  DecimalString.NilZero.string_of_int (Z.to_int z).

Definition number_to_string (n : number) : string :=
  match n with
  | Int z => print_int z
  | Dec l => l
  | NaN => "NaN"
  end.

(** String conversion, as a template literal does it; [None] is
    [undefined]. *)
Fixpoint to_string (v : value) : string :=
  match v with
  | Null => "null"
  | Bool true => "true"
  | Bool false => "false"
  | Num n => number_to_string n
  | Str s => s
  | Arr items =>
      let elem x := match x with Null => "" | _ => to_string x end in
      (fix join (l : list value) : string :=
         match l with
         | [] => ""
         | [x] => elem x
         | x :: l' => elem x +:+ "," +:+ join l'
         end) items
  | Obj _ => "[object Object]"
  end.

Definition template (o : option value) : string :=
  match o with
  | None => "undefined"
  | Some v => to_string v
  end.

(** The last binding of a key (a later duplicate overrides). *)
Fixpoint lookup_field (k : string) (fields : list (string * value))
  : option value :=
  match fields with
  | [] => None
  | (k', v) :: rest =>
      match lookup_field k rest with
      | Some v' => Some v'
      | None => if String.eqb k k' then Some v else None
      end
  end.

(** [v.k] for a key that no prototype defines: throws on null,
    [undefined] on anything that is not an object holding the key. *)
Definition get (v : value) (k : string) : completion (option value) :=
  match v with
  | Null => Throw TypeError
  | Obj fields => Normal (lookup_field k fields)
  | _ => Normal None
  end.

(** *** Serialisation *)

Definition escape_char (c : ascii) : string :=
  let n := Str.code c in
  if n =? 34 then String "\" (String dq "")
  else if n =? 92 then "\\"
  else if n =? 8 then "\b"
  else if n =? 9 then "\t"
  else if n =? 10 then "\n"
  else if n =? 12 then "\f"
  else if n =? 13 then "\r"
  else if n <? 32 then
    "\u00" +:+ String (Str.hexdigit (n / 16))
                 (String (Str.hexdigit (n mod 16)) "")
  else String c "".

Fixpoint escape (s : string) : string :=
  match s with
  | EmptyString => ""
  | String c s' => escape_char c +:+ escape s'
  end.

Definition quote (s : string) : string :=
  String dq (escape s +:+ String dq "").

Fixpoint spaces (n : nat) : string :=
  match n with
  | O => ""
  | S n' => String " " (spaces n')
  end.

(** Members or items, one per line at indentation [ind], separated by
    commas. *)
Fixpoint lines (ind : nat) (l : list string) : string :=
  match l with
  | [] => ""
  | [x] => String nl (spaces ind +:+ x)
  | x :: l' => String nl (spaces ind +:+ x +:+ "," +:+ lines ind l')
  end.

(** [ind] is the indentation of the line the value starts on; the gap
    is two spaces. *)
Fixpoint stringify_at (ind : nat) (v : value) : string :=
  match v with
  | Null => "null"
  | Bool true => "true"
  | Bool false => "false"
  | Num (Int z) => print_int z
  | Num (Dec l) => l
  | Num NaN => "null"
  | Str s => quote s
  | Arr [] => "[]"
  | Arr items =>
      "[" +:+ lines (2 + ind) (map (stringify_at (2 + ind)) items)
          +:+ String nl (spaces ind +:+ "]")
  | Obj [] => "{}"
  | Obj fields =>
      "{" +:+ lines (2 + ind)
                (map (fun kv => quote (fst kv) +:+ ": "
                                 +:+ stringify_at (2 + ind) (snd kv))
                     fields)
          +:+ String nl (spaces ind +:+ "}")
  end.

(** [JSON.stringify(v, null, 2)] *)
Definition stringify (v : value) : string := stringify_at 0 v.

(** *** Parsing *)

Definition is_ws (c : ascii) : bool :=
  Ascii.eqb c " " || Ascii.eqb c "009" || Ascii.eqb c "010"
  || Ascii.eqb c "013".

Fixpoint skip_ws (s : string) : string :=
  match s with
  | String c s' => if is_ws c then skip_ws s' else s
  | EmptyString => s
  end.

Definition digit_of (c : ascii) : option (Decimal.uint -> Decimal.uint) :=
  let n := Str.code c in
  if n =? 48 then Some Decimal.D0
  else if n =? 49 then Some Decimal.D1
  else if n =? 50 then Some Decimal.D2
  else if n =? 51 then Some Decimal.D3
  else if n =? 52 then Some Decimal.D4
  else if n =? 53 then Some Decimal.D5
  else if n =? 54 then Some Decimal.D6
  else if n =? 55 then Some Decimal.D7
  else if n =? 56 then Some Decimal.D8
  else if n =? 57 then Some Decimal.D9
  else None.

(** The longest run of decimal digits at the head of [s]. *)
Fixpoint scan_uint (s : string) : Decimal.uint * string :=
  match s with
  | String c s' =>
      match digit_of c with
      | Some d => let '(u, r) := scan_uint s' in (d u, r)
      | None => (Decimal.Nil, s)
      end
  | EmptyString => (Decimal.Nil, s)
  end.

Definition digits (u : Decimal.uint) : string :=
  DecimalString.NilEmpty.string_of_uint u.

Definition is_nil (u : Decimal.uint) : bool :=
  match u with
  | Decimal.Nil => true
  | _ => false
  end.

(** The optional fraction of a number: its text and what follows;
    [None] when no digit follows the point. *)
Definition scan_frac (s : string) : option (string * string) :=
  match s with
  | String c s1 =>
      if Ascii.eqb c "." then
        let '(u, r) := scan_uint s1 in
        if is_nil u then None else Some ("." +:+ digits u, r)
      else Some ("", s)
  | EmptyString => Some ("", s)
  end.

(** The optional exponent of a number, likewise. *)
Definition scan_exp (s : string) : option (string * string) :=
  match s with
  | String c r1 =>
      if Ascii.eqb c "e" || Ascii.eqb c "E" then
        let '(sg, r2) :=
          match r1 with
          | String c' r' =>
              if Ascii.eqb c' "+" || Ascii.eqb c' "-"
              then (String c' "", r') else ("", r1)
          | EmptyString => ("", r1)
          end in
        let '(u, r3) := scan_uint r2 in
        if is_nil u then None else Some (String c (sg +:+ digits u), r3)
      else Some ("", s)
  | EmptyString => Some ("", s)
  end.

Definition scan_frac_exp (s : string) : option (string * string) :=
  match scan_frac s with
  | None => None
  | Some (f, r) =>
      match scan_exp r with
      | None => None
      | Some (e, r') => Some (f +:+ e, r')
      end
  end.

(** A zero followed by more digits. *)
Definition leading_zero (u : Decimal.uint) : bool :=
  match u with
  | Decimal.D0 u' => negb (is_nil u')
  | _ => false
  end.

Definition parse_number (s : string) : option (number * string) :=
  let '(neg, s0) :=
    match s with
    | String c s' => if Ascii.eqb c "-" then (true, s') else (false, s)
    | EmptyString => (false, s)
    end in
  let '(u, s1) := scan_uint s0 in
  if is_nil u || leading_zero u then None
  else
    match scan_frac_exp s1 with
    | None => None
    | Some (EmptyString, _) =>
        Some (Int (Z.of_int (if neg then Decimal.Neg u
                             else Decimal.Pos u)), s1)
    | Some (fe, s2) =>
        Some (Dec ((if neg then "-" else "") +:+ digits u +:+ fe), s2)
    end.

Definition hexval (c : ascii) : option Z :=
  let n := Str.code c in
  if (48 <=? n) && (n <=? 57) then Some (n - 48)
  else if (97 <=? n) && (n <=? 102) then Some (n - 87)
  else if (65 <=? n) && (n <=? 70) then Some (n - 55)
  else None.

(** The bytes of a code unit written [\uXXXX].  A surrogate is encoded
    by itself, where the runtime joins a pair into one code point; no
    statement depends on text outside the basic plane. *)
Definition unit_bytes (n : Z) : string :=
  if n <? 128 then String (Str.chr n) ""
  else if n <? 2048 then
    String (Str.chr (192 + n / 64)) (String (Str.chr (128 + n mod 64)) "")
  else
    String (Str.chr (224 + n / 4096))
      (String (Str.chr (128 + (n / 64) mod 64))
         (String (Str.chr (128 + n mod 64)) "")).

Definition simple_escape (c : ascii) : option ascii :=
  let n := Str.code c in
  if n =? 34 then Some dq
  else if n =? 92 then Some "\"%char
  else if n =? 47 then Some "/"%char
  else if n =? 98 then Some "008"%char
  else if n =? 102 then Some "012"%char
  else if n =? 110 then Some "010"%char
  else if n =? 114 then Some "013"%char
  else if n =? 116 then Some "009"%char
  else None.

Definition with_prefix (p : string) (r : option (string * string))
  : option (string * string) :=
  match r with
  | Some (s, rest) => Some (p +:+ s, rest)
  | None => None
  end.

(** The characters of a string literal after its opening quote, up to
    and including the closing quote. *)
Fixpoint parse_chars (s : string) : option (string * string) :=
  match s with
  | EmptyString => None
  | String c s1 =>
      if Ascii.eqb c dq then Some ("", s1)
      else if Ascii.eqb c "\" then
        match s1 with
        | String e s2 =>
            match simple_escape e with
            | Some ch => with_prefix (String ch "") (parse_chars s2)
            | None =>
                if Ascii.eqb e "u" then
                  match s2 with
                  | String h1 (String h2 (String h3 (String h4 s3))) =>
                      match hexval h1, hexval h2, hexval h3, hexval h4 with
                      | Some a, Some b, Some c', Some d =>
                          with_prefix
                            (unit_bytes (4096 * a + 256 * b + 16 * c' + d))
                            (parse_chars s3)
                      | _, _, _, _ => None
                      end
                  | _ => None
                  end
                else None
            end
        | EmptyString => None
        end
      else if Str.code c <? 32 then None
      else with_prefix (String c "") (parse_chars s1)
  end.

Definition parser (A : Type) : Type := string -> option (A * string).

(** The items of a non-empty array, from the first item to the
    closing bracket. *)
Fixpoint parse_items (pv : parser value) (n : nat) (s : string)
  : option (list value * string) :=
  match n with
  | O => None
  | S n' =>
      match pv s with
      | None => None
      | Some (v, s1) =>
          match skip_ws s1 with
          | String c s2 =>
              if Ascii.eqb c "," then
                match parse_items pv n' (skip_ws s2) with
                | Some (vs, r) => Some (v :: vs, r)
                | None => None
                end
              else if Ascii.eqb c "]" then Some ([v], s2)
              else None
          | EmptyString => None
          end
      end
  end.

(** One member of an object: the key, the colon and the value. *)
Definition parse_member (pv : parser value) (s : string)
  : option ((string * value) * string) :=
  match s with
  | String c s0 =>
      if Ascii.eqb c dq then
        match parse_chars s0 with
        | None => None
        | Some (k, s1) =>
            match skip_ws s1 with
            | String c' s2 =>
                if Ascii.eqb c' ":" then
                  match pv (skip_ws s2) with
                  | Some (v, s3) => Some ((k, v), s3)
                  | None => None
                  end
                else None
            | EmptyString => None
            end
        end
      else None
  | EmptyString => None
  end.

(** The members of a non-empty object, from the first key to the
    closing brace. *)
Fixpoint parse_members (pv : parser value) (n : nat) (s : string)
  : option (list (string * value) * string) :=
  match n with
  | O => None
  | S n' =>
      match parse_member pv s with
      | None => None
      | Some (kv, s1) =>
          match skip_ws s1 with
          | String c s2 =>
              if Ascii.eqb c "," then
                match parse_members pv n' (skip_ws s2) with
                | Some (kvs, r) => Some (kv :: kvs, r)
                | None => None
                end
              else if Ascii.eqb c "}" then Some ([kv], s2)
              else None
          | EmptyString => None
          end
      end
  end.

(** [s] without the prefix [word]; [None] if it does not start so. *)
Fixpoint strip_prefix (word s : string) : option string :=
  match word with
  | EmptyString => Some s
  | String c word' =>
      match s with
      | String c' s' =>
          if Ascii.eqb c c' then strip_prefix word' s' else None
      | EmptyString => None
      end
  end.

Definition expect (word : string) (v : value) (s : string)
  : option (value * string) :=
  match strip_prefix word s with
  | Some rest => Some (v, rest)
  | None => None
  end.

Definition on_fst {A B C} (f : A -> B) (r : option (A * C))
  : option (B * C) :=
  match r with
  | Some (a, c) => Some (f a, c)
  | None => None
  end.

(** One value at the head of [s] (no leading white space); [fuel]
    bounds the nesting depth and the number of items of a container. *)
Fixpoint parse_value (fuel : nat) (s : string) : option (value * string) :=
  match fuel with
  | O => None
  | S f =>
      match s with
      | EmptyString => None
      | String c s1 =>
          if Ascii.eqb c "{" then
            match skip_ws s1 with
            | String c' s2 =>
                if Ascii.eqb c' "}" then Some (Obj [], s2)
                else on_fst Obj
                       (parse_members (parse_value f) f (String c' s2))
            | EmptyString => None
            end
          else if Ascii.eqb c "[" then
            match skip_ws s1 with
            | String c' s2 =>
                if Ascii.eqb c' "]" then Some (Arr [], s2)
                else on_fst Arr
                       (parse_items (parse_value f) f (String c' s2))
            | EmptyString => None
            end
          else if Ascii.eqb c dq then on_fst Str (parse_chars s1)
          else if Ascii.eqb c "t" then expect "true" (Bool true) s
          else if Ascii.eqb c "f" then expect "false" (Bool false) s
          else if Ascii.eqb c "n" then expect "null" Null s
          else on_fst Num (parse_number s)
      end
  end.

(** [JSON.parse(text)]; [None] stands for the SyntaxError it throws.
    No container is nested deeper, or has more items, than the text
    has characters, so the fuel never runs out on a well-formed text. *)
Definition parse (text : string) : option value :=
  match parse_value (S (String.length text)) (skip_ws text) with
  | Some (v, rest) =>
      match skip_ws rest with
      | EmptyString => Some v
      | _ => None
      end
  | None => None
  end.

End JSON.

(* ===================================================================== *)
(** ** Library functions of the runtime *)
(* ===================================================================== *)

Module JS.

(** [a || b] on strings; [None] is [undefined]. *)
Definition or_else (a : option string) (b : string) : string :=
  match a with
  | Some s => if Str.truthy s then s else b
  | None => b
  end.

(** The white space of the language ([WhiteSpace] and
    [LineTerminator]).  Text is UTF-8, so that a white-space character
    takes one byte (U+0009 to U+000D, U+0020), two (U+00A0), or three
    (U+1680, U+2000 to U+200A, U+2028, U+2029, U+202F, U+205F, U+3000,
    U+FEFF). *)
Definition is_space (c : ascii) : bool :=
  let n := Str.code c in ((9 <=? n) && (n <=? 13)) || (n =? 32).

Definition is_space2 (a b : ascii) : bool :=
  (Str.code a =? 194) && (Str.code b =? 160).

Definition is_space3 (a b c : ascii) : bool :=
  let x := Str.code a in
  let y := Str.code b in
  let z := Str.code c in
  ((x =? 225) && (y =? 154) && (z =? 128))
  || ((x =? 226) && (y =? 128)
      && (((128 <=? z) && (z <=? 138)) || (z =? 168) || (z =? 169)
          || (z =? 175)))
  || ((x =? 226) && (y =? 129) && (z =? 159))
  || ((x =? 227) && (y =? 128) && (z =? 128))
  || ((x =? 239) && (y =? 187) && (z =? 191)).

Fixpoint trim_start (s : string) : string :=
  match s with
  | String a s1 =>
      if is_space a then trim_start s1
      else
        match s1 with
        | String b s2 =>
            if is_space2 a b then trim_start s2
            else
              match s2 with
              | String c s3 =>
                  if is_space3 a b c then trim_start s3 else s
              | EmptyString => s
              end
        | EmptyString => s
        end
  | EmptyString => s
  end.

Fixpoint rev_append (s acc : string) : string :=
  match s with
  | EmptyString => acc
  | String c s' => rev_append s' (String c acc)
  end.

Definition rev (s : string) : string := rev_append s "".

(** [trim_start] on a text read from its end: the bytes of a
    character come last byte first. *)
Fixpoint trim_reversed (r : string) : string :=
  match r with
  | String a r1 =>
      if is_space a then trim_reversed r1
      else
        match r1 with
        | String b r2 =>
            if is_space2 b a then trim_reversed r2
            else
              match r2 with
              | String c r3 =>
                  if is_space3 c b a then trim_reversed r3 else r
              | EmptyString => r
              end
        | EmptyString => r
        end
  | EmptyString => r
  end.

Definition trim_end (s : string) : string := rev (trim_reversed (rev s)).

(** [s.trim()] *)
Definition trim (s : string) : string := trim_end (trim_start s).

(** [s.split(sep)] for a one-character separator: never empty. *)
Fixpoint split (sep : ascii) (s : string) : list string :=
  match s with
  | EmptyString => [EmptyString]
  | String c s' =>
      if Ascii.eqb c sep then EmptyString :: split sep s'
      else match split sep s' with
           | h :: t => String c h :: t
           | [] => [String c ""]
           end
  end.

Definition digit_value (radix : Z) (c : ascii) : option Z :=
  match JSON.hexval c with
  | Some d => if d <? radix then Some d else None
  | None => None
  end.

(** The value of the longest run of digits at the head of [s], after
    the digits read so far ([acc]); [None] without a digit. *)
Fixpoint read_digits (radix : Z) (acc : option Z) (s : string) : option Z :=
  match s with
  | String c s' =>
      match digit_value radix c with
      | Some d =>
          read_digits radix
            (Some (radix * match acc with Some a => a | None => 0 end + d))
            s'
      | None => acc
      end
  | EmptyString => acc
  end.

(** [parseInt(s)]: leading white space, a sign, an optional [0x], then
    digits; NaN without a digit. *)
Definition parseInt (s : string) : JSON.number :=
  let s0 := trim_start s in
  let '(sign, s1) :=
    match s0 with
    | String "-" r => (-1, r)
    | String "+" r => (1, r)
    | _ => (1, s0)
    end in
  let '(radix, s2) :=
    match s1 with
    | String "0" (String "x" r) => (16, r)
    | String "0" (String "X" r) => (16, r)
    | _ => (10, s1)
    end in
  match read_digits radix None s2 with
  | Some v => JSON.Int (sign * v)
  | None => JSON.NaN
  end.

Definition unreserved (c : ascii) : bool :=
  let n := Str.code c in
  ((48 <=? n) && (n <=? 57)) || ((65 <=? n) && (n <=? 90))
  || ((97 <=? n) && (n <=? 122))
  || existsb (Z.eqb n) [45; 95; 46; 33; 126; 42; 39; 40; 41].

Definition upper_hexdigit (n : Z) : ascii :=
  if n <? 10 then Str.chr (48 + n) else Str.chr (55 + n).

(** [encodeURIComponent(s)] on the UTF-8 bytes of [s]. *)
Fixpoint encodeURIComponent (s : string) : string :=
  match s with
  | EmptyString => EmptyString
  | String c s' =>
      if unreserved c then String c (encodeURIComponent s')
      else String "%"
             (String (upper_hexdigit (Str.code c / 16))
                (String (upper_hexdigit (Str.code c mod 16))
                   (encodeURIComponent s')))
  end.

Definition base64_char (n : Z) : ascii :=
  if n <? 26 then Str.chr (65 + n)
  else if n <? 52 then Str.chr (71 + n)
  else if n <? 62 then Str.chr (n - 4)
  else if n =? 62 then "+"%char
  else "/"%char.

Fixpoint base64_bytes (l : list Z) : string :=
  match l with
  | [] => EmptyString
  | [a] =>
      String (base64_char (a / 4))
        (String (base64_char ((a mod 4) * 16)) "==")
  | [a; b] =>
      String (base64_char (a / 4))
        (String (base64_char ((a mod 4) * 16 + b / 16))
           (String (base64_char ((b mod 16) * 4)) "="))
  | a :: b :: c :: l' =>
      String (base64_char (a / 4))
        (String (base64_char ((a mod 4) * 16 + b / 16))
           (String (base64_char ((b mod 16) * 4 + c / 64))
              (String (base64_char (c mod 64)) (base64_bytes l'))))
  end.

(** [Buffer.from(s).toString('base64')] *)
Definition base64 (s : string) : string := base64_bytes (Str.bytes s).

End JS.

(** [path.join] and [path.dirname] on the paths the program builds: a
    directory name as the runtime gives it, extended by plain segments. *)
Module Path.

Fixpoint ends_with_slash (s : string) : bool :=
  match s with
  | EmptyString => false
  | String c EmptyString => Ascii.eqb c "/"
  | String _ s' => ends_with_slash s'
  end.

Definition join2 (dir seg : string) : string :=
  if ends_with_slash dir then dir +:+ seg else dir +:+ "/" +:+ seg.

Definition join (dir : string) (segs : list string) : string :=
  fold_left join2 segs dir.

(** What precedes the last slash of [s]; [None] without a slash. *)
Fixpoint before_last_slash (s : string) : option string :=
  match s with
  | EmptyString => None
  | String c s' =>
      match before_last_slash s' with
      | Some d => Some (String c d)
      | None => if Ascii.eqb c "/" then Some EmptyString else None
      end
  end.

Definition dirname (s : string) : string :=
  match before_last_slash s with
  | Some EmptyString => "/"
  | Some d => d
  | None => "."
  end.

End Path.

(* ===================================================================== *)
(** ** The file system *)
(* ===================================================================== *)

Inductive node :=
| File (data : string) (mode : Z)
| Dir.

Module Fs.

(** Permission bits of a file created without an explicit mode:
    0o666 under the umask 0o022 of the container, 0o644. *)
Definition default_mode : Z := 420.

Definition existsSync (p : string) (fs : gmap string node) : bool :=
  match fs !! p with
  | Some _ => true
  | None => false
  end.

(** The directory that is to hold [p] must be there: it is the
    working directory for a name without a slash and the root for a
    name right below it, which exist; otherwise it is a directory of
    the map, or the call fails. *)
Definition parent (p : string) (fs : gmap string node) : completion unit :=
  match Path.before_last_slash p with
  | None => Normal tt
  | Some EmptyString => Normal tt
  | Some d =>
      match fs !! d with
      | Some Dir => Normal tt
      | Some (File _ _) => Throw (ENOTDIR p)
      | None => Throw (ENOENT p)
      end
  end.

Definition unlinkSync (p : string) (fs : gmap string node)
  : completion (gmap string node) :=
  match fs !! p with
  | Some (File _ _) => Normal (delete p fs)
  | Some Dir => Throw (EISDIR p)
  | None => Throw (ENOENT p)
  end.

(** [mkdirSync(p)], not recursive. *)
Definition mkdirSync (p : string) (fs : gmap string node)
  : completion (gmap string node) :=
  _ ← parent p fs;
  match fs !! p with
  | Some _ => Throw (EEXIST p)
  | None => Normal (<[p := Dir]> fs)
  end.

Definition chmodSync (p : string) (m : Z) (fs : gmap string node)
  : completion (gmap string node) :=
  match fs !! p with
  | Some (File d _) => Normal (<[p := File d m]> fs)
  | Some Dir => Normal fs
  | None => Throw (ENOENT p)
  end.

(** Create or truncate the file and write [data]: [writeFileSync], or
    a write stream fed [data].  An existing file keeps its mode. *)
Definition write (p : string) (data : string) (fs : gmap string node)
  : completion (gmap string node) :=
  _ ← parent p fs;
  match fs !! p with
  | Some Dir => Throw (EISDIR p)
  | Some (File _ m) => Normal (<[p := File data m]> fs)
  | None => Normal (<[p := File data default_mode]> fs)
  end.

Definition readFile (p : string) (fs : gmap string node)
  : completion string :=
  match fs !! p with
  | Some (File d _) => Normal d
  | Some Dir => Throw (EISDIR p)
  | None => Throw (ENOENT p)
  end.

End Fs.

(* ===================================================================== *)
(** ** Promises, the platform and the world *)
(* ===================================================================== *)

(** How a promise ends.  [Pending]: no callback that would resolve or
    reject it will ever run.  [Uncaught e]: an event callback threw [e]
    outside of any promise; the host process dies of it. *)
Inductive settled (A : Type) :=
| Resolved (a : A)
| Rejected (e : exn)
| Pending
| Uncaught (e : exn).
Arguments Resolved {A} a.
Arguments Rejected {A} e.
Arguments Pending {A}.
Arguments Uncaught {A} e.

(** How a response that has started stops short of its end. *)
Inductive cut :=
| Closed                  (* the connection is closed, no event follows *)
| Reset (msg : string)    (* the request emits 'error' *)
| Idle                    (* the connection stays open, and silent *).

(** The answer of the network to one request.  Of a redirect that the
    download follows only the head is read: it is a [Response] whatever
    becomes of its body. *)
Inductive reply :=
| Failed (msg : string)   (* the request emits 'error' *)
| Stalled                 (* nothing arrives, for as long as one waits *)
| Response (statusCode : Z) (location : option string) (body : string)
| Cut (partial : string) (how : cut)
    (* a response starts, [partial] of its body arrives, and no 'end' *).

(** What [openReadStream] gives for an entry. *)
Inductive entry_data :=
| Unreadable                (* the callback gets an error *)
| Truncated (read : string) (* a stream that emits 'error' after [read] *)
| Readable (data : string)  (* a stream of [data], to its end *).

Record zip_entry := { fileName : string; contents : entry_data }.

Record platform := {
  os_arch : string;                         (* os.arch() *)
  script_dir : string;                      (* __dirname *)
  randomUUID : string;                      (* crypto.randomUUID() *)
  https_get : nat -> string -> reply;       (* the n-th request, to a URL *)
  yauzl_open : string -> option (list zip_entry)
    (* the entries of an archive, in order; None if it cannot be opened *)
}.

Inductive signal := SIGINT | SIGTERM | SIGHUP | SIGKILL.

Definition signal_name (s : signal) : string :=
  match s with
  | SIGINT => "SIGINT"
  | SIGTERM => "SIGTERM"
  | SIGHUP => "SIGHUP"
  | SIGKILL => "SIGKILL"
  end.

(** The child process handle returned by [spawn]. *)
Record child := {
  command : string;
  args : list string;
  extra_env : list (string * string);
  alive : bool;
  received : list signal
}.

(** [child.kill(sig)]: delivered if the child is still running. *)
Definition kill (sig : signal) (c : child) : child :=
  if alive c
  then {| command := command c; args := args c; extra_env := extra_env c;
          alive := true; received := received c ++ [sig] |}
  else c.

(** What the process does that the outside can see, in order. *)
Inductive io :=
| Request (url : string)
| Sleep (ms : Z)
| Listen (event : string)   (* process.on(event, ...) *).

(** The listeners the program registers with [process.on]. *)
Inductive listener := cleanupAndExit.

Record world := {
  fs : gmap string node;
  trace : list io;                       (* oldest first *)
  listeners : list (string * listener);  (* process.on(event, listener) *)
  cleanups : nat                         (* calls of cleanup() so far *)
}.

Definition set_fs (f : gmap string node) (w : world) : world :=
  {| fs := f; trace := trace w; listeners := listeners w;
     cleanups := cleanups w |}.

Definition emit (e : io) (w : world) : world :=
  {| fs := fs w; trace := trace w ++ [e]; listeners := listeners w;
     cleanups := cleanups w |}.

Definition process_on (ev : string) (l : listener) (w : world) : world :=
  {| fs := fs w; trace := trace w ++ [Listen ev];
     listeners := listeners w ++ [(ev, l)]; cleanups := cleanups w |}.

Definition is_request (e : io) : bool :=
  match e with
  | Request _ => true
  | _ => false
  end.

Definition requests (t : list io) : list io := List.filter is_request t.

(** Send a request: the platform answers by the number of requests made
    before it. *)
Definition request (P : platform) (url : string) (w : world)
  : reply * world :=
  (https_get P (length (requests (trace w))) url, emit (Request url) w).

(** The variables of the environment the program reads. *)
Record environment := {
  SERVER_IP : option string;
  SERVER_PORT : option string;
  env_DOMAIN : option string;
  env_UUID : option string;
  env_WSPATH : option string;
  env_PORT : option string;
  env_NAME : option string
}.

Definition DOMAIN (env : environment) : string :=
  JS.or_else (env_DOMAIN env) "example.com".
Definition UUID (env : environment) : string := JS.or_else (env_UUID env) "".
Definition WSPATH (env : environment) : string :=
  JS.or_else (env_WSPATH env) "".
Definition PORT (env : environment) : string := JS.or_else (env_PORT env) "".
Definition NAME (env : environment) : string :=
  JS.or_else (env_NAME env) "Panel".

(* ===================================================================== *)
(** ** class XrayProxy *)
(* ===================================================================== *)

Record XrayProxy := {
  uuid : string;
  path : string;
  domain : string;
  port : JSON.number;
  process : option child;
  xrayPath : string;
  name : string
}.

Definition set_process (c : option child) (this : XrayProxy) : XrayProxy :=
  {| uuid := uuid this; path := path this; domain := domain this;
     port := port this; process := c; xrayPath := xrayPath this;
     name := name this |}.

Definition zipPath : string := "xray.zip".
Definition configPath : string := "config.json".
Definition linksPath : string := "vless_xray_links.txt".

(** [setupSignalHandlers] (app.js 43-51). *)
Definition setupSignalHandlers (w : world) : world :=
  process_on "SIGTERM" cleanupAndExit (process_on "SIGINT" cleanupAndExit w).

(** The access path of an identifier when WSPATH is empty. *)
Definition derived_path (id : string) : string :=
  "/" +:+ Str.slice 0 8 (MD5.hexdigest id).

(** The constructor (app.js 25-41). *)
Definition constructor (P : platform) (env : environment)
    (domain_ user_uuid : string) (port_ : JSON.number) (name_ : string)
    (w : world) : XrayProxy * world :=
  let id := if Str.truthy user_uuid then user_uuid else randomUUID P in
  let p :=
    if Str.truthy (WSPATH env)
    then (if Str.startsWith "/" (WSPATH env) then WSPATH env
          else "/" +:+ WSPATH env)
    else derived_path id in
  ({| uuid := id; path := p; domain := domain_; port := port_;
      process := None;
      xrayPath := Path.join (script_dir P) ["xray"; "xray"];
      name := name_ |},
   setupSignalHandlers w).

(** [detectEnvironment] (app.js 53-65): the server address and port, or
    [None] when the process exits with status 1. *)
Definition detectEnvironment (env : environment)
  : option (string * JSON.number) :=
  match SERVER_IP env, SERVER_PORT env with
  | Some ip, Some p =>
      if Str.truthy ip && Str.truthy p then Some (ip, JS.parseInt p)
      else None
  | _, _ => None
  end.

(** *** getISP (app.js 67-112) *)

Record source := { url : string; parse : string -> completion string }.

Definition parse_geoip (data : string) : completion string :=
  match JSON.parse data with
  | None => Throw SyntaxError
  | Some info =>
      cc ← JSON.get info "country_code";
      org ← JSON.get info "organization";
      Normal (Str.replace_spaces
                (JSON.template cc +:+ "-" +:+ JSON.template org))
  end.

(** [kv[k] = v] for a string [v] on an object made by [{}]: the key
    [__proto__] is an accessor of [Object.prototype], whose setter
    ignores a string; any other key becomes a property of [kv]. *)
Definition assign (k v : string) (kv : gmap string string)
  : gmap string string :=
  if String.eqb k "__proto__" then kv else <[k := v]> kv.

(** The assignments [kv[k.trim()] = v.trim()] of the lines of [data]. *)
Definition trace_fields (data : string) : gmap string string :=
  fold_left
    (fun kv line =>
       match JS.split "=" line with
       | k :: v :: _ =>
           if Str.truthy k && Str.truthy v
           then assign (JS.trim k) (JS.trim v) kv
           else kv
       | _ => kv
       end)
    (JS.split JSON.nl data) ∅.

Definition parse_trace (data : string) : completion string :=
  let kv := trace_fields data in
  Normal (Str.replace_spaces
            (JS.or_else (kv !! "loc") "UN" +:+ "-"
             +:+ JS.or_else (kv !! "as_organization") "CF")).

Definition apiSources : list source :=
  [ {| url := "https://api.ip.sb/geoip"; parse := parse_geoip |};
    {| url := "https://www.cloudflare.com/cdn-cgi/trace";
       parse := parse_trace |} ].

Definition no_source : source :=
  {| url := ""; parse := fun _ => Throw TypeError |}.

(** The source of attempt [attempt]:
    [apiSources[(attempt - 1) % apiSources.length]]. *)
Definition source_of (attempt : nat) : source :=
  nth ((attempt - 1) mod length apiSources) apiSources no_source.

(** The promise of one attempt.  The request rejects it on 'error' and
    on the 5 s timeout; the 'end' listener of the response resolves it
    with [source.parse(data)], and an exception of [parse] is thrown in
    that listener.  A response without 'end' settles nothing: the
    promise is left to the events of the request. *)
Definition attempt_promise (P : platform) (src : source) (w : world)
  : settled string * world :=
  let '(r, w') := request P (url src) w in
  match r with
  | Failed msg => (Rejected (RequestError msg), w')
  | Stalled => (Rejected TimeoutError, w')
  | Response _ _ data =>
      match parse src data with
      | Normal isp => (Resolved isp, w')
      | Throw e => (Uncaught e, w')
      end
  | Cut _ Closed => (Pending, w')
  | Cut _ (Reset msg) => (Rejected (RequestError msg), w')
  | Cut _ Idle => (Rejected TimeoutError, w')
  end.

(** The loop [for (attempt = a; attempt <= retries; attempt++)] with
    [n = retries + 1 - a] rounds to go.  The result is the string
    returned, or [None] for [undefined] when the loop runs to its end. *)
Fixpoint getISP_loop (P : platform) (retries : nat) (n : nat)
    (attempt : nat) (w : world) : settled (option string) * world :=
  match n with
  | O => (Resolved None, w)
  | S n' =>
      match attempt_promise P (source_of attempt) w with
      | (Resolved isp, w1) => (Resolved (Some isp), w1)
      | (Rejected _, w1) =>
          if Nat.eqb attempt retries then (Resolved (Some "Unknown"), w1)
          else getISP_loop P retries n' (S attempt) (emit (Sleep 1000) w1)
      | (Pending, w1) => (Pending, w1)
      | (Uncaught e, w1) => (Uncaught e, w1)
      end
  end.

Definition getISP (P : platform) (retries : nat) (w : world)
  : settled (option string) * world :=
  getISP_loop P retries retries 1 w.

(** *** Provisioning (app.js 114-161) *)

(** [getXrayDownloadUrl].  The function has no failure path; the
    completion type is there to say so. *)
Definition getXrayDownloadUrl (P : platform) : completion string :=
  let arch :=
    if String.eqb (os_arch P) "arm64" then "arm64-v8a" else "64" in
  Normal ("https://github.com/XTLS/Xray-core/releases/latest/download/Xray-linux-"
          +:+ arch +:+ ".zip").

Definition is_redirect (statusCode : Z) (location : option string) : bool :=
  (300 <=? statusCode)
  && match location with Some l => Str.truthy l | None => false end.

(** [_downloadFile(url, dest)].  [fuel] bounds the number of requests;
    [None] means that the chain of redirects is longer than that.  The
    write stream has no 'error' listener: when [dest] cannot be opened,
    its error is an uncaught exception.  The request has no timeout. *)
Fixpoint _downloadFile (P : platform) (fuel : nat) (url dest : string)
    (w : world) : option (settled unit * world) :=
  match fuel with
  | O => None
  | S fuel' =>
      let '(r, w1) := request P url w in
      match r with
      | Failed msg => Some (Rejected (RequestError msg), w1)
      | Stalled => Some (Pending, w1)
      | Response statusCode location body =>
          if is_redirect statusCode location
          then _downloadFile P fuel' (default "" location) dest w1
          else
            match Fs.write dest body (fs w1) with
            | Normal fs' => Some (Resolved tt, set_fs fs' w1)
            | Throw e => Some (Uncaught e, w1)
            end
      | Cut partial how =>
          match Fs.write dest partial (fs w1) with
          | Normal fs' =>
              Some (match how with
                    | Reset msg => Rejected (RequestError msg)
                    | _ => Pending
                    end, set_fs fs' w1)
          | Throw e => Some (Uncaught e, w1)
          end
      end
  end.

(** What [pipeline] has written when it ends, and whether it ends
    well. *)
Definition piped (d : entry_data) : option (string * bool) :=
  match d with
  | Unreadable => None
  | Truncated read => Some (read, false)
  | Readable data => Some (data, true)
  end.

(** The callback of [openReadStream] for the entry named xray.  An
    exception of [mkdirSync] is thrown in the callback; a failure of
    either stream rejects the promise through [pipeline]. *)
Definition install_entry (this : XrayProxy) (entry : zip_entry) (w : world)
  : settled bool * world :=
  match piped (contents entry) with
  | None => (Rejected ArchiveError, w)
  | Some (data, whole) =>
      let dir := Path.dirname (xrayPath this) in
      match (if negb (Fs.existsSync dir (fs w))
             then Fs.mkdirSync dir (fs w) else Normal (fs w)) with
      | Throw e => (Uncaught e, w)
      | Normal fs1 =>
          match Fs.write (xrayPath this) data fs1 with
          | Throw e => (Rejected e, set_fs fs1 w)
          | Normal fs2 =>
              if negb whole then (Rejected ArchiveError, set_fs fs2 w)
              else
                match Fs.chmodSync (xrayPath this) 493 (* 0o755 *) fs2 with
                | Throw e => (Rejected e, set_fs fs2 w)
                | Normal fs3 =>
                    match Fs.unlinkSync zipPath fs3 with
                    | Throw e => (Rejected e, set_fs fs3 w)
                    | Normal fs4 => (Resolved true, set_fs fs4 w)
                    end
                end
          end
      end
  end.

(** The 'entry' listener, driven by [readEntry]: each call of
    [readEntry] delivers the next entry, or 'end' after the last one,
    to which nothing listens. *)
Fixpoint read_entries (this : XrayProxy) (entries : list zip_entry)
    (w : world) : settled bool * world :=
  match entries with
  | [] => (Pending, w)
  | entry :: rest =>
      if String.eqb (fileName entry) "xray"
      then install_entry this entry w
      else read_entries this rest w
  end.

(** The promise returned from inside the [try] block: it is returned,
    not awaited, so the [catch] does not see its rejection. *)
Definition extract (P : platform) (this : XrayProxy) (w : world)
  : settled bool * world :=
  match Fs.readFile zipPath (fs w) with
  | Throw e => (Rejected e, w)
  | Normal bytes =>
      match yauzl_open P bytes with
      | None => (Rejected ArchiveError, w)
      | Some entries => read_entries this entries w
      end
  end.

(** [downloadAndExtract]: the [catch] turns a rejected download into
    the result false. *)
Definition downloadAndExtract (P : platform) (fuel : nat)
    (this : XrayProxy) (w : world) : option (settled bool * world) :=
  match getXrayDownloadUrl P with
  | Throw e => Some (Rejected e, w)
  | Normal url =>
      match _downloadFile P fuel url zipPath w with
      | None => None
      | Some (Resolved _, w1) => Some (extract P this w1)
      | Some (Rejected _, w1) => Some (Resolved false, w1)
      | Some (Pending, w1) => Some (Pending, w1)
      | Some (Uncaught e, w1) => Some (Uncaught e, w1)
      end
  end.

(** *** Configuration, subscription link, engine (app.js 163-201) *)

(** The object literal of [generateConfig]. *)
Definition config (this : XrayProxy) : JSON.value :=
  JSON.Obj
    [ ("log", JSON.Obj [("loglevel", JSON.Str "error")]);
      ("inbounds",
       JSON.Arr
         [ JSON.Obj
             [ ("port", JSON.Num (port this));
               ("listen", JSON.Str "0.0.0.0");
               ("protocol", JSON.Str "vless");
               ("settings",
                JSON.Obj
                  [ ("clients",
                     JSON.Arr
                       [ JSON.Obj [ ("id", JSON.Str (uuid this));
                                    ("level", JSON.Num (JSON.Int 0)) ] ]);
                    ("decryption", JSON.Str "none") ]);
               ("streamSettings",
                JSON.Obj
                  [ ("network", JSON.Str "ws");
                    ("security", JSON.Str "none");
                    ("wsSettings",
                     JSON.Obj
                       [ ("path", JSON.Str (path this));
                         ("headers",
                          JSON.Obj [("Host", JSON.Str (domain this))]) ])
                  ]) ] ]);
      ("outbounds",
       JSON.Arr [ JSON.Obj [ ("protocol", JSON.Str "freedom");
                             ("settings", JSON.Obj []) ] ]);
      ("policy",
       JSON.Obj
         [ ("levels",
            JSON.Obj
              [ ("0", JSON.Obj [ ("bufferSize", JSON.Num (JSON.Int 64));
                                 ("connIdle", JSON.Num (JSON.Int 120)) ])
              ]) ]) ].

Definition generateConfig (this : XrayProxy) (w : world) : completion world :=
  fs' ← Fs.write configPath (JSON.stringify (config this)) (fs w);
  Normal (set_fs fs' w).

Definition cdnLink (this : XrayProxy) (ispInfo : option string) : string :=
  let nodeName := name this +:+ "-" +:+ default "undefined" ispInfo in
  "vless://" +:+ uuid this +:+ "@" +:+ domain this
  +:+ ":443?encryption=none&security=tls&type=ws&host="
  +:+ JS.encodeURIComponent (domain this)
  +:+ "&path=" +:+ JS.encodeURIComponent (path this)
  +:+ "&sni=" +:+ JS.encodeURIComponent (domain this)
  +:+ "#" +:+ JS.encodeURIComponent nodeName.

Definition displayInfo (this : XrayProxy) (ispInfo : option string)
    (w : world) : completion world :=
  fs' ← Fs.write linksPath (JS.base64 (cdnLink this ispInfo)) (fs w);
  Normal (set_fs fs' w).

(** [spawn] hands back a handle to a running child. *)
Definition startService (this : XrayProxy) : XrayProxy :=
  set_process
    (Some {| command := xrayPath this;
             args := ["run"; "-config"; "config.json"];
             extra_env := [("GOMEMLIMIT", "12MiB"); ("GOGC", "10")];
             alive := true; received := [] |})
    this.

(** *** cleanup (app.js 203-208) *)

Definition try_catch {A} (body : completion A) (handler : exn -> completion A)
  : completion A :=
  match body with
  | Normal a => Normal a
  | Throw e => handler e
  end.

(** The body of the [forEach] callback:
    [try { if (fs.existsSync(f)) fs.unlinkSync(f); } catch(e){}] *)
Definition remove_if_exists (f : string) (files : gmap string node)
  : completion (gmap string node) :=
  try_catch
    (if Fs.existsSync f files then Fs.unlinkSync f files else Normal files)
    (fun _ => Normal files).

(** [l.forEach(body)]: an exception of [body] ends the iteration. *)
Fixpoint forEach {St} (body : string -> St -> completion St)
    (l : list string) (s : St) : completion St :=
  match l with
  | [] => Normal s
  | x :: l' => s' ← body x s; forEach body l' s'
  end.

Definition cleanup (this : XrayProxy) (w : world)
  : completion (XrayProxy * world) :=
  let this' :=
    match process this with
    | Some c => set_process (Some (kill SIGTERM c)) this
    | None => this
    end in
  fs' ← forEach remove_if_exists [zipPath; configPath; linksPath] (fs w);
  Normal (this',
          {| fs := fs'; trace := trace w; listeners := listeners w;
             cleanups := S (cleanups w) |}).

(* ===================================================================== *)
(** ** The host process: [main] and the events it may receive *)
(* ===================================================================== *)

Inductive status :=
| Running
| Exited (code : Z)     (* process.exit(code), or the event loop ran dry *)
| Crashed (e : exn)     (* uncaught exception *)
| Killed (s : signal)   (* default action of a signal nothing listens to *).

Record host := {
  proxy : option XrayProxy;            (* the object [main] constructs *)
  state : world;
  status_of : status;
  main_promise : settled unit          (* the promise of [main()] *)
}.

Definition boot (files : gmap string node) : world :=
  {| fs := files; trace := []; listeners := []; cleanups := 0 |}.

Definition finalPort (env : environment) (directPort : JSON.number)
  : JSON.number :=
  if String.eqb (PORT env) "" then directPort else JS.parseInt (PORT env).

(** The part of [main] that follows a true result of
    [downloadAndExtract]. *)
Definition serve (this : XrayProxy) (ispInfo : option string) (w : world)
  : host :=
  match generateConfig this w with
  | Throw e =>
      {| proxy := Some this; state := w; status_of := Running;
         main_promise := Rejected e |}
  | Normal w1 =>
      match displayInfo this ispInfo w1 with
      | Throw e =>
          {| proxy := Some this; state := w1; status_of := Running;
             main_promise := Rejected e |}
      | Normal w2 =>
          {| proxy := Some (startService this); state := w2;
             status_of := Running; main_promise := Resolved tt |}
      end
  end.

(** [main().catch(console.error)] (app.js 211-225) from a fresh
    process, up to the point where nothing more of it can run.  [None]:
    the download is still following redirects after [fuel] requests. *)
Definition main (P : platform) (env : environment) (fuel : nat)
    (files : gmap string node) : option host :=
  match detectEnvironment env with
  | None =>
      Some {| proxy := None; state := boot files; status_of := Exited 1;
              main_promise := Pending |}
  | Some (_, directPort) =>
      let '(this, w0) :=
        constructor P env (DOMAIN env) (UUID env) (finalPort env directPort)
          (NAME env) (boot files) in
      let stop st pr w :=
        Some {| proxy := Some this; state := w; status_of := st;
                main_promise := pr |} in
      match getISP P 3 w0 with
      | (Resolved ispInfo, w1) =>
          match downloadAndExtract P fuel this w1 with
          | None => None
          | Some (Resolved true, w2) => Some (serve this ispInfo w2)
          | Some (Resolved false, w2) => stop Running (Resolved tt) w2
          | Some (Rejected e, w2) => stop Running (Rejected e) w2
          | Some (Pending, w2) => stop Running Pending w2
          | Some (Uncaught e, w2) => stop (Crashed e) Pending w2
          end
      | (Rejected e, w1) => stop Running (Rejected e) w1
      | (Pending, w1) => stop Running Pending w1
      | (Uncaught e, w1) => stop (Crashed e) Pending w1
      end
  end.

(** What happens to the host from outside.  [LoopEmpty] is the moment
    when the event loop has nothing left to wait for; a running engine
    keeps the loop busy through its error stream. *)
Inductive event :=
| Signal (s : signal)   (* a signal sent to the host process *)
| ChildExit             (* the engine process ends *)
| LoopEmpty             (* nothing is left to wait for *).

Definition set_status (st : status) (h : host) : host :=
  {| proxy := proxy h; state := state h; status_of := st;
     main_promise := main_promise h |}.

Definition listeners_for (ev : string) (w : world) : list listener :=
  map snd (List.filter (fun p => String.eqb (fst p) ev) (listeners w)).

(** [this.cleanup()] in a listener; an exception of it is uncaught. *)
Definition call_cleanup (h : host) : host :=
  match proxy h with
  | None => h
  | Some this =>
      match cleanup this (state h) with
      | Normal (this', w') =>
          {| proxy := Some this'; state := w'; status_of := status_of h;
             main_promise := main_promise h |}
      | Throw e => set_status (Crashed e) h
      end
  end.

Definition still_running (h : host) : bool :=
  match status_of h with
  | Running => true
  | _ => false
  end.

(** [process.exit(code)]: the 'exit' listeners run, then the process is
    gone.  The one listener of the program, were it registered for
    'exit', would run its cleanup there. *)
Definition process_exit (code : Z) (h : host) : host :=
  let h' :=
    fold_left (fun h0 l => if still_running h0 then call_cleanup h0 else h0)
      (listeners_for "exit" (state h)) h in
  if still_running h' then set_status (Exited code) h' else h'.

(** The listener [cleanupAndExit] of a signal. *)
Definition run_listener (l : listener) (h : host) : host :=
  match l with
  | cleanupAndExit =>
      let h' := call_cleanup h in
      if still_running h' then process_exit 0 h' else h'
  end.

Definition child_alive (h : host) : bool :=
  match proxy h with
  | Some this =>
      match process this with
      | Some c => alive c
      | None => false
      end
  | None => false
  end.

Definition child_exits (h : host) : host :=
  match proxy h with
  | Some this =>
      match process this with
      | Some c =>
          {| proxy :=
               Some (set_process
                       (Some {| command := command c; args := args c;
                                extra_env := extra_env c; alive := false;
                                received := received c |}) this);
             state := state h; status_of := status_of h;
             main_promise := main_promise h |}
      | None => h
      end
  | None => h
  end.

(** One event in the life of the host.  A process that has ended
    reacts to nothing. *)
Definition deliver (h : host) (e : event) : host :=
  if still_running h then
    match e with
    | Signal s =>
        match (match s with
               | SIGKILL => []
               | _ => listeners_for (signal_name s) (state h)
               end) with
        | [] => set_status (Killed s) h
        | ls =>
            fold_left
              (fun h0 l => if still_running h0 then run_listener l h0 else h0)
              ls h
        end
    | ChildExit => child_exits h
    | LoopEmpty => if child_alive h then h else process_exit 0 h
    end
  else h.

Definition run (h : host) (evs : list event) : host := fold_left deliver evs h.

(* ===================================================================== *)
(** ** Sample platforms and environments *)
(* ===================================================================== *)

Module Sample.

Definition geoip_url : string := "https://api.ip.sb/geoip".
Definition trace_url : string := "https://www.cloudflare.com/cdn-cgi/trace".
Definition asset_url : string :=
  "https://github.com/XTLS/Xray-core/releases/latest/download/Xray-linux-64.zip".
Definition mirror_url : string := "https://objects.example/Xray-linux-64.zip".

Definition geoip_body : string :=
  JSON.stringify
    (JSON.Obj [ ("country_code", JSON.Str "US");
                ("organization", JSON.Str "Example Net") ]).

Definition trace_body : string :=
  "fl=29f1" +:+ String JSON.nl
    ("loc=DE" +:+ String JSON.nl
       ("as_organization = Example Net " +:+ String JSON.nl "")).

Definition archive : list zip_entry :=
  [ {| fileName := "geoip.dat"; contents := Readable "GEO" |};
    {| fileName := "xray"; contents := Readable "ELF" |};
    {| fileName := "README.md"; contents := Readable "# Xray" |} ].

(** A host on which everything works: the ISP service answers in
    JSON, the asset URL redirects once to a mirror that serves the
    archive. *)
Definition linux_x64 : platform :=
  {| os_arch := "x64";
     script_dir := "/home/container";
     randomUUID := "123e4567-e89b-12d3-a456-426614174000";
     https_get := fun _ u =>
       if String.eqb u geoip_url then Response 200 None geoip_body
       else if String.eqb u asset_url then Response 302 (Some mirror_url) ""
       else if String.eqb u mirror_url then Response 200 None "PK-xray"
       else Failed "ENOTFOUND";
     yauzl_open := fun bytes =>
       if String.eqb bytes "PK-xray" then Some archive else None |}.

Definition ia32 : platform :=
  {| os_arch := "ia32";
     script_dir := script_dir linux_x64;
     randomUUID := randomUUID linux_x64;
     https_get := https_get linux_x64;
     yauzl_open := yauzl_open linux_x64 |}.

(** The asset URL redirects to itself. *)
Definition redirect_loop : platform :=
  {| os_arch := "x64";
     script_dir := script_dir linux_x64;
     randomUUID := randomUUID linux_x64;
     https_get := fun _ u =>
       if String.eqb u asset_url then Response 302 (Some asset_url) ""
       else https_get linux_x64 0 u;
     yauzl_open := yauzl_open linux_x64 |}.

(** The ISP service answers the first request with a page that is
    not JSON; the rest works. *)
Definition blocked : platform :=
  {| os_arch := "x64";
     script_dir := script_dir linux_x64;
     randomUUID := randomUUID linux_x64;
     https_get := fun _ u =>
       if String.eqb u geoip_url
       then Response 403 None "<html>Access denied</html>"
       else https_get linux_x64 0 u;
     yauzl_open := yauzl_open linux_x64 |}.

(** The archive served has no entry named xray. *)
Definition no_engine : platform :=
  {| os_arch := "x64";
     script_dir := script_dir linux_x64;
     randomUUID := randomUUID linux_x64;
     https_get := https_get linux_x64;
     yauzl_open := fun bytes =>
       if String.eqb bytes "PK-xray"
       then Some [ {| fileName := "geoip.dat"; contents := Readable "GEO" |};
                   {| fileName := "README.md"; contents := Readable "# Xray" |} ]
       else None |}.

(** No request gets through. *)
Definition offline : platform :=
  {| os_arch := "x64";
     script_dir := script_dir linux_x64;
     randomUUID := randomUUID linux_x64;
     https_get := fun _ _ => Failed "ENETUNREACH";
     yauzl_open := yauzl_open linux_x64 |}.

(** The first request fails; the second source then answers. *)
Definition flaky : platform :=
  {| os_arch := "x64";
     script_dir := script_dir linux_x64;
     randomUUID := randomUUID linux_x64;
     https_get := fun n u =>
       if Nat.eqb n 0 then Failed "ECONNRESET"
       else if String.eqb u trace_url then Response 200 None trace_body
       else https_get linux_x64 n u;
     yauzl_open := yauzl_open linux_x64 |}.

Definition env : environment :=
  {| SERVER_IP := Some "1.2.3.4"; SERVER_PORT := Some "25565";
     env_DOMAIN := None; env_UUID := None; env_WSPATH := None;
     env_PORT := None; env_NAME := None |}.

Definition env_with_path : environment :=
  {| SERVER_IP := Some "1.2.3.4"; SERVER_PORT := Some "25565";
     env_DOMAIN := None; env_UUID := None; env_WSPATH := Some "ws";
     env_PORT := None; env_NAME := None |}.

(** The disk of the container before the first run: the directory of
    the script, and nothing of what the program writes. *)
Definition disk : gmap string node := {[ "/home/container" := Dir ]}.

(** The proxy that [main] constructs on the working host. *)
Definition proxy0 : XrayProxy :=
  fst (constructor linux_x64 env (DOMAIN env) (UUID env) (JSON.Int 25565)
         (NAME env) (boot ∅)).

(** The world once the archive has been downloaded, from an empty
    directory. *)
Definition downloaded : world :=
  set_fs (<[zipPath := File "PK-xray" Fs.default_mode]> ∅)
    (emit (Request mirror_url) (emit (Request asset_url) (boot ∅))).

(** The same on the disk of the container. *)
Definition fetched : world :=
  set_fs (<[zipPath := File "PK-xray" Fs.default_mode]> disk)
    (emit (Request mirror_url) (emit (Request asset_url) (boot disk))).

Definition nobody : host :=
  {| proxy := None; state := boot ∅; status_of := Exited 1;
     main_promise := Pending |}.

(** The host after [main] has started the engine. *)
Definition started : host := default nobody (main linux_x64 env 2 disk).

End Sample.

(* ===================================================================== *)
(** ** Vocabulary of the statements *)
(* ===================================================================== *)

Definition asset_x64 : string :=
  "https://github.com/XTLS/Xray-core/releases/latest/download/Xray-linux-64.zip".
Definition asset_arm64 : string :=
  "https://github.com/XTLS/Xray-core/releases/latest/download/Xray-linux-arm64-v8a.zip".


(** What [cleanup] leaves at a path it tries to delete. *)
Definition after_removal (o : option node) : option node :=
  match o with
  | Some (File _ _) => None
  | other => other
  end.


(** What [cleanup] does to the files when it reaches path [f]. *)
Definition removed (f : string) (files : gmap string node)
  : gmap string node :=
  match files !! f with
  | Some (File _ _) => delete f files
  | _ => files
  end.

(** What [cleanup] does to the proxy object. *)
Definition signalled (this : XrayProxy) : XrayProxy :=
  match process this with
  | Some c => set_process (Some (kill SIGTERM c)) this
  | None => this
  end.

(** [redirects P n url k r]: when the [n]-th request goes to [url], the
    answer and the [k - 1] that follow are redirects, each to the
    location the one before names, and the answer to the last location
    is [r], which is no redirect. *)
Definition final (r : reply) : Prop :=
  match r with
  | Response statusCode location _ => is_redirect statusCode location = false
  | _ => True
  end.

Inductive redirects (P : platform) : nat -> string -> nat -> reply -> Prop :=
| redirects_end n url r :
    https_get P n url = r -> final r -> redirects P n url 0 r
| redirects_step n url statusCode loc body k r :
    https_get P n url = Response statusCode (Some loc) body ->
    is_redirect statusCode (Some loc) = true ->
    redirects P (S n) loc k r ->
    redirects P n url (S k) r.

(** The entry that the 'entry' listener installs, if any. *)
Definition xray_entry (entries : list zip_entry) : option zip_entry :=
  List.find (fun e => String.eqb (fileName e) "xray") entries.

(** The two listeners that [setupSignalHandlers] registers. *)
Definition installed (h : host) : Prop :=
  listeners (state h)
  = [("SIGINT", cleanupAndExit); ("SIGTERM", cleanupAndExit)].

(** Nothing but the constructor registers a listener, and nothing but
    [cleanup] counts a cleanup. *)
Definition same_handlers (w w' : world) : Prop :=
  listeners w' = listeners w /\ cleanups w' = cleanups w.


(** The values that [JSON.stringify] prints as they are: no NaN, no
    decimal kept as text. *)
Fixpoint printable (v : JSON.value) : bool :=
  match v with
  | JSON.Num (JSON.Int _) => true
  | JSON.Num _ => false
  | JSON.Arr items => forallb printable items
  | JSON.Obj fields => forallb (fun kv => printable (snd kv)) fields
  | _ => true
  end.

(** Fuel that [JSON.parse_value] needs for the text of a value. *)
Fixpoint need (v : JSON.value) : nat :=
  match v with
  | JSON.Arr items =>
      S (Nat.max (length items)
           (fold_right (fun x n => Nat.max (need x) n) O items))
  | JSON.Obj fields =>
      S (Nat.max (length fields)
           (fold_right (fun kv n => Nat.max (need (snd kv)) n) O fields))
  | _ => 1%nat
  end.

(** What may follow a number: nothing that would continue it. *)
Definition number_stop (rest : string) : bool :=
  match rest with
  | String c _ =>
      negb (match JSON.digit_of c with Some _ => true | None => false end
            || Ascii.eqb c "." || Ascii.eqb c "e" || Ascii.eqb c "E")
  | EmptyString => true
  end.

(** The first character of a number. *)
Definition number_head (c : ascii) : bool :=
  match JSON.digit_of c with Some _ => true | None => false end
  || Ascii.eqb c "-".

(** A request without a response: an error, or no answer in time. *)
Definition rejects (r : reply) : bool :=
  match r with
  | Failed _ => true
  | Stalled => true
  | _ => false
  end.

(** The requests and backoffs of [k] failed attempts that are not the
    last, from attempt [a] on. *)
Fixpoint failed_rounds (k a : nat) : list io :=
  match k with
  | O => []
  | S k' => Request (url (source_of a)) :: Sleep 1000 :: failed_rounds k' (S a)
  end.

Definition extend (t : list io) (w : world) : world :=
  {| fs := fs w; trace := trace w ++ t; listeners := listeners w;
     cleanups := cleanups w |}.

(** The text that ends a container at indentation [j]. *)
Definition closing (j : nat) (bracket : ascii) (rest : string) : string :=
  String JSON.nl (JSON.spaces j +:+ String bracket rest).


(** The text of one member of an object at indentation [i]. *)
Definition member_text (i : nat) (kv : string * JSON.value) : string :=
  JSON.quote (fst kv) +:+ ": " +:+ JSON.stringify_at i (snd kv).


(** Induction on JSON values, through the lists they nest. *)
Section value_induction.
Variable Q : JSON.value -> Prop.
Hypothesis HNull : Q JSON.Null.
Hypothesis HBool : forall b, Q (JSON.Bool b).
Hypothesis HNum : forall n, Q (JSON.Num n).
Hypothesis HStr : forall s, Q (JSON.Str s).
Hypothesis HArr : forall items, Forall Q items -> Q (JSON.Arr items).
Hypothesis HObj :
  forall fields, Forall (fun kv => Q (snd kv)) fields -> Q (JSON.Obj fields).

Fixpoint value_induction (v : JSON.value) : Q v :=
  match v with
  | JSON.Null => HNull
  | JSON.Bool b => HBool b
  | JSON.Num n => HNum n
  | JSON.Str s => HStr s
  | JSON.Arr items =>
      HArr items
        ((fix go (l : list JSON.value) : Forall Q l :=
            match l with
            | [] => @List.Forall_nil _ Q
            | x :: l' => @List.Forall_cons _ Q x l' (value_induction x) (go l')
            end) items)
  | JSON.Obj fields =>
      HObj fields
        ((fix go (l : list (string * JSON.value))
            : Forall (fun kv => Q (snd kv)) l :=
            match l with
            | [] => @List.Forall_nil _ (fun kv => Q (snd kv))
            | kv :: l' =>
                @List.Forall_cons _ (fun kv => Q (snd kv)) kv l' (value_induction (snd kv)) (go l')
            end) fields)
  end.
End value_induction.

(** An event of the ISP lookup: a request to one of the two sources, or
    the backoff of one second. *)
Definition is_lookup_event (e : io) : bool :=
  match e with
  | Request u => existsb (fun src => String.eqb u (url src)) apiSources
  | Sleep ms => ms =? 1000
  | Listen _ => false
  end.

(** A path that can take a regular file: it is no directory, and the
    directory that is to hold it is there, or is not and can be made. *)
Definition installable (p : string) (files : gmap string node) : Prop :=
  files !! p <> Some Dir
  /\ (files !! Path.dirname p = Some Dir
      \/ (files !! Path.dirname p = None
          /\ Fs.parent (Path.dirname p) files = Normal tt)).

(** The error [e] of a write stream that cannot open [p]: [p] is a
    directory, or the place of its directory is taken by a regular
    file. *)
Definition refused (p : string) (e : exn) (files : gmap string node) : Prop :=
  (e = EISDIR p /\ files !! p = Some Dir)
  \/ (e = ENOTDIR p
      /\ exists d m, files !! Path.dirname p = Some (File d m)).

(** The files after a body of which only a part may have arrived: as
    they were, or with that part at [dest]. *)
Definition partly_written (dest : string) (before after : gmap string node)
  : Prop :=
  after = before
  \/ exists partial m, after = <[dest := File partial m]> before.

(** The URLs that a download asks for, from request number [n] on:
    each one after the first is the Location of the redirect that
    answered the one before, and the last is not answered by a
    redirect. *)
Inductive hops (P : platform) : nat -> string -> list string -> Prop :=
| hops_last n url :
    final (https_get P n url) -> hops P n url [url]
| hops_next n url statusCode loc body rest :
    https_get P n url = Response statusCode (Some loc) body ->
    is_redirect statusCode (Some loc) = true ->
    hops P (S n) loc rest ->
    hops P n url (url :: rest).

(** The events of [main] after its constructor: those of the lookup,
    then the requests of the download. *)
Definition staged (P : platform) (asset : string) (t : list io) : Prop :=
  exists lookup urls,
    t = lookup ++ map Request urls
    /\ forallb is_lookup_event lookup = true
    /\ (length (requests lookup) <= 3)%nat
    /\ (urls = [] \/ hops P (length (requests lookup)) asset urls).

(* ===================================================================== *)
(** ** Vocabulary of the statements about [main] and its parts *)
(* ===================================================================== *)

(** A variable of the environment that is unset or empty: falsy where
    the program tests it. *)
Definition absent (o : option string) : bool :=
  match o with
  | Some s => negb (Str.truthy s)
  | None => true
  end.

(** The object that [main] constructs when [detectEnvironment] has read
    the port [directPort]. *)
Definition constructed (P : platform) (env : environment)
    (directPort : JSON.number) : XrayProxy :=
  fst (constructor P env (DOMAIN env) (UUID env) (finalPort env directPort)
         (NAME env) (boot ∅)).

(** No space character in a string. *)
Definition no_space (s : string) : bool :=
  Str.all_chars (fun c => negb (Ascii.eqb c " ")) s.

(** What [JSON.parse] reads back from the text of a value: NaN has been
    printed as null. *)
Fixpoint as_read (v : JSON.value) : JSON.value :=
  match v with
  | JSON.Num JSON.NaN => JSON.Null
  | JSON.Arr items => JSON.Arr (map as_read items)
  | JSON.Obj fields =>
      JSON.Obj (map (fun kv => (fst kv, as_read (snd kv))) fields)
  | _ => v
  end.

(** The host after [process.exit(1)] at the start of [main]. *)
Definition host_exit_1 (files : gmap string node) : host :=
  {| proxy := None; state := boot files; status_of := Exited 1;
     main_promise := Pending |}.

(** Further platforms, environments and states for the statements. *)
Module Cases.

(** SERVER_PORT is not set. *)
Definition env_without_port : environment :=
  {| SERVER_IP := Some "1.2.3.4"; SERVER_PORT := None;
     env_DOMAIN := None; env_UUID := None; env_WSPATH := None;
     env_PORT := None; env_NAME := None |}.

(** SERVER_PORT has no digit. *)
Definition env_port_auto : environment :=
  {| SERVER_IP := Some "1.2.3.4"; SERVER_PORT := Some "auto";
     env_DOMAIN := None; env_UUID := None; env_WSPATH := None;
     env_PORT := None; env_NAME := None |}.

(** The release is missing: the asset URL is answered with status 404
    and a page, without a Location header. *)
Definition missing_release : platform :=
  {| os_arch := "x64";
     script_dir := script_dir Sample.linux_x64;
     randomUUID := randomUUID Sample.linux_x64;
     https_get := fun _ u =>
       if String.eqb u Sample.geoip_url
       then Response 200 None Sample.geoip_body
       else if String.eqb u Sample.asset_url
            then Response 404 None "Not Found"
            else Failed "ENOTFOUND";
     yauzl_open := yauzl_open Sample.linux_x64 |}.

(** The world once that page has been saved as the archive. *)
Definition page_saved : world :=
  set_fs (<[zipPath := File "Not Found" Fs.default_mode]> ∅)
    (emit (Request Sample.asset_url) (boot ∅)).

(** The host after [main] without network. *)
Definition gave_up : host :=
  default Sample.nobody (main Sample.offline Sample.env 1 ∅).


(** The answer of an API that refuses the request. *)
Definition error_payload : string :=
  JSON.stringify
    (JSON.Obj [ ("code", JSON.Num (JSON.Int 401));
                ("message", JSON.Str "Unauthorized") ]).

Definition trace_without_keys : string :=
  "fl=29f1" +:+ String JSON.nl "ip=1.2.3.4".

(** UUID is set. *)
Definition env_fixed_uuid : environment :=
  {| SERVER_IP := Some "1.2.3.4"; SERVER_PORT := Some "25565";
     env_DOMAIN := None;
     env_UUID := Some "0b9473ae-8cd4-4c29-9b5c-2f1b7a3d5e10";
     env_WSPATH := None; env_PORT := None; env_NAME := None |}.

(** The working host after a restart: another random identifier, and
    another directory. *)
Definition restarted : platform :=
  {| os_arch := "x64";
     script_dir := "/srv/container";
     randomUUID := "7c1e0c52-53a7-4b0e-8e55-0d2a9a4c1f77";
     https_get := https_get Sample.linux_x64;
     yauzl_open := yauzl_open Sample.linux_x64 |}.

(** The first three requests fail; the rest works. *)
Definition lookup_down : platform :=
  {| os_arch := "x64";
     script_dir := script_dir Sample.linux_x64;
     randomUUID := randomUUID Sample.linux_x64;
     https_get := fun n u =>
       if Nat.ltb n 3 then Failed "ETIMEDOUT"
       else https_get Sample.linux_x64 n u;
     yauzl_open := yauzl_open Sample.linux_x64 |}.

(** The host after [main] there: the engine runs. *)
Definition started_unlabelled : host :=
  default Sample.nobody (main lookup_down Sample.env 2 Sample.disk).

(** The host after [main] where the release is missing. *)
Definition start_rejected : host :=
  default Sample.nobody (main missing_release Sample.env 1 ∅).

(** A regular file where the directory of the engine should be. *)
Definition occupied : gmap string node :=
  <["/home/container/xray" := File "notes" Fs.default_mode]> Sample.disk.


(** The connection is reset after two bytes of the archive. *)
Definition broken_off : platform :=
  {| os_arch := "x64";
     script_dir := script_dir Sample.linux_x64;
     randomUUID := randomUUID Sample.linux_x64;
     https_get := fun _ u =>
       if String.eqb u Sample.mirror_url
       then Cut "PK" (Reset "ECONNRESET")
       else https_get Sample.linux_x64 0 u;
     yauzl_open := yauzl_open Sample.linux_x64 |}.

(** The host after [main] there. *)
Definition cut_off : host :=
  default Sample.nobody (main broken_off Sample.env 2 Sample.disk).

(** The ISP service starts to answer and closes the connection. *)
Definition hung_up : platform :=
  {| os_arch := "x64";
     script_dir := script_dir Sample.linux_x64;
     randomUUID := randomUUID Sample.linux_x64;
     https_get := fun _ u =>
       if String.eqb u Sample.geoip_url then Cut "{" Closed
       else https_get Sample.linux_x64 0 u;
     yauzl_open := yauzl_open Sample.linux_x64 |}.

(** A no-break space (U+00A0), and a trace whose second line has them
    around its key and its value. *)
Definition nbsp : string := String (Str.chr 194) (String (Str.chr 160) "").
Definition padded_key : string := nbsp +:+ "loc" +:+ nbsp.
Definition padded_value : string := nbsp +:+ "US " +:+ nbsp.
Definition trace_padded : string :=
  "fl=29f1" +:+ String JSON.nl (padded_key +:+ "=" +:+ padded_value).

(** The entry named xray is damaged: its stream fails after two
    bytes. *)
Definition damaged_archive : list zip_entry :=
  [ {| fileName := "xray"; contents := Truncated "EL" |} ].

Definition damaged : platform :=
  {| os_arch := "x64";
     script_dir := script_dir Sample.linux_x64;
     randomUUID := randomUUID Sample.linux_x64;
     https_get := https_get Sample.linux_x64;
     yauzl_open := fun bytes =>
       if String.eqb bytes "PK-xray" then Some damaged_archive else None |}.

(** A directory in the place of config.json, or of the link file. *)
Definition config_is_directory : world := boot (<[configPath := Dir]> ∅).
Definition links_is_directory : world := boot (<[linksPath := Dir]> ∅).

End Cases.

(* ===================================================================== *)
(** * The model on concrete inputs *)
(* ===================================================================== *)

Example md5_empty : MD5.hexdigest "" = "d41d8cd98f00b204e9800998ecf8427e".
Proof. vm_compute. reflexivity. Qed.

Example md5_abc : MD5.hexdigest "abc" = "900150983cd24fb0d6963f7d28e17f72".
Proof. vm_compute. reflexivity. Qed.

Example md5_uuid :
  MD5.hexdigest "123e4567-e89b-12d3-a456-426614174000"
  = "3b32b2dc26c45b3a34a56515df7c216c".
Proof. vm_compute. reflexivity. Qed.

Example md5_two_blocks :
  MD5.hexdigest "aaaaaaaaaaaaaaaaaaaaaaaaaaaaaaaaaaaaaaaaaaaaaaaaaaaaaaaaaaaaaaaa"
  = "014842d480b571495a4a0363793f7367".
Proof. vm_compute. reflexivity. Qed.

Example sample_path : path Sample.proxy0 = "/3b32b2dc".
Proof. vm_compute. reflexivity. Qed.

Example parseInt_port : JS.parseInt "25565" = JSON.Int 25565.
Proof. reflexivity. Qed.

Example parseInt_no_digit : JS.parseInt "port" = JSON.NaN.
Proof. reflexivity. Qed.

Example base64_padding : JS.base64 "any carnal pleasu" = "YW55IGNhcm5hbCBwbGVhc3U=".
Proof. vm_compute. reflexivity. Qed.

Example encodeURIComponent_path :
  JS.encodeURIComponent "/a b?c=d" = "%2Fa%20b%3Fc%3Dd".
Proof. vm_compute. reflexivity. Qed.

Example parse_numbers :
  map JSON.parse ["0"; "-12"; "01"; "1."; "2.50"; " [1, 2] "; "[1,]"; "nul"]
  = [ Some (JSON.Num (JSON.Int 0)); Some (JSON.Num (JSON.Int (-12))); None;
      None; Some (JSON.Num (JSON.Dec "2.50"));
      Some (JSON.Arr [JSON.Num (JSON.Int 1); JSON.Num (JSON.Int 2)]);
      None; None ].
Proof. vm_compute. reflexivity. Qed.

Example parse_geoip_sample :
  parse_geoip Sample.geoip_body = Normal "US-Example_Net".
Proof. vm_compute. reflexivity. Qed.

Example parse_geoip_null : parse_geoip "null" = Throw TypeError.
Proof. vm_compute. reflexivity. Qed.

Example parse_geoip_array : parse_geoip "[]" = Normal "undefined-undefined".
Proof. vm_compute. reflexivity. Qed.

Example parse_trace_sample :
  parse_trace Sample.trace_body = Normal "DE-Example_Net".
Proof. vm_compute. reflexivity. Qed.

Example parse_trace_empty : parse_trace "" = Normal "UN-CF".
Proof. vm_compute. reflexivity. Qed.

Example getISP_sample :
  fst (getISP Sample.linux_x64 3 (boot ∅)) = Resolved (Some "US-Example_Net").
Proof. vm_compute. reflexivity. Qed.

Example getISP_no_attempt :
  fst (getISP Sample.linux_x64 0 (boot ∅)) = Resolved None.
Proof. reflexivity. Qed.

Example main_without_server_port :
  option_map status_of
    (main Sample.linux_x64
       {| SERVER_IP := Some "1.2.3.4"; SERVER_PORT := None;
          env_DOMAIN := None; env_UUID := None; env_WSPATH := None;
          env_PORT := None; env_NAME := None |} 2 ∅)
  = Some (Exited 1).
Proof. reflexivity. Qed.

Example main_sample :
  option_map
    (fun h => (status_of h, main_promise h, child_alive h,
               fs (state h) !! zipPath,
               Fs.existsSync configPath (fs (state h)),
               fs (state h) !! "/home/container/xray/xray"))
    (main Sample.linux_x64 Sample.env 2 Sample.disk)
  = Some (Running, Resolved tt, true, None, true, Some (File "ELF" 493)).
Proof. vm_compute. reflexivity. Qed.

Example main_without_engine_entry :
  option_map
    (fun h => (status_of h, main_promise h, child_alive h,
               Fs.existsSync zipPath (fs (state h)),
               Fs.existsSync configPath (fs (state h))))
    (main Sample.no_engine Sample.env 2 ∅)
  = Some (Running, Pending, false, true, false).
Proof. vm_compute. reflexivity. Qed.

Example main_blocked_lookup :
  option_map (fun h => (status_of h, child_alive h))
    (main Sample.blocked Sample.env 2 ∅)
  = Some (Crashed SyntaxError, false).
Proof. vm_compute. reflexivity. Qed.

Example main_redirect_loop :
  main Sample.redirect_loop Sample.env 50 ∅ = None.
Proof. vm_compute. reflexivity. Qed.

(* ===================================================================== *)
(** * Properties *)
(* ===================================================================== *)

(** ** Byte strings *)

Lemma append_cons (c : ascii) (s t : string) :
  String c s +:+ t = String c (s +:+ t).
Proof. reflexivity. Qed.

Lemma append_nil_r (s : string) : s +:+ "" = s.
Proof.
  induction s as [| c s IH]; [reflexivity |].
  rewrite append_cons, IH. reflexivity.
Qed.

Lemma append_assoc (a b c : string) : (a +:+ b) +:+ c = a +:+ (b +:+ c).
Proof.
  induction a as [| x a IH]; [reflexivity |].
  change (String x (a +:+ b) +:+ c = String x (a +:+ (b +:+ c))).
  change (String x ((a +:+ b) +:+ c) = String x (a +:+ (b +:+ c))).
  rewrite IH. reflexivity.
Qed.

Lemma append_length (a b : string) :
  String.length (a +:+ b) = (String.length a + String.length b)%nat.
Proof.
  induction a as [| x a IH]; [reflexivity |].
  change (S (String.length (a +:+ b)) = S (String.length a + String.length b)).
  rewrite IH. reflexivity.
Qed.

(** ** Identity: the access path *)










(** C10: a non-empty WSPATH gives a path that starts with a slash: the
    WSPATH itself when it starts with one, the WSPATH behind a slash
    otherwise. *)
Theorem supplied_access_path
    (P : platform) (env : environment) (dom id nm : string)
    (prt : JSON.number) (w : world) :
  WSPATH env <> "" ->
  let this := fst (constructor P env dom id prt nm w) in
  Str.startsWith "/" (path this) = true
  /\ (Str.startsWith "/" (WSPATH env) = true -> path this = WSPATH env)
  /\ (Str.startsWith "/" (WSPATH env) = false ->
      path this = "/" +:+ WSPATH env).
Proof.
  intros Hne. cbn zeta. unfold constructor. cbn [fst path].
  destruct (WSPATH env) as [| c s] eqn:E; [congruence |].
  cbn [Str.truthy].
  destruct (Str.startsWith "/" (String c s)) eqn:Hs.
  - split; [exact Hs | split; [reflexivity | discriminate]].
  - split; [| split; [discriminate | reflexivity]].
    change (Str.startsWith "/" (String "/" (String c s)) = true).
    reflexivity.
Qed.

(** ** The download URL *)

(** C8, as the code has it: the URL is the arm64 asset on [arm64] and
    the x64 asset on every other architecture; the two differ, and no
    architecture makes the resolution fail. *)
Theorem download_url_defaults_to_x64 (P : platform) :
  getXrayDownloadUrl P
  = Normal (if String.eqb (os_arch P) "arm64" then asset_arm64 else asset_x64)
  /\ asset_arm64 <> asset_x64.
Proof.
  split; [| discriminate].
  unfold getXrayDownloadUrl. destruct (String.eqb (os_arch P) "arm64"); reflexivity.
Qed.

(** C8 fails as stated: on [ia32], which is neither of the two
    supported architectures, the resolution returns the x64 asset. *)
Lemma download_url_ia32_is_no_error :
  getXrayDownloadUrl Sample.ia32 = Normal asset_x64
  /\ os_arch Sample.ia32 <> "arm64" /\ os_arch Sample.ia32 <> "x64"
  /\ getXrayDownloadUrl Sample.ia32 = getXrayDownloadUrl Sample.linux_x64.
Proof. repeat split; discriminate. Qed.

(** ** cleanup *)

Lemma remove_if_exists_spec (f : string) (files : gmap string node) :
  remove_if_exists f files = Normal (removed f files).
Proof.
  unfold remove_if_exists, removed, Fs.existsSync, Fs.unlinkSync, try_catch.
  destruct (files !! f) as [[d m |] |]; reflexivity.
Qed.

Lemma cleanup_spec (this : XrayProxy) (w : world) :
  cleanup this w
  = Normal (signalled this,
            {| fs := removed linksPath
                       (removed configPath (removed zipPath (fs w)));
               trace := trace w; listeners := listeners w;
               cleanups := S (cleanups w) |}).
Proof.
  unfold cleanup. cbn [forEach].
  rewrite (remove_if_exists_spec zipPath). cbn [mbind completion_bind].
  rewrite (remove_if_exists_spec configPath). cbn [mbind completion_bind].
  rewrite (remove_if_exists_spec linksPath). cbn [mbind completion_bind].
  reflexivity.
Qed.

Lemma removed_lookup (f p : string) (files : gmap string node) :
  removed f files !! p
  = if decide (p = f) then after_removal (files !! f) else files !! p.
Proof.
  unfold removed, after_removal. case_decide as H.
  - subst p. destruct (files !! f) as [[d m |] |] eqn:E;
      [apply lookup_delete_eq | exact E | exact E].
  - destruct (files !! f) as [[d m |] |] eqn:E;
      [apply lookup_delete_ne; congruence | reflexivity | reflexivity].
Qed.

Lemma after_removal_twice (o : option node) :
  after_removal (after_removal o) = after_removal o.
Proof. destruct o as [[d m |] |]; reflexivity. Qed.

Lemma zip_config_links_distinct :
  zipPath <> configPath /\ zipPath <> linksPath /\ configPath <> linksPath.
Proof. repeat split; discriminate. Qed.

Lemma removed_artifacts (files : gmap string node) (f : string) :
  In f [zipPath; configPath; linksPath] ->
  removed linksPath (removed configPath (removed zipPath files)) !! f
  = after_removal (files !! f).
Proof.
  destruct zip_config_links_distinct as (Hzc & Hzl & Hcl).
  intros [<- | [<- | [<- | []]]]; rewrite !removed_lookup;
    repeat case_decide; try congruence; try reflexivity.
Qed.

Lemma removed_others (files : gmap string node) (p : string) :
  ~ In p [zipPath; configPath; linksPath] ->
  removed linksPath (removed configPath (removed zipPath files)) !! p
  = files !! p.
Proof.
  intros Hp. rewrite !removed_lookup.
  repeat case_decide; try reflexivity; subst p; exfalso; apply Hp; cbn; tauto.
Qed.

(** C9: [cleanup] never throws.  Without an engine process the proxy
    is unchanged; a started one is sent SIGTERM.  Each of the three
    artifacts is handled by itself: a regular file is deleted, a missing
    one is skipped, one that cannot be deleted (a directory) stays, and
    none of this stops the others; no other path is touched. *)
Theorem cleanup_never_throws (this : XrayProxy) (w : world) :
  exists this' w',
    cleanup this w = Normal (this', w')
    /\ (process this = None -> this' = this)
    /\ (forall c, process this = Some c ->
                  this' = set_process (Some (kill SIGTERM c)) this)
    /\ (forall f, In f [zipPath; configPath; linksPath] ->
                  fs w' !! f = after_removal (fs w !! f))
    /\ (forall p, ~ In p [zipPath; configPath; linksPath] ->
                  fs w' !! p = fs w !! p)
    /\ cleanups w' = S (cleanups w).
Proof.
  eexists _, _. split; [apply cleanup_spec |].
  unfold signalled. cbn [fs cleanups].
  split; [| split; [| split; [| split; [| reflexivity]]]].
  - intros H. rewrite H. reflexivity.
  - intros c H. rewrite H. reflexivity.
  - apply removed_artifacts.
  - apply removed_others.
Qed.

(** ** Following redirects *)

Lemma requests_emit_request (url : string) (w : world) :
  length (requests (trace (emit (Request url) w)))
  = S (length (requests (trace w))).
Proof.
  unfold requests, emit. cbn [trace].
  rewrite List.filter_app, length_app. cbn. lia.
Qed.

Lemma parent_of_name (p : string) (files : gmap string node) :
  Path.before_last_slash p = None -> Fs.parent p files = Normal tt.
Proof. intros H. unfold Fs.parent. rewrite H. reflexivity. Qed.

Lemma write_not_dir (dest body : string) (files : gmap string node) :
  Fs.parent dest files = Normal tt ->
  files !! dest <> Some Dir ->
  exists m, Fs.write dest body files = Normal (<[dest := File body m]> files).
Proof.
  intros Hp H. unfold Fs.write. rewrite Hp. cbn [mbind completion_bind].
  destruct (files !! dest) as [[d m |] |]; [eauto | congruence | eauto].
Qed.

(** Whether a file can be written does not depend on what is written. *)
Lemma write_throws (dest body body' : string) (files : gmap string node)
    (e : exn) :
  Fs.write dest body files = Throw e -> Fs.write dest body' files = Throw e.
Proof.
  unfold Fs.write. destruct (Fs.parent dest files); cbn [mbind completion_bind];
    [| exact (fun H => H)].
  destruct (files !! dest) as [[d m |] |]; intros H;
    first [discriminate H | exact H].
Qed.

Lemma write_file (dest body : string) (files files' : gmap string node) :
  Fs.write dest body files = Normal files' ->
  Fs.parent dest files = Normal tt
  /\ files !! dest <> Some Dir
  /\ exists m, files' = <[dest := File body m]> files.
Proof.
  unfold Fs.write. destruct (Fs.parent dest files) as [[] | e];
    cbn [mbind completion_bind]; [| discriminate].
  destruct (files !! dest) as [[d m |] |]; intros H; inversion H;
    (split; [reflexivity |]); (split; [discriminate |]); eauto.
Qed.

(** The download along a chain of [k] redirects that ends in a complete
    response: [k + 1] requests, then the body is written if the
    destination can be, and the error of the write stream is uncaught
    if not. *)
Lemma download_along_chain
    (P : platform) (url dest : string) (w : world) (k : nat)
    (statusCode : Z) (location : option string) (body : string) :
  redirects P (length (requests (trace w))) url k
    (Response statusCode location body) ->
  forall fuel : nat,
    ((fuel <= k)%nat -> _downloadFile P fuel url dest w = None)
    /\ ((k < fuel)%nat ->
        exists r w',
          _downloadFile P fuel url dest w = Some (r, w')
          /\ length (requests (trace w'))
             = (length (requests (trace w)) + k + 1)%nat
          /\ match Fs.write dest body (fs w) with
             | Normal files => r = Resolved tt /\ fs w' = files
             | Throw e => r = Uncaught e /\ fs w' = fs w
             end).
Proof.
  intros Hchain. remember (length (requests (trace w))) as n eqn:Hn.
  remember (Response statusCode location body) as r0 eqn:Hr.
  revert w Hn. induction Hchain as [n url r Hget Hfinal
                                   | n url st loc b k r Hget Hred Hchain IH];
    intros w Hn fuel.
  - subst r. cbn in Hfinal. split; intros Hfuel.
    + assert (fuel = O) by lia. subst fuel. reflexivity.
    + destruct fuel as [| fuel]; [lia |].
      cbn [_downloadFile]. unfold request. rewrite <- Hn, Hget, Hfinal.
      change (fs (emit (Request url) w)) with (fs w).
      destruct (Fs.write dest body (fs w)) as [files | e];
        eexists _, _; (split; [reflexivity |]);
        (split; [cbn [set_fs trace]; rewrite requests_emit_request; lia |]);
        split; reflexivity.
  - specialize (IH Hr (emit (Request url) w)).
    rewrite requests_emit_request, <- Hn in IH.
    specialize (IH eq_refl).
    split; intros Hfuel.
    + destruct fuel as [| fuel]; [reflexivity |].
      cbn [_downloadFile]. unfold request. rewrite <- Hn, Hget, Hred.
      cbn [default]. apply (IH fuel). lia.
    + destruct fuel as [| fuel]; [lia |].
      cbn [_downloadFile]. unfold request. rewrite <- Hn, Hget, Hred.
      cbn [default].
      destruct (proj2 (IH fuel) ltac:(lia)) as (r1 & w' & Hrun & Hcount & Hw).
      exists r1, w'. split; [exact Hrun |]. split; [lia |]. exact Hw.
Qed.

Lemma download_outcome_chain
    (P : platform) (fuel : nat) (url dest : string) (w : world)
    (outcome : settled unit * world) :
  _downloadFile P fuel url dest w = Some outcome ->
  exists k r, (k < fuel)%nat
              /\ redirects P (length (requests (trace w))) url k r.
Proof.
  revert url w. induction fuel as [| fuel IH]; intros url w H; [discriminate |].
  cbn [_downloadFile] in H. unfold request in H.
  destruct (https_get P (length (requests (trace w))) url)
    as [msg | | st loc body | partial how] eqn:Hget.
  - exists O, (Failed msg). split; [lia |]. apply redirects_end; [exact Hget | exact I].
  - exists O, Stalled. split; [lia |]. apply redirects_end; [exact Hget | exact I].
  - destruct (is_redirect st loc) eqn:Hred.
    + destruct loc as [loc |];
        [| unfold is_redirect in Hred; destruct (300 <=? st); discriminate].
      cbn [default] in H. apply IH in H as (k & r & Hk & Hchain).
      rewrite requests_emit_request in Hchain.
      exists (S k), r. split; [lia |].
      eapply redirects_step; eauto.
    + exists O, (Response st loc body). split; [lia |].
      apply redirects_end; [exact Hget | exact Hred].
  - exists O, (Cut partial how). split; [lia |].
    apply redirects_end; [exact Hget | exact I].
Qed.

(** C7, as the code has it: redirects are followed with no bound on
    their number.  A chain of [k] redirects that ends in a complete
    response is followed to its end, whatever [k] is: it takes [k + 1]
    requests, no fewer; the download then resolves with the body of the
    last response at the destination when the destination can be
    written, and when it cannot (it is a directory) the error of the
    write stream is an uncaught exception.  And the download has an
    outcome only if the chain of redirects ends: on a chain that never
    ends, it never does. *)
Theorem download_follows_every_redirect
    (P : platform) (url dest : string) (w : world) :
  (forall (k : nat) (statusCode : Z) (location : option string)
          (body : string),
     redirects P (length (requests (trace w))) url k
       (Response statusCode location body) ->
     forall fuel : nat,
       ((fuel <= k)%nat -> _downloadFile P fuel url dest w = None)
       /\ ((k < fuel)%nat ->
           exists r w',
             _downloadFile P fuel url dest w = Some (r, w')
             /\ length (requests (trace w'))
                = (length (requests (trace w)) + k + 1)%nat
             /\ match Fs.write dest body (fs w) with
                | Normal files => r = Resolved tt /\ fs w' = files
                | Throw e => r = Uncaught e /\ fs w' = fs w
                end))
  /\ (forall body : string,
        (Fs.parent dest (fs w) = Normal tt /\ fs w !! dest <> Some Dir ->
         exists m,
           Fs.write dest body (fs w)
           = Normal (<[dest := File body m]> (fs w)))
        /\ (fs w !! dest = Some Dir ->
            exists e, Fs.write dest body (fs w) = Throw e))
  /\ (forall (fuel : nat) (outcome : settled unit * world),
        _downloadFile P fuel url dest w = Some outcome ->
        exists k r, (k < fuel)%nat
                    /\ redirects P (length (requests (trace w))) url k r).
Proof.
  split; [| split].
  - intros k statusCode location body. apply download_along_chain.
  - intros body. split.
    + intros [Hp Hd]. apply write_not_dir; assumption.
    + intros Hd. unfold Fs.write.
      destruct (Fs.parent dest (fs w)); cbn [mbind completion_bind];
        [rewrite Hd |]; eauto.
  - intros fuel outcome. apply download_outcome_chain.
Qed.

Lemma redirect_loop_out_of_fuel (fuel : nat) (w : world) :
  _downloadFile Sample.redirect_loop fuel Sample.asset_url zipPath w = None.
Proof.
  revert w. induction fuel as [| fuel IH]; intros w; [reflexivity |].
  cbn [_downloadFile]. unfold request.
  change (https_get Sample.redirect_loop (length (requests (trace w)))
            Sample.asset_url)
    with (Response 302 (Some Sample.asset_url) "").
  cbn [is_redirect]. change (is_redirect 302 (Some Sample.asset_url)) with true.
  cbn [default]. apply IH.
Qed.

(** C7 fails as stated: when the asset URL redirects to itself, the
    download has no outcome after any number of requests. *)
Lemma redirect_loop_never_ends :
  ~ exists fuel outcome,
      _downloadFile Sample.redirect_loop fuel Sample.asset_url zipPath (boot ∅)
      = Some outcome.
Proof.
  intros (fuel & outcome & H). rewrite redirect_loop_out_of_fuel in H.
  discriminate.
Qed.

(** ** The ISP lookup *)

Lemma source_of_first : source_of 1 = nth 0 apiSources no_source.
Proof. reflexivity. Qed.

(** C2, where the code departs from it: when the first source answers
    with a body that is not JSON, [parse] throws inside the 'end'
    listener of the response, outside the promise and its [try]: the
    exception is uncaught.  No backoff follows, no second source is
    asked, and nothing is returned. *)
Theorem getISP_parse_failure_is_uncaught
    (P : platform) (retries : nat) (w : world)
    (statusCode : Z) (location : option string) (body : string) :
  (1 <= retries)%nat ->
  https_get P (length (requests (trace w))) "https://api.ip.sb/geoip"
  = Response statusCode location body ->
  JSON.parse body = None ->
  getISP P retries w
  = (Uncaught SyntaxError, emit (Request "https://api.ip.sb/geoip") w).
Proof.
  intros Hretries Hget Hparse.
  destruct retries as [| n]; [lia |].
  unfold getISP. cbn [getISP_loop]. rewrite source_of_first.
  cbn [nth apiSources]. unfold attempt_promise, request. cbn [url parse].
  rewrite Hget. unfold parse_geoip. rewrite Hparse. reflexivity.
Qed.

(** ** Provisioning *)

Lemma read_entries_spec (this : XrayProxy) (entries : list zip_entry)
    (w : world) :
  read_entries this entries w
  = match xray_entry entries with
    | Some entry => install_entry this entry w
    | None => (Pending, w)
    end.
Proof.
  unfold xray_entry. induction entries as [| e entries IH]; [reflexivity |].
  cbn [read_entries List.find].
  destruct (String.eqb (fileName e) "xray"); [reflexivity | exact IH].
Qed.

Lemma download_resolved_file (P : platform) (fuel : nat) (url dest : string)
    (w w1 : world) :
  _downloadFile P fuel url dest w = Some (Resolved tt, w1) ->
  exists body m, fs w1 !! dest = Some (File body m).
Proof.
  revert url w. induction fuel as [| fuel IH]; intros url w H; [discriminate |].
  cbn [_downloadFile] in H. unfold request in H.
  destruct (https_get P (length (requests (trace w))) url)
    as [msg | | st loc body | partial how]; try discriminate.
  - destruct (is_redirect st loc); [eapply IH; exact H |].
    destruct (Fs.write dest body (fs (emit (Request url) w))) as [files | e]
      eqn:E; inversion H; subst.
    apply write_file in E as (_ & _ & m & ->).
    cbn [fs set_fs]. rewrite lookup_insert_eq. eauto.
  - destruct (Fs.write dest partial (fs (emit (Request url) w)));
      [destruct how |]; discriminate.
Qed.

(** C3, where the code departs from it: once the archive is on disk
    and opens, an archive without an entry named xray makes the
    'entry' listener ask for entries until 'end', to which nothing
    listens: the promise of [downloadAndExtract] is neither resolved
    with false nor rejected, and the archive stays on disk. *)
Theorem missing_entry_never_settles
    (P : platform) (fuel : nat) (this : XrayProxy) (w w1 : world)
    (url bytes : string) (m : Z) (entries : list zip_entry) :
  getXrayDownloadUrl P = Normal url ->
  _downloadFile P fuel url zipPath w = Some (Resolved tt, w1) ->
  fs w1 !! zipPath = Some (File bytes m) ->
  yauzl_open P bytes = Some entries ->
  (forall e, In e entries -> fileName e <> "xray") ->
  downloadAndExtract P fuel this w = Some (Pending, w1).
Proof.
  intros Hurl Hdl Hzip Hopen Hnone.
  unfold downloadAndExtract. rewrite Hurl, Hdl.
  unfold extract, Fs.readFile. rewrite Hzip, Hopen, read_entries_spec.
  replace (xray_entry entries) with (@None zip_entry); [reflexivity |].
  symmetry. unfold xray_entry.
  destruct (List.find _ entries) as [e |] eqn:E; [| reflexivity].
  apply List.find_some in E as [Hin Hname].
  apply String.eqb_eq in Hname. exfalso. exact (Hnone e Hin Hname).
Qed.

Lemma ends_with_slash_app (x : string) (c : ascii) (s : string) :
  Path.ends_with_slash (x +:+ String c s) = Path.ends_with_slash (String c s).
Proof.
  induction x as [| a x IH]; [reflexivity |].
  change (String a x +:+ String c s) with (String a (x +:+ String c s)).
  cbn [Path.ends_with_slash]. rewrite IH.
  destruct x; reflexivity.
Qed.

Lemma before_last_slash_app (x : string) :
  Path.before_last_slash (x +:+ "/xray") = Some x.
Proof.
  induction x as [| a x IH]; [reflexivity |].
  change (String a x +:+ "/xray") with (String a (x +:+ "/xray")).
  cbn [Path.before_last_slash]. rewrite IH. reflexivity.
Qed.

(** The engine path under a directory [d], and its directory. *)
Lemma xrayPath_shape (d : string) :
  exists x, x <> ""
            /\ Path.join d ["xray"; "xray"] = x +:+ "/xray"
            /\ Path.dirname (Path.join d ["xray"; "xray"]) = x.
Proof.
  exists (Path.join2 d "xray").
  assert (Hx : exists y, Path.join2 d "xray" = y +:+ "xray").
  { unfold Path.join2. destruct (Path.ends_with_slash d).
    - exists d. reflexivity.
    - exists (d +:+ "/"). rewrite append_assoc. reflexivity. }
  destruct Hx as [y Hy].
  assert (Hne : Path.join2 d "xray" <> "").
  { rewrite Hy. intros H. apply (f_equal String.length) in H.
    rewrite append_length in H. cbn in H. lia. }
  assert (Hjoin : Path.join d ["xray"; "xray"] = Path.join2 d "xray" +:+ "/xray").
  { cbn [Path.join fold_left]. unfold Path.join2 at 1.
    rewrite Hy, ends_with_slash_app. reflexivity. }
  split; [exact Hne |]. split; [exact Hjoin |].
  unfold Path.dirname. rewrite Hjoin, before_last_slash_app.
  destruct (Path.join2 d "xray"); [congruence | reflexivity].
Qed.

Lemma xrayPath_distinct (d : string) :
  Path.join d ["xray"; "xray"] <> zipPath
  /\ Path.dirname (Path.join d ["xray"; "xray"]) <> Path.join d ["xray"; "xray"].
Proof.
  destruct (xrayPath_shape d) as (x & Hne & Hjoin & Hdir).
  rewrite Hdir, Hjoin. split; intros H.
  - apply (f_equal Path.before_last_slash) in H.
    rewrite before_last_slash_app in H. discriminate.
  - apply (f_equal String.length) in H.
    rewrite append_length in H. cbn in H. lia.
Qed.

(** The directory that is to hold the engine path is its [dirname]. *)
Lemma parent_of_engine (d : string) (files : gmap string node) :
  Fs.parent (Path.join d ["xray"; "xray"]) files
  = match files !! Path.dirname (Path.join d ["xray"; "xray"]) with
    | Some Dir => Normal tt
    | Some (File _ _) => Throw (ENOTDIR (Path.join d ["xray"; "xray"]))
    | None => Throw (ENOENT (Path.join d ["xray"; "xray"]))
    end.
Proof.
  destruct (xrayPath_shape d) as (x & Hne & Hjoin & Hdir).
  rewrite Hdir. unfold Fs.parent.
  replace (Path.before_last_slash (Path.join d ["xray"; "xray"]))
    with (Some x) by (rewrite Hjoin, before_last_slash_app; reflexivity).
  destruct x as [| c x]; [congruence | reflexivity].
Qed.

(** What [install_entry] does with a stream that ends well, by the
    state of the engine path. *)
Lemma install_readable (P : platform) (this : XrayProxy) (entry : zip_entry)
    (w : world) (bytes data : string) (m : Z) :
  xrayPath this = Path.join (script_dir P) ["xray"; "xray"] ->
  fs w !! zipPath = Some (File bytes m) ->
  contents entry = Readable data ->
  (installable (xrayPath this) (fs w) ->
   exists w2,
     install_entry this entry w = (Resolved true, w2)
     /\ fs w2 !! xrayPath this = Some (File data 493)
     /\ fs w2 !! Path.dirname (xrayPath this) = Some Dir
     /\ fs w2 !! zipPath = None
     /\ trace w2 = trace w)
  /\ (~ installable (xrayPath this) (fs w) ->
      exists r w2,
        install_entry this entry w = (r, w2)
        /\ r <> Resolved true
        /\ fs w2 !! zipPath = Some (File bytes m)).
Proof.
  intros Hpath Hzip Hdata.
  destruct (xrayPath_distinct (script_dir P)) as [Hnz Hnd].
  pose proof (parent_of_engine (script_dir P)) as Hparent.
  rewrite <- Hpath in Hnz, Hnd, Hparent.
  unfold install_entry, installable. rewrite Hdata. cbn [piped negb].
  set (dir := Path.dirname (xrayPath this)) in *.
  set (target := xrayPath this) in *.
  unfold Fs.existsSync, Fs.mkdirSync.
  split.
  - intros [Hfree [Hdir | [Hdir Hup]]]; rewrite Hdir; cbn [negb].
    + destruct (write_not_dir target data (fs w)) as [m1 ->];
        [rewrite Hparent, Hdir; reflexivity | exact Hfree |].
      unfold Fs.chmodSync. rewrite lookup_insert_eq.
      unfold Fs.unlinkSync. rewrite !lookup_insert_ne by exact Hnz.
      rewrite Hzip. eexists. split; [reflexivity |]. cbn [fs set_fs trace].
      split; [rewrite lookup_delete_ne by congruence; apply lookup_insert_eq |].
      split; [rewrite lookup_delete_ne by congruence;
              rewrite !lookup_insert_ne by congruence; exact Hdir |].
      split; [apply lookup_delete_eq | reflexivity].
    + rewrite Hup. cbn [mbind completion_bind].
      destruct (write_not_dir target data (<[dir := Dir]> (fs w))) as [m1 ->].
      { rewrite Hparent. fold dir. rewrite lookup_insert_eq. reflexivity. }
      { rewrite lookup_insert_ne by exact Hnd. exact Hfree. }
      unfold Fs.chmodSync. rewrite lookup_insert_eq.
      unfold Fs.unlinkSync. rewrite !lookup_insert_ne by exact Hnz.
      rewrite lookup_insert_ne by congruence.
      rewrite Hzip. eexists. split; [reflexivity |]. cbn [fs set_fs trace].
      split; [rewrite lookup_delete_ne by congruence; apply lookup_insert_eq |].
      split; [rewrite lookup_delete_ne by congruence;
              rewrite !lookup_insert_ne by congruence;
              apply lookup_insert_eq |].
      split; [apply lookup_delete_eq | reflexivity].
  - intros Hno.
    destruct (fs w !! dir) as [[d0 m0 |] |] eqn:Hdir; cbn [negb].
    + unfold Fs.write. rewrite Hparent, Hdir. cbn [mbind completion_bind].
      eexists _, _. split; [reflexivity |]. split; [discriminate |].
      exact Hzip.
    + destruct (fs w !! target) as [[d1 m1 |] |] eqn:Ht;
        try (exfalso; apply Hno; split; [discriminate | left; reflexivity]).
      unfold Fs.write. rewrite Hparent, Hdir, Ht. cbn [mbind completion_bind].
      eexists _, _. split; [reflexivity |]. split; [discriminate |].
      exact Hzip.
    + destruct (Fs.parent dir (fs w)) as [[] | e] eqn:Hup;
        cbn [mbind completion_bind].
      * destruct (fs w !! target) as [[d1 m1 |] |] eqn:Ht;
          try (exfalso; apply Hno; split;
               [discriminate | right; split; reflexivity]).
        unfold Fs.write. rewrite Hparent. fold dir.
        rewrite lookup_insert_eq. cbn [mbind completion_bind].
        rewrite lookup_insert_ne by exact Hnd. rewrite Ht.
        eexists _, _. split; [reflexivity |]. split; [discriminate |].
        cbn [fs set_fs]. rewrite lookup_insert_ne by congruence. exact Hzip.
      * eexists _, _. split; [reflexivity |]. split; [discriminate |].
        exact Hzip.
Qed.

(** C4, as the code has it: when the download has put an archive on
    disk that opens and whose first entry named xray can be read to its
    end, [downloadAndExtract] resolves with true if the engine path can
    take the file: it then holds the bytes of the entry with mode 0o755,
    its directory is in place, and the archive is gone.  If the engine
    path cannot take the file, [downloadAndExtract] does not resolve
    with true, and the archive stays on disk. *)
Theorem provisioning_installs_engine
    (P : platform) (fuel : nat) (this : XrayProxy) (w w1 : world)
    (url bytes data : string) (m : Z) (entries : list zip_entry)
    (entry : zip_entry) :
  xrayPath this = Path.join (script_dir P) ["xray"; "xray"] ->
  getXrayDownloadUrl P = Normal url ->
  _downloadFile P fuel url zipPath w = Some (Resolved tt, w1) ->
  fs w1 !! zipPath = Some (File bytes m) ->
  yauzl_open P bytes = Some entries ->
  xray_entry entries = Some entry ->
  contents entry = Readable data ->
  (installable (xrayPath this) (fs w1) ->
   exists w2,
     downloadAndExtract P fuel this w = Some (Resolved true, w2)
     /\ fs w2 !! xrayPath this = Some (File data 493)
     /\ fs w2 !! Path.dirname (xrayPath this) = Some Dir
     /\ fs w2 !! zipPath = None)
  /\ (~ installable (xrayPath this) (fs w1) ->
      exists r w2,
        downloadAndExtract P fuel this w = Some (r, w2)
        /\ r <> Resolved true
        /\ fs w2 !! zipPath = Some (File bytes m)).
Proof.
  intros Hpath Hurl Hdl Hzip Hopen Hentry Hdata.
  unfold downloadAndExtract. rewrite Hurl, Hdl.
  unfold extract, Fs.readFile. rewrite Hzip, Hopen, read_entries_spec, Hentry.
  destruct (install_readable P this entry w1 bytes data m Hpath Hzip Hdata)
    as [Hyes Hno].
  split.
  - intros Hi. destruct (Hyes Hi) as (w2 & -> & H1 & H2 & H3 & _). eauto.
  - intros Hi. destruct (Hno Hi) as (r & w2 & -> & H1 & H2). eauto.
Qed.

(** C4 fails as stated: an archive with the entry named xray does not
    make provisioning succeed when a regular file is where the
    directory of the engine should be, nor when the entry cannot be read
    to its end.  In both cases the promise is rejected and the archive
    stays on disk. *)
Lemma expected_entry_is_not_enough :
  xray_entry Sample.archive
  = Some {| fileName := "xray"; contents := Readable "ELF" |}
  /\ option_map
       (fun o => (fst o, fs (snd o) !! xrayPath Sample.proxy0,
                  fs (snd o) !! zipPath))
       (downloadAndExtract Sample.linux_x64 2 Sample.proxy0
          (boot Cases.occupied))
     = Some (Rejected (ENOTDIR "/home/container/xray/xray"), None,
             Some (File "PK-xray" Fs.default_mode))
  /\ xray_entry Cases.damaged_archive
     = Some {| fileName := "xray"; contents := Truncated "EL" |}
  /\ option_map
       (fun o => (fst o, fs (snd o) !! xrayPath Sample.proxy0,
                  fs (snd o) !! zipPath))
       (downloadAndExtract Cases.damaged 2 Sample.proxy0 (boot Sample.disk))
     = Some (Rejected ArchiveError, Some (File "EL" Fs.default_mode),
             Some (File "PK-xray" Fs.default_mode)).
Proof. vm_compute. repeat split. Qed.

(** ** Signals, exit and cleanup *)

Lemma same_handlers_refl (w : world) : same_handlers w w.
Proof. split; reflexivity. Qed.

Lemma same_handlers_trans (w1 w2 w3 : world) :
  same_handlers w1 w2 -> same_handlers w2 w3 -> same_handlers w1 w3.
Proof. intros [H1 H2] [H3 H4]. split; congruence. Qed.

Lemma same_handlers_emit (e : io) (w : world) : same_handlers w (emit e w).
Proof. split; reflexivity. Qed.

Lemma same_handlers_set_fs (f : gmap string node) (w : world) :
  same_handlers w (set_fs f w).
Proof. split; reflexivity. Qed.

Create HintDb handlers.

#[local] Hint Resolve same_handlers_refl same_handlers_emit
  same_handlers_set_fs : handlers.

Lemma getISP_loop_handlers (P : platform) (retries n a : nat) (w : world) :
  same_handlers w (snd (getISP_loop P retries n a w)).
Proof.
  revert a w. induction n as [| n IH]; intros a w; [apply same_handlers_refl |].
  cbn [getISP_loop]. unfold attempt_promise, request.
  assert (Hfail :
    same_handlers w
      (snd (if Nat.eqb a retries
            then (Resolved (Some "Unknown"),
                  emit (Request (url (source_of a))) w)
            else getISP_loop P retries n (S a)
                   (emit (Sleep 1000)
                      (emit (Request (url (source_of a))) w))))).
  { destruct (Nat.eqb a retries); cbn [snd]; [auto with handlers |].
    eapply same_handlers_trans; [| apply IH].
    split; reflexivity. }
  destruct (https_get P (length (requests (trace w))) (url (source_of a)))
    as [msg | | st loc data | partial how];
    [exact Hfail | exact Hfail | |].
  - destruct (parse (source_of a) data); cbn [snd]; auto with handlers.
  - destruct how; [cbn [snd]; auto with handlers | exact Hfail | exact Hfail].
Qed.

Lemma downloadFile_handlers (P : platform) (fuel : nat) (url dest : string)
    (w : world) (r : settled unit) (w' : world) :
  _downloadFile P fuel url dest w = Some (r, w') -> same_handlers w w'.
Proof.
  revert url w. induction fuel as [| fuel IH]; intros url w H; [discriminate |].
  cbn [_downloadFile] in H. unfold request in H.
  destruct (https_get P (length (requests (trace w))) url)
    as [msg | | st loc body | partial how].
  - inversion H; subst. auto with handlers.
  - inversion H; subst. auto with handlers.
  - destruct (is_redirect st loc).
    + apply IH in H. destruct H as [H1 H2]. split; [exact H1 | exact H2].
    + destruct (Fs.write dest body (fs (emit (Request url) w)));
        inversion H; subst; split; reflexivity.
  - destruct (Fs.write dest partial (fs (emit (Request url) w)));
      inversion H; subst; split; reflexivity.
Qed.

Lemma install_entry_handlers (this : XrayProxy) (entry : zip_entry)
    (w : world) :
  same_handlers w (snd (install_entry this entry w)).
Proof.
  unfold install_entry.
  repeat match goal with
    | |- context [match ?x with _ => _ end] => destruct x
    end; cbn [snd]; auto with handlers.
Qed.

Lemma extract_handlers (P : platform) (this : XrayProxy) (w : world) :
  same_handlers w (snd (extract P this w)).
Proof.
  unfold extract.
  destruct (Fs.readFile zipPath (fs w)); [| auto with handlers].
  destruct (yauzl_open P a); [| auto with handlers].
  rewrite read_entries_spec.
  destruct (xray_entry l); [apply install_entry_handlers | auto with handlers].
Qed.

Lemma downloadAndExtract_handlers (P : platform) (fuel : nat)
    (this : XrayProxy) (w : world) (r : settled bool) (w' : world) :
  downloadAndExtract P fuel this w = Some (r, w') -> same_handlers w w'.
Proof.
  unfold downloadAndExtract. cbn [getXrayDownloadUrl].
  destruct (_downloadFile P fuel _ zipPath w) as [[d w1] |] eqn:E;
    [| discriminate].
  apply downloadFile_handlers in E.
  destruct d; intros H; inversion H; subst; try exact E.
  eapply same_handlers_trans; [exact E |].
  pose proof (extract_handlers P this w1) as Hx.
  destruct (extract P this w1) as [r0 w0]. inversion H; subst. exact Hx.
Qed.

Lemma serve_handlers (this : XrayProxy) (isp : option string) (w : world) :
  same_handlers w (state (serve this isp w))
  /\ status_of (serve this isp w) = Running
  /\ exists this', proxy (serve this isp w) = Some this'.
Proof.
  unfold serve, generateConfig, displayInfo.
  destruct (Fs.write configPath _ (fs w)) as [f1 | e];
    cbn [mbind completion_bind fs set_fs];
    [| cbn; repeat split; eauto].
  destruct (Fs.write linksPath _ f1); cbn; repeat split; eauto.
Qed.

(** *** The events of [main], in order *)

Lemma source_of_cases (a : nat) :
  source_of a = {| url := "https://api.ip.sb/geoip"; parse := parse_geoip |}
  \/ source_of a = {| url := "https://www.cloudflare.com/cdn-cgi/trace";
                      parse := parse_trace |}.
Proof.
  unfold source_of. cbn [apiSources length].
  pose proof (Nat.mod_upper_bound (a - 1) 2 ltac:(lia)) as Hb.
  destruct ((a - 1) mod 2)%nat as [| [| k]]; [left | right |]; try reflexivity.
  lia.
Qed.

Lemma source_of_listed (a : nat) :
  existsb (fun src => String.eqb (url (source_of a)) (url src)) apiSources
  = true.
Proof. destruct (source_of_cases a) as [-> | ->]; reflexivity. Qed.

Lemma getISP_loop_events (P : platform) (retries : nat) :
  forall (n a : nat) (w : world),
    exists t,
      snd (getISP_loop P retries n a w)
      = {| fs := fs w; trace := trace w ++ t; listeners := listeners w;
           cleanups := cleanups w |}
      /\ forallb is_lookup_event t = true
      /\ (length (requests t) <= n)%nat.
Proof.
  induction n as [| n IH]; intros a w.
  - exists []. rewrite app_nil_r. destruct w. repeat split. cbn. lia.
  - cbn [getISP_loop]. unfold attempt_promise, request.
    assert (Hone :
      forall r : settled (option string),
        exists t,
          snd (r, emit (Request (url (source_of a))) w)
          = {| fs := fs w; trace := trace w ++ t; listeners := listeners w;
               cleanups := cleanups w |}
          /\ forallb is_lookup_event t = true
          /\ (length (requests t) <= S n)%nat).
    { intros r. exists [Request (url (source_of a))].
      cbn [snd forallb is_lookup_event]. rewrite source_of_listed.
      repeat split. cbn. lia. }
    assert (Hfail :
      let again :=
        if Nat.eqb a retries
        then (Resolved (Some "Unknown"), emit (Request (url (source_of a))) w)
        else getISP_loop P retries n (S a)
               (emit (Sleep 1000) (emit (Request (url (source_of a))) w)) in
      exists t,
        snd again
        = {| fs := fs w; trace := trace w ++ t; listeners := listeners w;
             cleanups := cleanups w |}
        /\ forallb is_lookup_event t = true
        /\ (length (requests t) <= S n)%nat).
    { cbv zeta. destruct (Nat.eqb a retries); [apply Hone |].
      destruct (IH (S a)
                  (emit (Sleep 1000) (emit (Request (url (source_of a))) w)))
        as (t & Ht & He & Hr).
      exists (Request (url (source_of a)) :: Sleep 1000 :: t).
      rewrite Ht. cbn [fs trace listeners cleanups emit].
      rewrite <- !app_assoc. cbn [app].
      split; [reflexivity |]. cbn [forallb is_lookup_event].
      rewrite source_of_listed, He.
      split; [reflexivity |].
      cbn [requests List.filter is_request length]. fold (requests t). lia. }
    destruct (https_get P (length (requests (trace w))) (url (source_of a)))
      as [msg | | st loc data | partial how];
      [exact Hfail | exact Hfail | |].
    + destruct (parse (source_of a) data); apply Hone.
    + destruct how; [apply Hone | exact Hfail | exact Hfail].
Qed.

Lemma hops_final (P : platform) (n : nat) (url : string) (r : reply) :
  https_get P n url = r -> final r -> hops P n url [url].
Proof. intros <- H. apply hops_last. exact H. Qed.

Lemma downloadFile_hops (P : platform) (fuel : nat) (url dest : string)
    (w : world) (r : settled unit) (w' : world) :
  _downloadFile P fuel url dest w = Some (r, w') ->
  exists urls,
    trace w' = trace w ++ map Request urls
    /\ hops P (length (requests (trace w))) url urls.
Proof.
  revert url w. induction fuel as [| fuel IH]; intros url w H; [discriminate |].
  cbn [_downloadFile] in H. unfold request in H.
  destruct (https_get P (length (requests (trace w))) url)
    as [msg | | st loc body | partial how] eqn:Hget.
  - inversion H; subst. exists [url].
    split; [reflexivity | exact (hops_final P _ _ _ Hget I)].
  - inversion H; subst. exists [url].
    split; [reflexivity | exact (hops_final P _ _ _ Hget I)].
  - destruct (is_redirect st loc) eqn:Hred.
    + destruct loc as [loc |];
        [| unfold is_redirect in Hred; destruct (300 <=? st); discriminate].
      cbn [default] in H. apply IH in H. destruct H as (urls & Ht & Hh).
      rewrite requests_emit_request in Hh.
      exists (url :: urls). split.
      * rewrite Ht. cbn [trace emit map]. rewrite <- app_assoc. reflexivity.
      * eapply hops_next; eassumption.
    + exists [url].
      assert (Ht : trace w' = trace w ++ [Request url]).
      { destruct (Fs.write dest body (fs (emit (Request url) w)));
          inversion H; subst; reflexivity. }
      split; [exact Ht |]. exact (hops_final P _ _ _ Hget Hred).
  - exists [url].
    assert (Ht : trace w' = trace w ++ [Request url]).
    { destruct (Fs.write dest partial (fs (emit (Request url) w)));
        inversion H; subst; reflexivity. }
    split; [exact Ht |]. exact (hops_final P _ _ _ Hget I).
Qed.

Lemma install_entry_trace (this : XrayProxy) (entry : zip_entry) (w : world) :
  trace (snd (install_entry this entry w)) = trace w.
Proof.
  unfold install_entry.
  repeat match goal with
    | |- context [match ?x with _ => _ end] => destruct x
    end; reflexivity.
Qed.

Lemma extract_trace (P : platform) (this : XrayProxy) (w : world) :
  trace (snd (extract P this w)) = trace w.
Proof.
  unfold extract.
  destruct (Fs.readFile zipPath (fs w)); [| reflexivity].
  destruct (yauzl_open P a); [| reflexivity].
  rewrite read_entries_spec.
  destruct (xray_entry l); [apply install_entry_trace | reflexivity].
Qed.

Lemma serve_trace (this : XrayProxy) (isp : option string) (w : world) :
  trace (state (serve this isp w)) = trace w.
Proof.
  unfold serve, generateConfig, displayInfo.
  destruct (Fs.write configPath _ (fs w)) as [f1 | e];
    cbn [mbind completion_bind fs set_fs]; [| reflexivity].
  destruct (Fs.write linksPath _ f1); reflexivity.
Qed.

(** The events of a run of [main] that has constructed its proxy: the
    two registrations, then the lookup, then the download. *)
Lemma main_trace (P : platform) (env : environment) (fuel : nat)
    (files : gmap string node) (h : host) (this : XrayProxy)
    (asset : string) :
  getXrayDownloadUrl P = Normal asset ->
  main P env fuel files = Some h ->
  proxy h = Some this ->
  exists t,
    trace (state h) = Listen "SIGINT" :: Listen "SIGTERM" :: t
    /\ staged P asset t.
Proof.
  intros Hurl. unfold main.
  destruct (detectEnvironment env) as [[ip dp] |];
    [| intros H; inversion H; subst; discriminate].
  cbn [constructor].
  set (t0 := Build_XrayProxy _ _ _ _ _ _ _).
  set (w0 := setupSignalHandlers (boot files)).
  destruct (getISP_loop_events P 3 3 1 w0) as (t & Ht & He & Hr).
  unfold getISP.
  destruct (getISP_loop P 3 3 1 w0) as [r w1]. cbn [snd] in Ht. subst w1.
  assert (Hstop : forall w2,
            trace w2 = trace w0 ++ t ->
            exists t',
              trace w2 = Listen "SIGINT" :: Listen "SIGTERM" :: t'
              /\ staged P asset t').
  { intros w2 Hw2. exists t. split; [exact Hw2 |].
    exists t, []. rewrite app_nil_r. auto. }
  destruct r as [isp | e | | e];
    try (intros H _; inversion H; subst; apply Hstop; reflexivity).
  unfold downloadAndExtract. rewrite Hurl.
  match goal with
  | |- context [_downloadFile P fuel asset zipPath ?w] => set (w1 := w)
  end.
  assert (Hreq : length (requests (trace w1)) = length (requests t)).
  { unfold w1. cbn [trace]. reflexivity. }
  destruct (_downloadFile P fuel asset zipPath w1) as [[d w2] |] eqn:E;
    [| discriminate].
  apply downloadFile_hops in E. destruct E as (urls & Hurls & Hhops).
  rewrite Hreq in Hhops.
  assert (Hdone : forall w3,
            trace w3 = trace w2 ->
            exists t',
              trace w3 = Listen "SIGINT" :: Listen "SIGTERM" :: t'
              /\ staged P asset t').
  { intros w3 Hw3. exists (t ++ map Request urls).
    split; [rewrite Hw3, Hurls; unfold w1; cbn [trace]; reflexivity |].
    exists t, urls. auto. }
  destruct d as [[] | e | | e];
    try (intros H _; inversion H; subst; apply Hdone; reflexivity).
  pose proof (extract_trace P t0 w2) as Hx.
  destruct (extract P t0 w2) as [r2 w3]. cbn [snd] in Hx.
  destruct r2 as [[|] | e | | e];
    try (intros H _; inversion H; subst; apply Hdone; exact Hx).
  intros H _; inversion H; subst. apply Hdone.
  rewrite serve_trace. exact Hx.
Qed.

Lemma lookup_event_is_no_listen (e : io) :
  is_lookup_event e = true -> forall ev, e <> Listen ev.
Proof. destruct e; [discriminate | discriminate |]. intros H. discriminate H. Qed.

(** X3: a host that [main] leaves running has a proxy, the two signal
    listeners of its constructor, and no cleanup behind it.  The
    listeners are registered before anything is requested: the events of
    the run begin with the two registrations, and no other registration
    follows. *)
Theorem main_installs_handlers (P : platform) (env : environment) (fuel : nat)
    (files : gmap string node) (h : host) :
  main P env fuel files = Some h ->
  status_of h = Running ->
  installed h
  /\ cleanups (state h) = O
  /\ (exists this, proxy h = Some this)
  /\ exists t,
       trace (state h) = Listen "SIGINT" :: Listen "SIGTERM" :: t
       /\ Forall (fun e => forall ev, e <> Listen ev) t.
Proof.
  intros Hmain Hrun.
  assert (Hfirst : installed h /\ cleanups (state h) = O
                   /\ exists this, proxy h = Some this).
  { revert Hmain Hrun. unfold main, installed.
    destruct (detectEnvironment env) as [[ip dp] |];
      [| intros H; inversion H; subst; discriminate].
    cbn [constructor].
    set (this := Build_XrayProxy _ _ _ _ _ _ _).
    set (w0 := setupSignalHandlers (boot files)).
    pose proof (getISP_loop_handlers P 3 3 1 w0) as H1.
    unfold getISP.
    destruct (getISP_loop P 3 3 1 w0) as [r w1]. cbn [snd] in H1.
    assert (Hbase : forall w, same_handlers w0 w ->
              listeners w
              = [("SIGINT", cleanupAndExit); ("SIGTERM", cleanupAndExit)]
              /\ cleanups w = O).
    { intros w [Ha Hb]. rewrite Ha, Hb. split; reflexivity. }
    destruct r as [isp | e | | e]; intros H Hrun.
    - destruct (downloadAndExtract P fuel this w1) as [[d w2] |] eqn:E;
        [| discriminate].
      apply downloadAndExtract_handlers in E.
      pose proof (same_handlers_trans _ _ _ H1 E) as H2.
      destruct d as [[|] | e | | e]; inversion H; subst; cbn in *;
        try discriminate;
        try solve [destruct (Hbase _ H2); repeat split; eauto].
      destruct (serve_handlers this isp w2) as (Hs & _ & Hp).
      destruct (Hbase _ (same_handlers_trans _ _ _ H2 Hs)).
      repeat split; assumption.
    - inversion H; subst; cbn in *. destruct (Hbase _ H1). repeat split; eauto.
    - inversion H; subst; cbn in *. destruct (Hbase _ H1). repeat split; eauto.
    - inversion H; subst; cbn in *. discriminate. }
  destruct Hfirst as (Hi & Hc & [this Hp]).
  split; [exact Hi |]. split; [exact Hc |]. split; [eauto |].
  destruct (main_trace P env fuel files h this _ eq_refl Hmain Hp)
    as (t & Ht & lookup & urls & -> & He & _).
  exists (lookup ++ map Request urls). split; [exact Ht |].
  apply List.Forall_app. split.
  - apply List.Forall_forall. intros e Hin.
    apply lookup_event_is_no_listen.
    exact (proj1 (List.forallb_forall _ _) He e Hin).
  - apply List.Forall_forall. intros e Hin ev.
    apply List.in_map_iff in Hin as (u & <- & _). discriminate.
Qed.

Lemma run_ended (h : host) (evs : list event) :
  still_running h = false -> run h evs = h.
Proof.
  intros H. unfold run. induction evs as [| e evs IH]; [reflexivity |].
  cbn [fold_left]. unfold deliver at 2. rewrite H. exact IH.
Qed.

Lemma signal_delivered (h : host) (this : XrayProxy) (s : signal) :
  status_of h = Running ->
  proxy h = Some this ->
  installed h ->
  s = SIGINT \/ s = SIGTERM ->
  deliver h (Signal s)
  = {| proxy := Some (signalled this);
       state := {| fs := removed linksPath
                           (removed configPath
                              (removed zipPath (fs (state h))));
                   trace := trace (state h);
                   listeners := listeners (state h);
                   cleanups := S (cleanups (state h)) |};
       status_of := Exited 0;
       main_promise := main_promise h |}.
Proof.
  intros Hrun Hproxy Hinst Hs.
  unfold deliver, still_running. rewrite Hrun.
  assert (Hl : listeners_for (signal_name s) (state h) = [cleanupAndExit]).
  { unfold listeners_for. rewrite Hinst. destruct Hs; subst s; reflexivity. }
  replace (match s with
           | SIGKILL => []
           | _ => listeners_for (signal_name s) (state h)
           end) with [cleanupAndExit]
    by (destruct Hs; subst s; symmetry; exact Hl).
  cbn [fold_left]. rewrite Hrun.
  unfold run_listener, call_cleanup. rewrite Hproxy, cleanup_spec.
  unfold still_running. cbn [status_of]. rewrite Hrun.
  unfold process_exit, listeners_for. cbn [state listeners].
  rewrite Hinst. cbn [List.filter fst String.eqb map fold_left].
  unfold still_running, set_status. cbn [status_of]. rewrite ?Hrun.
  reflexivity.
Qed.

Lemma loop_empty_delivered (h : host) :
  status_of h = Running ->
  installed h ->
  child_alive h = false ->
  deliver h LoopEmpty = set_status (Exited 0) h.
Proof.
  intros Hrun Hinst Hchild.
  assert (Hl : listeners_for "exit" (state h) = []).
  { unfold listeners_for. rewrite Hinst. reflexivity. }
  unfold deliver, still_running. rewrite Hrun, Hchild.
  unfold process_exit. rewrite Hl. cbn [fold_left].
  unfold still_running. rewrite Hrun. reflexivity.
Qed.

(** C1, as the code has it.  On a running host whose proxy has
    registered its listeners, a SIGINT or SIGTERM runs [cleanup] once and
    ends the process with status 0, whatever is sent afterwards: the
    engine process, if one was started, is sent SIGTERM, and each of the
    three artifacts that is a regular file is deleted.  A host that ends
    because nothing is left to wait for exits with status 0 and runs no
    cleanup: files, engine handle and the count of cleanups stay as they
    were. *)
Theorem signal_runs_cleanup_once (h : host) (this : XrayProxy) :
  status_of h = Running ->
  proxy h = Some this ->
  installed h ->
  (forall (s : signal) (evs : list event),
     s = SIGINT \/ s = SIGTERM ->
     let h' := run h (Signal s :: evs) in
     status_of h' = Exited 0
     /\ cleanups (state h') = S (cleanups (state h))
     /\ proxy h' = Some (signalled this)
     /\ (forall f, In f [zipPath; configPath; linksPath] ->
                   fs (state h') !! f = after_removal (fs (state h) !! f))
     /\ (forall p, ~ In p [zipPath; configPath; linksPath] ->
                   fs (state h') !! p = fs (state h) !! p))
  /\ (forall evs : list event,
        child_alive h = false ->
        let h' := run h (LoopEmpty :: evs) in
        status_of h' = Exited 0
        /\ state h' = state h
        /\ proxy h' = Some this).
Proof.
  intros Hrun Hproxy Hinst. split.
  - intros s evs Hs. cbn zeta. unfold run. cbn [fold_left].
    pose proof (signal_delivered h this s Hrun Hproxy Hinst Hs) as Hfirst.
    change (fold_left deliver evs (deliver h (Signal s)))
      with (run (deliver h (Signal s)) evs).
    rewrite run_ended by (rewrite Hfirst; reflexivity).
    rewrite Hfirst. cbn [status_of state proxy fs cleanups].
    split; [reflexivity |]. split; [reflexivity |]. split; [reflexivity |].
    split; [apply removed_artifacts | apply removed_others].
  - intros evs Hchild. cbn zeta. unfold run. cbn [fold_left].
    pose proof (loop_empty_delivered h Hrun Hinst Hchild) as Hfirst.
    change (fold_left deliver evs (deliver h LoopEmpty))
      with (run (deliver h LoopEmpty) evs).
    rewrite run_ended by (rewrite Hfirst; reflexivity).
    rewrite Hfirst. cbn [set_status status_of state proxy].
    split; [reflexivity |]. split; [reflexivity | exact Hproxy].
Qed.

(** C1 fails as stated for a normal exit: after a full start on the
    sample host, the engine ends by itself and the host, with nothing
    left to wait for, exits with status 0; [cleanup] has not run, and the
    configuration and subscription files are still on disk. *)
Lemma normal_exit_skips_cleanup :
  option_map
    (fun h =>
       let h' := run h [ChildExit; LoopEmpty] in
       (status_of h, status_of h', cleanups (state h'),
        Fs.existsSync configPath (fs (state h')),
        Fs.existsSync linksPath (fs (state h'))))
    (main Sample.linux_x64 Sample.env 2 Sample.disk)
  = Some (Running, Exited 0, O, true, true).
Proof. vm_compute. reflexivity. Qed.

(** ** JSON: what is printed parses back *)


Lemma skip_ws_spaces (n : nat) (t : string) :
  JSON.skip_ws (JSON.spaces n +:+ t) = JSON.skip_ws t.
Proof. induction n as [| n IH]; [reflexivity | exact IH]. Qed.

Lemma skip_ws_head (c : ascii) (t : string) :
  JSON.is_ws c = false -> JSON.skip_ws (String c t) = String c t.
Proof. intros H. cbn [JSON.skip_ws]. rewrite H. reflexivity. Qed.

Lemma skip_ws_line (n : nat) (c : ascii) (t : string) :
  JSON.is_ws c = false ->
  JSON.skip_ws (String JSON.nl (JSON.spaces n +:+ String c t)) = String c t.
Proof.
  intros H. change (JSON.skip_ws (JSON.spaces n +:+ String c t) = String c t).
  rewrite skip_ws_spaces. apply skip_ws_head, H.
Qed.

(** *** Strings *)

Lemma parse_chars_escape_char (c : ascii) (t : string) :
  JSON.parse_chars (JSON.escape_char c +:+ t)
  = JSON.with_prefix (String c "") (JSON.parse_chars t).
Proof.
  destruct c as [[] [] [] [] [] [] [] []]; reflexivity.
Qed.

Lemma parse_chars_escape (s rest : string) :
  JSON.parse_chars (JSON.escape s +:+ String JSON.dq rest) = Some (s, rest).
Proof.
  induction s as [| c s IH]; [reflexivity |].
  cbn [JSON.escape]. rewrite append_assoc, parse_chars_escape_char, IH.
  reflexivity.
Qed.

Lemma quote_append (s t : string) :
  JSON.quote s +:+ t = String JSON.dq (JSON.escape s +:+ String JSON.dq t).
Proof.
  unfold JSON.quote. rewrite append_cons, append_assoc. reflexivity.
Qed.

(** *** Numbers *)

Lemma number_stop_digit (c : ascii) (t : string) :
  number_stop (String c t) = true -> JSON.digit_of c = None.
Proof.
  unfold number_stop. destruct (JSON.digit_of c); [discriminate | reflexivity].
Qed.

Lemma scan_uint_digits (u : Decimal.uint) (rest : string) :
  number_stop rest = true ->
  JSON.scan_uint (JSON.digits u +:+ rest) = (u, rest).
Proof.
  intros Hstop.
  induction u as [| u IH | u IH | u IH | u IH | u IH | u IH | u IH | u IH
                 | u IH | u IH];
    try (unfold JSON.digits in *;
         cbn [DecimalString.NilEmpty.string_of_uint];
         rewrite append_cons; cbn [JSON.scan_uint];
         match goal with
         | |- context [JSON.digit_of ?c] =>
             change (JSON.digit_of c)
               with (Some ltac:(match c with
                                | "0"%char => exact Decimal.D0
                                | "1"%char => exact Decimal.D1
                                | "2"%char => exact Decimal.D2
                                | "3"%char => exact Decimal.D3
                                | "4"%char => exact Decimal.D4
                                | "5"%char => exact Decimal.D5
                                | "6"%char => exact Decimal.D6
                                | "7"%char => exact Decimal.D7
                                | "8"%char => exact Decimal.D8
                                | "9"%char => exact Decimal.D9
                                end))
         end;
         rewrite IH; reflexivity).
  change (JSON.scan_uint rest = (Decimal.Nil, rest)).
  destruct rest as [| c t]; [reflexivity |].
  cbn [JSON.scan_uint]. rewrite (number_stop_digit c t Hstop). reflexivity.
Qed.

Lemma scan_frac_exp_stop (rest : string) :
  number_stop rest = true -> JSON.scan_frac_exp rest = Some ("", rest).
Proof.
  intros H. destruct rest as [| c t]; [reflexivity |].
  unfold number_stop in H. apply negb_true_iff in H.
  apply orb_false_iff in H as [H HE]. apply orb_false_iff in H as [H He].
  apply orb_false_iff in H as [_ Hdot].
  unfold JSON.scan_frac_exp, JSON.scan_frac, JSON.scan_exp.
  rewrite Hdot, He, HE. reflexivity.
Qed.

Lemma number_head_chars (c : ascii) :
  number_head c = true ->
  JSON.is_ws c = false
  /\ Ascii.eqb c "{" = false /\ Ascii.eqb c "[" = false
  /\ Ascii.eqb c "}" = false /\ Ascii.eqb c "]" = false
  /\ Ascii.eqb c JSON.dq = false /\ Ascii.eqb c "t" = false
  /\ Ascii.eqb c "f" = false /\ Ascii.eqb c "n" = false.
Proof.
  destruct c as [[] [] [] [] [] [] [] []]; cbv; intros H;
    try discriminate H; repeat split; reflexivity.
Qed.

Lemma digits_head (u : Decimal.uint) :
  u <> Decimal.Nil ->
  exists c t, JSON.digits u = String c t
              /\ number_head c = true /\ Ascii.eqb c "-" = false.
Proof.
  intros H. destruct u; [congruence | ..];
    eexists _, _; (split; [reflexivity | split; reflexivity]).
Qed.

Lemma to_uint_no_leading_zero (p : positive) :
  JSON.is_nil (Pos.to_uint p) = false
  /\ JSON.leading_zero (Pos.to_uint p) = false.
Proof.
  pose proof (DecimalPos.Unsigned.to_uint_nonnil p) as Hnil.
  pose proof (DecimalPos.Unsigned.to_uint_nonzero p) as Hzero.
  assert (Hnorm : Decimal.unorm (Pos.to_uint p) = Pos.to_uint p).
  { rewrite <- (DecimalPos.Unsigned.to_of (Pos.to_uint p)).
    rewrite DecimalPos.Unsigned.of_to. reflexivity. }
  destruct (Pos.to_uint p) as [| u | u | u | u | u | u | u | u | u | u];
    try congruence; try (split; reflexivity).
  split; [reflexivity |]. cbn [JSON.leading_zero].
  destruct u as [| u' | u' | u' | u' | u' | u' | u' | u' | u' | u'];
    try (exfalso; apply Hzero; reflexivity);
    exfalso; rewrite DecimalFacts.unorm_D0 in Hnorm;
    unfold Decimal.unorm in Hnorm;
    match type of Hnorm with
    | context [Decimal.nzhead ?d] =>
        pose proof (DecimalFacts.nzhead_nonzero d) as Hnz;
        destruct (Decimal.nzhead d) eqn:E
    end;
    first [ discriminate Hnorm
          | injection Hnorm as Hn; eapply Hnz; rewrite Hn; reflexivity
          | eapply Hnz; reflexivity ].
Qed.

Lemma parse_number_digits (u : Decimal.uint) (rest : string) :
  JSON.is_nil u = false -> JSON.leading_zero u = false ->
  number_stop rest = true ->
  JSON.parse_number (JSON.digits u +:+ rest)
  = Some (JSON.Int (Z.of_int (Decimal.Pos u)), rest)
  /\ JSON.parse_number (String "-" (JSON.digits u +:+ rest))
     = Some (JSON.Int (Z.of_int (Decimal.Neg u)), rest).
Proof.
  intros Hnil Hlead Hstop.
  assert (Hu : u <> Decimal.Nil) by (intros ->; discriminate).
  destruct (digits_head u Hu) as (c & t & Hd & _ & Hminus).
  pose proof (scan_uint_digits u rest Hstop) as Hscan.
  split.
  - unfold JSON.parse_number.
    rewrite Hd, append_cons, Hminus. rewrite <- append_cons, <- Hd, Hscan.
    rewrite Hnil, Hlead, (scan_frac_exp_stop rest Hstop). reflexivity.
  - unfold JSON.parse_number.
    change (Ascii.eqb "-" "-") with true. cbv iota beta. rewrite Hscan.
    rewrite Hnil, Hlead, (scan_frac_exp_stop rest Hstop). reflexivity.
Qed.

Lemma print_int_cases (z : Z) :
  exists u, JSON.is_nil u = false /\ JSON.leading_zero u = false
            /\ ((JSON.print_int z = JSON.digits u
                 /\ Z.of_int (Decimal.Pos u) = z)
                \/ (JSON.print_int z = String "-" (JSON.digits u)
                    /\ Z.of_int (Decimal.Neg u) = z)).
Proof.
  pose proof (DecimalZ.of_to z) as Hz.
  unfold JSON.print_int. destruct z as [| p | p]; cbn [Z.to_int] in *.
  - exists Decimal.zero. repeat split. left. split; reflexivity.
  - exists (Pos.to_uint p).
    destruct (to_uint_no_leading_zero p) as [Hn Hl].
    split; [exact Hn |]. split; [exact Hl |]. left. split; [| exact Hz].
    cbn [DecimalString.NilZero.string_of_int].
    unfold DecimalString.NilZero.string_of_uint, JSON.digits.
    destruct (Pos.to_uint p); [discriminate Hn | reflexivity ..].
  - exists (Pos.to_uint p).
    destruct (to_uint_no_leading_zero p) as [Hn Hl].
    split; [exact Hn |]. split; [exact Hl |]. right. split; [| exact Hz].
    cbn [DecimalString.NilZero.string_of_int].
    unfold DecimalString.NilZero.string_of_uint, JSON.digits.
    destruct (Pos.to_uint p); [discriminate Hn | reflexivity ..].
Qed.

Lemma print_int_head (z : Z) :
  exists c t, JSON.print_int z = String c t /\ number_head c = true.
Proof.
  destruct (print_int_cases z) as (u & Hn & _ & [[-> _] | [-> _]]).
  - assert (Hu : u <> Decimal.Nil) by (intros ->; discriminate).
    destruct (digits_head u Hu) as (c & t & Hd & Hh & _). eauto.
  - eexists _, _. split; reflexivity.
Qed.

Lemma parse_number_print (z : Z) (rest : string) :
  number_stop rest = true ->
  JSON.parse_number (JSON.print_int z +:+ rest) = Some (JSON.Int z, rest).
Proof.
  intros Hstop.
  destruct (print_int_cases z) as (u & Hn & Hl & [[-> Hz] | [-> Hz]]);
    destruct (parse_number_digits u rest Hn Hl Hstop) as [Hpos Hneg].
  - rewrite Hpos, Hz. reflexivity.
  - rewrite append_cons, Hneg, Hz. reflexivity.
Qed.

(** *** Values *)

Lemma stringify_head (ind : nat) (v : JSON.value) :
  printable v = true ->
  exists c t, JSON.stringify_at ind v = String c t
              /\ JSON.is_ws c = false
              /\ Ascii.eqb c "]" = false /\ Ascii.eqb c "}" = false.
Proof.
  intros Hp. destruct v as [| [|] | [z | l |] | s | [| x items] | [| kv fields]];
    try discriminate Hp;
    try (eexists _, _; split; [reflexivity | repeat split; reflexivity]).
  cbn [JSON.stringify_at].
  destruct (print_int_head z) as (c & t & -> & Hh).
  destruct (number_head_chars c Hh) as (H1 & _ & _ & H2 & H3 & _).
  eauto 8.
Qed.

Lemma lines_single (i : nat) (t K : string) :
  JSON.lines i [t] +:+ K = String JSON.nl (JSON.spaces i +:+ (t +:+ K)).
Proof.
  cbn [JSON.lines]. rewrite append_cons, append_assoc. reflexivity.
Qed.

Lemma lines_cons (i : nat) (t t' : string) (ts : list string) (K : string) :
  JSON.lines i (t :: t' :: ts) +:+ K
  = String JSON.nl
      (JSON.spaces i +:+ (t +:+ String "," (JSON.lines i (t' :: ts) +:+ K))).
Proof.
  cbn [JSON.lines]. rewrite append_cons, !append_assoc. reflexivity.
Qed.

Lemma skip_ws_closing (j : nat) (bracket : ascii) (rest : string) :
  JSON.is_ws bracket = false ->
  JSON.skip_ws (closing j bracket rest) = String bracket rest.
Proof. apply skip_ws_line. Qed.

Lemma parse_items_lines (pv : JSON.parser JSON.value) (i j : nat)
    (items : list JSON.value) (rest : string) :
  Forall (fun x => printable x = true) items ->
  Forall (fun x => forall R, number_stop R = true ->
                   pv (JSON.stringify_at i x +:+ R) = Some (x, R)) items ->
  items <> [] ->
  forall n, (length items <= n)%nat ->
  JSON.parse_items pv n
    (JSON.skip_ws (JSON.lines i (map (JSON.stringify_at i) items)
                   +:+ closing j "]" rest))
  = Some (items, rest).
Proof.
  intros Hp Hpv. induction items as [| x items IH]; [congruence |].
  intros _ n Hn. destruct n as [| n]; [cbn in Hn; lia |].
  apply List.Forall_cons_iff in Hp as [Hpx Hp].
  apply List.Forall_cons_iff in Hpv as [Hx Hpv].
  destruct (stringify_head i x Hpx) as (c & t & Hhead & Hws & _).
  destruct items as [| y items].
  - cbn [map]. rewrite lines_single, Hhead, append_cons, skip_ws_line by exact Hws.
    rewrite <- append_cons, <- Hhead.
    cbn [JSON.parse_items]. rewrite Hx by reflexivity.
    rewrite skip_ws_closing by reflexivity.
    reflexivity.
  - cbn [map]. rewrite lines_cons, Hhead, append_cons, skip_ws_line by exact Hws.
    rewrite <- append_cons, <- Hhead.
    cbn [JSON.parse_items]. rewrite Hx by reflexivity.
    rewrite skip_ws_head by reflexivity.
    change (Ascii.eqb "," ",") with true. cbv iota.
    change (JSON.stringify_at i y :: map (JSON.stringify_at i) items)
      with (map (JSON.stringify_at i) (y :: items)).
    rewrite (IH Hp Hpv) by (cbn in *; first [congruence | lia]).
    reflexivity.
Qed.

Lemma parse_member_text (pv : JSON.parser JSON.value) (i : nat)
    (kv : string * JSON.value) (R : string) :
  printable (snd kv) = true ->
  pv (JSON.stringify_at i (snd kv) +:+ R) = Some (snd kv, R) ->
  JSON.parse_member pv (member_text i kv +:+ R) = Some (kv, R).
Proof.
  intros Hp Hpv. destruct kv as [k v]. cbn [fst snd] in *.
  unfold member_text. cbn [fst snd].
  rewrite !append_assoc, quote_append.
  unfold JSON.parse_member.
  change (Ascii.eqb JSON.dq JSON.dq) with true. cbv iota.
  rewrite parse_chars_escape.
  destruct (stringify_head i v Hp) as (c & t & Hhead & Hws & _).
  rewrite !append_cons. rewrite skip_ws_head by reflexivity.
  change (Ascii.eqb ":" ":") with true. cbv iota.
  replace (JSON.skip_ws (String " " ("" +:+ JSON.stringify_at i v +:+ R)))
    with (JSON.stringify_at i v +:+ R).
  - rewrite Hpv. reflexivity.
  - change (JSON.stringify_at i v +:+ R
            = JSON.skip_ws (JSON.stringify_at i v +:+ R)).
    rewrite Hhead, append_cons, skip_ws_head by exact Hws. reflexivity.
Qed.

Lemma parse_members_lines (pv : JSON.parser JSON.value) (i j : nat)
    (fields : list (string * JSON.value)) (rest : string) :
  Forall (fun kv => printable (snd kv) = true) fields ->
  Forall (fun kv => forall R, number_stop R = true ->
                    pv (JSON.stringify_at i (snd kv) +:+ R)
                    = Some (snd kv, R)) fields ->
  fields <> [] ->
  forall n, (length fields <= n)%nat ->
  JSON.parse_members pv n
    (JSON.skip_ws (JSON.lines i (map (member_text i) fields)
                   +:+ closing j "}" rest))
  = Some (fields, rest).
Proof.
  intros Hp Hpv. induction fields as [| kv fields IH]; [congruence |].
  intros _ n Hn. destruct n as [| n]; [cbn in Hn; lia |].
  apply List.Forall_cons_iff in Hp as [Hpx Hp].
  apply List.Forall_cons_iff in Hpv as [Hx Hpv].
  assert (Hhead : exists t, member_text i kv = String JSON.dq t).
  { unfold member_text, JSON.quote. rewrite append_cons. eauto. }
  destruct Hhead as [t Hhead].
  destruct fields as [| kv' fields].
  - cbn [map]. rewrite lines_single, Hhead, append_cons, skip_ws_line
      by reflexivity.
    rewrite <- append_cons, <- Hhead.
    cbn [JSON.parse_members].
    rewrite (parse_member_text pv i kv _ Hpx) by (apply Hx; reflexivity).
    rewrite skip_ws_closing by reflexivity.
    reflexivity.
  - cbn [map]. rewrite lines_cons, Hhead, append_cons, skip_ws_line
      by reflexivity.
    rewrite <- append_cons, <- Hhead.
    cbn [JSON.parse_members].
    rewrite (parse_member_text pv i kv _ Hpx) by (apply Hx; reflexivity).
    rewrite skip_ws_head by reflexivity.
    change (Ascii.eqb "," ",") with true. cbv iota.
    change (member_text i kv' :: map (member_text i) fields)
      with (map (member_text i) (kv' :: fields)).
    rewrite (IH Hp Hpv) by (cbn in *; first [congruence | lia]).
    reflexivity.
Qed.

Lemma need_items (f : nat) (items : list JSON.value) :
  (Nat.max (length items)
     (fold_right (fun x n => Nat.max (need x) n) O items) <= f)%nat ->
  (length items <= f)%nat /\ Forall (fun x => (need x <= f)%nat) items.
Proof.
  intros H. split; [lia |].
  assert (H' : (fold_right (fun x n => Nat.max (need x) n) O items <= f)%nat)
    by lia.
  clear H. induction items as [| x items IH]; [constructor |].
  cbn [fold_right] in H'. constructor; [lia | apply IH; lia].
Qed.

Lemma need_fields (f : nat) (fields : list (string * JSON.value)) :
  (Nat.max (length fields)
     (fold_right (fun kv n => Nat.max (need (snd kv)) n) O fields) <= f)%nat ->
  (length fields <= f)%nat
  /\ Forall (fun kv => (need (snd kv) <= f)%nat) fields.
Proof.
  intros H. split; [lia |].
  assert (H' : (fold_right (fun kv n => Nat.max (need (snd kv)) n) O fields
                <= f)%nat) by lia.
  clear H. induction fields as [| x fields IH]; [constructor |].
  cbn [fold_right] in H'. constructor; [lia | apply IH; lia].
Qed.

Lemma stringify_array (ind : nat) (x : JSON.value) (items : list JSON.value)
    (rest : string) :
  JSON.stringify_at ind (JSON.Arr (x :: items)) +:+ rest
  = String "["
      (JSON.lines (2 + ind) (map (JSON.stringify_at (2 + ind)) (x :: items))
       +:+ closing ind "]" rest).
Proof.
  cbn [JSON.stringify_at]. unfold closing.
  repeat (progress (rewrite ?append_assoc, ?append_cons)). reflexivity.
Qed.

Lemma stringify_object (ind : nat) (kv : string * JSON.value)
    (fields : list (string * JSON.value)) (rest : string) :
  JSON.stringify_at ind (JSON.Obj (kv :: fields)) +:+ rest
  = String "{"
      (JSON.lines (2 + ind) (map (member_text (2 + ind)) (kv :: fields))
       +:+ closing ind "}" rest).
Proof.
  cbn [JSON.stringify_at]. unfold closing.
  repeat (progress (rewrite ?append_assoc, ?append_cons)). reflexivity.
Qed.

Lemma skip_ws_lines_head (i : nat) (t : string) (ts : list string)
    (K : string) (c : ascii) (t' : string) :
  t = String c t' -> JSON.is_ws c = false ->
  exists t'', JSON.skip_ws (JSON.lines i (t :: ts) +:+ K) = String c t''.
Proof.
  intros -> Hws. destruct ts as [| u ts].
  - rewrite lines_single, append_cons, skip_ws_line by exact Hws. eauto.
  - rewrite lines_cons, append_cons, skip_ws_line by exact Hws. eauto.
Qed.

(** A printed value, followed by anything that does not continue a
    number, is read back as that value, and what follows is left. *)
Lemma parse_value_stringify (v : JSON.value) :
  printable v = true ->
  forall (ind fuel : nat) (rest : string),
    (need v <= fuel)%nat -> number_stop rest = true ->
    JSON.parse_value fuel (JSON.stringify_at ind v +:+ rest) = Some (v, rest).
Proof.
  induction v as [| b | n | s | items IH | fields IH] using value_induction;
    intros Hp ind fuel rest Hfuel Hstop;
    (destruct fuel as [| f]; [cbn in Hfuel; lia |]).
  - reflexivity.
  - destruct b; reflexivity.
  - destruct n as [z | l |]; try discriminate Hp.
    cbn [JSON.stringify_at].
    destruct (print_int_head z) as (c & t & Hhead & Hh).
    destruct (number_head_chars c Hh)
      as (_ & H1 & H2 & _ & _ & H3 & H4 & H5 & H6).
    rewrite Hhead, append_cons. cbn [JSON.parse_value].
    rewrite H1, H2, H3, H4, H5, H6.
    rewrite <- append_cons, <- Hhead, parse_number_print by exact Hstop.
    reflexivity.
  - cbn [JSON.stringify_at]. rewrite quote_append.
    cbn [JSON.parse_value].
    change (Ascii.eqb JSON.dq "{") with false.
    change (Ascii.eqb JSON.dq "[") with false.
    change (Ascii.eqb JSON.dq JSON.dq) with true. cbv iota.
    rewrite parse_chars_escape. reflexivity.
  - destruct items as [| x items]; [reflexivity |].
    cbn [printable] in Hp.
    pose proof (proj1 (List.forallb_forall _ _) Hp) as Hp'.
    apply (proj2 (List.Forall_forall _ _)) in Hp'. clear Hp. rename Hp' into Hp.
    cbn [need] in Hfuel. apply le_S_n, need_items in Hfuel as [Hlen Hneed].
    rewrite stringify_array. cbn [JSON.parse_value].
    change (Ascii.eqb "[" "{") with false.
    change (Ascii.eqb "[" "[") with true. cbv iota.
    destruct (stringify_head (2 + ind) x) as (c & t & Hhead & Hws & Hb & _).
    { apply List.Forall_cons_iff in Hp as [Hx _]. exact Hx. }
    cbn [map].
    destruct (skip_ws_lines_head (2 + ind) _
                (map (JSON.stringify_at (2 + ind)) items)
                (closing ind "]" rest) c t Hhead Hws) as [t'' Hskip].
    rewrite Hskip, Hb, <- Hskip.
    change (JSON.stringify_at (2 + ind) x
            :: map (JSON.stringify_at (2 + ind)) items)
      with (map (JSON.stringify_at (2 + ind)) (x :: items)).
    rewrite parse_items_lines; [reflexivity | exact Hp | | congruence | exact Hlen].
    apply List.Forall_forall. intros y Hy R HR.
    rewrite List.Forall_forall in IH, Hp, Hneed.
    apply IH; auto.
  - destruct fields as [| kv fields]; [reflexivity |].
    cbn [printable] in Hp.
    pose proof (proj1 (List.forallb_forall _ _) Hp) as Hp'.
    apply (proj2 (List.Forall_forall _ _)) in Hp'. clear Hp. rename Hp' into Hp.
    cbn [need] in Hfuel. apply le_S_n, need_fields in Hfuel as [Hlen Hneed].
    rewrite stringify_object. cbn [JSON.parse_value].
    change (Ascii.eqb "{" "{") with true. cbv iota.
    assert (Hhead : exists t, member_text (2 + ind) kv = String JSON.dq t).
    { unfold member_text, JSON.quote. rewrite append_cons. eauto. }
    destruct Hhead as [t Hhead].
    cbn [map].
    destruct (skip_ws_lines_head (2 + ind) _
                (map (member_text (2 + ind)) fields)
                (closing ind "}" rest) JSON.dq t Hhead eq_refl) as [t'' Hskip].
    rewrite Hskip. change (Ascii.eqb JSON.dq "}") with false. cbv iota.
    rewrite <- Hskip.
    change (member_text (2 + ind) kv :: map (member_text (2 + ind)) fields)
      with (map (member_text (2 + ind)) (kv :: fields)).
    rewrite parse_members_lines; [reflexivity | exact Hp | | congruence | exact Hlen].
    apply List.Forall_forall. intros y Hy R HR.
    rewrite List.Forall_forall in IH, Hp, Hneed.
    apply IH; auto.
Qed.

Lemma lines_length (i : nat) (t : string) (ts : list string) :
  (S (String.length t) <= String.length (JSON.lines i (t :: ts)))%nat
  /\ (S (String.length (JSON.lines i ts))
      <= String.length (JSON.lines i (t :: ts)))%nat.
Proof.
  destruct ts as [| u ts].
  - cbn [JSON.lines String.length]. rewrite append_length. lia.
  - assert (H : JSON.lines i (t :: u :: ts)
                = String JSON.nl (JSON.spaces i
                                  +:+ (t +:+ String "," (JSON.lines i (u :: ts)))))
      by reflexivity.
    rewrite H. cbn [String.length]. rewrite !append_length.
    cbn [String.length]. lia.
Qed.

Lemma lines_bounds {A} (g : A -> string) (m : A -> nat) (i : nat)
    (l : list A) :
  Forall (fun x => (m x <= String.length (g x))%nat) l ->
  (length l <= String.length (JSON.lines i (map g l)))%nat
  /\ (fold_right (fun x n => Nat.max (m x) n) O l
      <= String.length (JSON.lines i (map g l)))%nat.
Proof.
  induction l as [| x l IH]; intros H; [split; cbn; lia |].
  apply List.Forall_cons_iff in H as [Hx Hl].
  destruct (IH Hl) as [IH1 IH2].
  destruct (lines_length i (g x) (map g l)) as [H1 H2].
  cbn [map length fold_right]. split; lia.
Qed.

Lemma need_le_length (v : JSON.value) :
  printable v = true ->
  forall ind, (need v <= String.length (JSON.stringify_at ind v))%nat.
Proof.
  induction v as [| b | n | s | items IH | fields IH] using value_induction;
    intros Hp ind.
  - cbn. lia.
  - destruct b; cbn; lia.
  - destruct n as [z | l |]; try discriminate Hp.
    destruct (print_int_head z) as (c & t & Hhead & _).
    cbn [JSON.stringify_at need]. rewrite Hhead. cbn. lia.
  - cbn. lia.
  - destruct items as [| x items]; [cbn; lia |].
    cbn [printable] in Hp.
    pose proof (proj1 (List.forallb_forall _ _) Hp) as Hp'.
    pose proof (stringify_array ind x items "") as Htext.
    rewrite append_nil_r in Htext. rewrite Htext.
    cbn [need String.length]. rewrite append_length.
    destruct (lines_bounds (JSON.stringify_at (2 + ind)) need (2 + ind)
                (x :: items)) as [H1 H2]; [| lia].
    apply List.Forall_forall. intros y Hy.
    rewrite List.Forall_forall in IH. apply IH; auto.
  - destruct fields as [| kv fields]; [cbn; lia |].
    cbn [printable] in Hp.
    pose proof (proj1 (List.forallb_forall _ _) Hp) as Hp'.
    pose proof (stringify_object ind kv fields "") as Htext.
    rewrite append_nil_r in Htext. rewrite Htext.
    cbn [need String.length]. rewrite append_length.
    destruct (lines_bounds (member_text (2 + ind))
                (fun kv => need (snd kv)) (2 + ind) (kv :: fields))
      as [H1 H2]; [| lia].
    apply List.Forall_forall. intros y Hy.
    rewrite List.Forall_forall in IH.
    unfold member_text. rewrite !append_length.
    specialize (IH y Hy (Hp' y Hy) (2 + ind)%nat). lia.
Qed.

(** What [JSON.stringify] prints of a printable value, [JSON.parse]
    reads back as that value. *)
Lemma parse_stringify (v : JSON.value) :
  printable v = true -> JSON.parse (JSON.stringify v) = Some v.
Proof.
  intros Hp. unfold JSON.parse, JSON.stringify.
  destruct (stringify_head 0 v Hp) as (c & t & Hhead & Hws & _).
  rewrite Hhead at 2. rewrite skip_ws_head by exact Hws. rewrite <- Hhead.
  rewrite <- (append_nil_r (JSON.stringify_at 0 v)) at 2.
  rewrite parse_value_stringify; [reflexivity | exact Hp | | reflexivity].
  pose proof (need_le_length v Hp 0). lia.
Qed.

(** ** The configuration document *)

Lemma config_printable (this : XrayProxy) (z : Z) :
  port this = JSON.Int z -> printable (config this) = true.
Proof. intros H. unfold config. cbn. rewrite H. reflexivity. Qed.

(** [generateConfig] writes the printed configuration to config.json
    and changes nothing else, or throws when config.json is a
    directory. *)
Lemma generateConfig_spec (this : XrayProxy) (w : world) :
  (fs w !! configPath <> Some Dir ->
   exists m,
     generateConfig this w
     = Normal (set_fs (<[configPath
                         := File (JSON.stringify (config this)) m]> (fs w))
                 w))
  /\ (fs w !! configPath = Some Dir ->
      generateConfig this w = Throw (EISDIR configPath)).
Proof.
  unfold generateConfig.
  generalize (JSON.stringify (config this)) as text. intros text. split.
  - intros H.
    destruct (write_not_dir configPath text (fs w)) as [m ->];
      [reflexivity | exact H |]. exists m. reflexivity.
  - intros H. unfold Fs.write. cbn [Fs.parent Path.before_last_slash].
    change (Fs.parent configPath (fs w)) with (@Normal unit tt).
    cbn [mbind completion_bind]. rewrite H. reflexivity.
Qed.

Lemma generateConfig_writes (this : XrayProxy) (w w' : world) :
  generateConfig this w = Normal w' ->
  exists m, fs w' !! configPath = Some (File (JSON.stringify (config this)) m).
Proof.
  intros H.
  destruct (generateConfig_spec this w) as [Hok Hdir].
  destruct (fs w !! configPath) as [[d m |] |] eqn:E;
    try (rewrite Hdir in H by reflexivity; discriminate H);
    (destruct Hok as [m' Hw]; [discriminate |]);
    rewrite Hw in H; inversion H; subst; cbn [fs set_fs];
    eexists; apply lookup_insert_eq.
Qed.

(** C6: for a proxy whose port is a positive integer (below 2^53, where
    numbers are exact), the text of the configuration parses as JSON;
    the document read has one inbound, with that port, listening on
    0.0.0.0, whose settings have one client, with the identifier of the
    proxy.  That text is what [generateConfig] writes to config.json,
    on every file system where config.json is not a directory; where it
    is one, [generateConfig] throws and writes nothing. *)
Theorem config_parses_back (this : XrayProxy) (z : Z) :
  port this = JSON.Int z ->
  0 < z < 2 ^ 53 ->
  exists doc inbound settings client,
    JSON.parse (JSON.stringify (config this)) = Some doc
    /\ JSON.get doc "inbounds" = Normal (Some (JSON.Arr [inbound]))
    /\ JSON.get inbound "port" = Normal (Some (JSON.Num (JSON.Int z)))
    /\ JSON.get inbound "listen" = Normal (Some (JSON.Str "0.0.0.0"))
    /\ JSON.get inbound "settings" = Normal (Some settings)
    /\ JSON.get settings "clients" = Normal (Some (JSON.Arr [client]))
    /\ JSON.get client "id" = Normal (Some (JSON.Str (uuid this)))
    /\ forall w,
         (fs w !! configPath <> Some Dir ->
          exists m,
            generateConfig this w
            = Normal (set_fs (<[configPath
                                := File (JSON.stringify (config this)) m]>
                                (fs w)) w))
         /\ (fs w !! configPath = Some Dir ->
             generateConfig this w = Throw (EISDIR configPath)).
Proof.
  intros Hport _.
  eexists (config this), _, _, _.
  split; [apply parse_stringify, (config_printable this z Hport) |].
  split; [unfold config; reflexivity |].
  split; [rewrite Hport; reflexivity |].
  repeat (split; [reflexivity |]).
  apply generateConfig_spec.
Qed.

(** ** The ISP lookup when requests fail *)

Lemma extend_nil (w : world) : extend [] w = w.
Proof. destruct w. unfold extend. cbn. rewrite app_nil_r. reflexivity. Qed.

Lemma extend_emit (e : io) (t : list io) (w : world) :
  extend t (emit e w) = extend (e :: t) w.
Proof. unfold extend, emit. cbn. rewrite <- app_assoc. reflexivity. Qed.

Lemma extend_extend (t t' : list io) (w : world) :
  extend t' (extend t w) = extend (t ++ t') w.
Proof. unfold extend. cbn. rewrite <- app_assoc. reflexivity. Qed.

Lemma requests_sleep (ms : Z) (w : world) :
  length (requests (trace (emit (Sleep ms) w))) = length (requests (trace w)).
Proof.
  unfold requests, emit. cbn [trace].
  rewrite List.filter_app, length_app. cbn. lia.
Qed.

Lemma attempt_rejected (P : platform) (src : source) (w : world) :
  rejects (https_get P (length (requests (trace w))) (url src)) = true ->
  exists e, attempt_promise P src w = (Rejected e, emit (Request (url src)) w).
Proof.
  unfold attempt_promise, request.
  destruct (https_get P _ _); [eauto | eauto | discriminate | discriminate].
Qed.

Lemma requests_failed_rounds (k a : nat) (w : world) :
  length (requests (trace (extend (failed_rounds k a) w)))
  = (length (requests (trace w)) + k)%nat.
Proof.
  unfold extend, requests. cbn [trace].
  rewrite List.filter_app, length_app. f_equal.
  revert a. induction k as [| k IH]; intros a; [reflexivity |].
  cbn. rewrite IH. reflexivity.
Qed.

(** [k] failed attempts that are not the last: each is followed by the
    backoff, and the loop goes on with the next attempt. *)
Lemma getISP_loop_failed_rounds (P : platform) (retries : nat) :
  forall (k n a : nat) (w : world),
    (a + k <= retries)%nat ->
    (forall i, (i < k)%nat ->
               rejects (https_get P (length (requests (trace w)) + i)
                          (url (source_of (a + i)))) = true) ->
    getISP_loop P retries (k + n) a w
    = getISP_loop P retries n (a + k) (extend (failed_rounds k a) w).
Proof.
  induction k as [| k IH]; intros n a w Hle Hrej.
  - rewrite Nat.add_0_r, extend_nil. reflexivity.
  - cbn [Nat.add getISP_loop].
    destruct (attempt_rejected P (source_of a) w) as [e ->].
    { specialize (Hrej O ltac:(lia)). rewrite !Nat.add_0_r in Hrej. exact Hrej. }
    replace (Nat.eqb a retries) with false
      by (symmetry; apply Nat.eqb_neq; lia).
    rewrite IH.
    + cbn [failed_rounds]. rewrite !extend_emit.
      replace (S a + k)%nat with (a + S k)%nat by lia. reflexivity.
    + lia.
    + intros i Hi. rewrite requests_sleep, requests_emit_request.
      specialize (Hrej (S i) ltac:(lia)).
      replace (S a + i)%nat with (a + S i)%nat by lia.
      replace (S (length (requests (trace w))) + i)%nat
        with (length (requests (trace w)) + S i)%nat by lia.
      exact Hrej.
Qed.

(** X1: when every request of the [retries] attempts fails, the lookup
    returns "Unknown": attempt [n] asks source [(n - 1) mod 2], one
    second of backoff follows each attempt but the last, and nothing is
    requested after the last. *)
Theorem getISP_unknown_after_retries
    (P : platform) (retries : nat) (w : world) :
  (1 <= retries)%nat ->
  (forall i, (i < retries)%nat ->
             rejects (https_get P (length (requests (trace w)) + i)
                        (url (source_of (1 + i)))) = true) ->
  getISP P retries w
  = (Resolved (Some "Unknown"),
     extend (failed_rounds (retries - 1) 1
             ++ [Request (url (source_of retries))]) w).
Proof.
  intros Hpos Hrej. unfold getISP.
  replace retries with ((retries - 1) + 1)%nat at 2 by lia.
  rewrite getISP_loop_failed_rounds; [| lia | intros i Hi; apply Hrej; lia].
  replace (1 + (retries - 1))%nat with retries by lia.
  cbn [getISP_loop].
  destruct (attempt_rejected P (source_of retries)
              (extend (failed_rounds (retries - 1) 1) w)) as [e ->].
  - specialize (Hrej (retries - 1)%nat ltac:(lia)).
    replace (1 + (retries - 1))%nat with retries in Hrej by lia.
    rewrite requests_failed_rounds. exact Hrej.
  - rewrite Nat.eqb_refl. unfold emit. cbn [fs trace listeners cleanups].
    unfold extend. cbn [fs trace listeners cleanups].
    rewrite <- app_assoc. reflexivity.
Qed.

(** X2: when the requests of the first [k] attempts fail and attempt
    [k + 1] is answered with a body its source parses, the lookup
    returns the label parsed, after [k] backoffs. *)
Theorem getISP_first_answer
    (P : platform) (retries k : nat) (w : world)
    (statusCode : Z) (location : option string) (body label : string) :
  (k < retries)%nat ->
  (forall i, (i < k)%nat ->
             rejects (https_get P (length (requests (trace w)) + i)
                        (url (source_of (1 + i)))) = true) ->
  https_get P (length (requests (trace w)) + k) (url (source_of (1 + k)))
  = Response statusCode location body ->
  parse (source_of (1 + k)) body = Normal label ->
  getISP P retries w
  = (Resolved (Some label),
     extend (failed_rounds k 1 ++ [Request (url (source_of (1 + k)))]) w).
Proof.
  intros Hk Hrej Hget Hparse. unfold getISP.
  replace retries with (k + (retries - k))%nat at 2 by lia.
  rewrite getISP_loop_failed_rounds; [| lia | exact Hrej].
  destruct (retries - k)%nat as [| n] eqn:E; [lia |].
  cbn [getISP_loop]. unfold attempt_promise, request.
  rewrite requests_failed_rounds, Hget, Hparse.
  unfold emit, extend. cbn [fs trace listeners cleanups].
  rewrite <- app_assoc. reflexivity.
Qed.
(** ** The host contract and the port *)

Lemma absent_or (a b : option string) :
  absent a || absent b = false ->
  exists x y, a = Some x /\ b = Some y /\ Str.truthy x = true
              /\ Str.truthy y = true.
Proof.
  destruct a as [x |], b as [y |]; cbn; try discriminate;
    try (rewrite orb_true_r; discriminate).
  intros H. apply orb_false_iff in H as [Hx Hy].
  apply negb_false_iff in Hx, Hy. eauto 6.
Qed.

Lemma detectEnvironment_absent (env : environment) :
  detectEnvironment env
  = if absent (SERVER_IP env) || absent (SERVER_PORT env) then None
    else Some (default "" (SERVER_IP env),
               JS.parseInt (default "" (SERVER_PORT env))).
Proof.
  unfold detectEnvironment.
  destruct (SERVER_IP env) as [ip |], (SERVER_PORT env) as [p |]; cbn;
    try reflexivity.
  - destruct (Str.truthy ip), (Str.truthy p); reflexivity.
  - rewrite orb_true_r. reflexivity.
Qed.

Lemma startService_fields (this : XrayProxy) :
  uuid (startService this) = uuid this
  /\ path (startService this) = path this
  /\ domain (startService this) = domain this
  /\ port (startService this) = port this
  /\ xrayPath (startService this) = xrayPath this
  /\ name (startService this) = name this.
Proof. repeat split. Qed.

(** The object of a host that [main] has left is the one its
    constructor made, with the engine process once [startService] ran. *)
Lemma main_proxy (P : platform) (env : environment) (fuel : nat)
    (files : gmap string node) (h : host) (this : XrayProxy) :
  main P env fuel files = Some h ->
  proxy h = Some this ->
  exists ip directPort,
    detectEnvironment env = Some (ip, directPort)
    /\ (this = constructed P env directPort
        \/ this = startService (constructed P env directPort)).
Proof.
  unfold main.
  destruct (detectEnvironment env) as [[ip dp] |];
    [| intros H; inversion H; subst; discriminate].
  intros H Hp. exists ip, dp. split; [reflexivity |].
  unfold constructed. cbn [constructor fst] in *.
  set (t := Build_XrayProxy _ _ _ _ _ _ _) in *.
  destruct (getISP P 3 (setupSignalHandlers (boot files))) as [r w1].
  destruct r as [isp | e | | e];
    try (inversion H; subst; cbn in Hp; inversion Hp; left; reflexivity).
  destruct (downloadAndExtract P fuel t w1) as [[d w2] |]; [| discriminate].
  destruct d as [[|] | e | | e];
    try (inversion H; subst; cbn in Hp; inversion Hp; left; reflexivity).
  inversion H; subst. unfold serve in Hp.
  destruct (generateConfig t w2);
    [| cbn in Hp; inversion Hp; left; reflexivity].
  destruct (displayInfo t isp a); cbn in Hp; inversion Hp;
    [right | left]; reflexivity.
Qed.

Lemma main_constructs (P : platform) (env : environment) (fuel : nat)
    (files : gmap string node) (h : host) (ip : string) (dp : JSON.number) :
  detectEnvironment env = Some (ip, dp) ->
  main P env fuel files = Some h ->
  (forall code, status_of h <> Exited code)
  /\ exists this, proxy h = Some this.
Proof.
  intros Hd. unfold main. rewrite Hd. cbn [constructor].
  set (t := Build_XrayProxy _ _ _ _ _ _ _).
  destruct (getISP P 3 (setupSignalHandlers (boot files))) as [r w1].
  destruct r as [isp | e | | e];
    try (intros H; inversion H; subst; cbn; split; [discriminate | eauto]).
  destruct (downloadAndExtract P fuel t w1) as [[d w2] |]; [| discriminate].
  destruct d as [[|] | e | | e];
    try (intros H; inversion H; subst; cbn; split; [discriminate | eauto]).
  intros H; inversion H; subst.
  destruct (serve_handlers t isp w2) as (_ & Hr & Hp).
  split; [rewrite Hr; discriminate | exact Hp].
Qed.

(** X4: the host contract.  When SERVER_IP or SERVER_PORT is unset or
    empty, [main] ends the process with status 1 before anything else:
    no object is constructed, no listener registered, no request sent
    and no file touched.  When both are set, [main] constructs the
    proxy, and the process does not exit by itself. *)
Theorem main_exits_without_host_contract
    (P : platform) (env : environment) (fuel : nat)
    (files : gmap string node) :
  (absent (SERVER_IP env) || absent (SERVER_PORT env) = true ->
   main P env fuel files = Some (host_exit_1 files))
  /\ (absent (SERVER_IP env) || absent (SERVER_PORT env) = false ->
      forall h, main P env fuel files = Some h ->
                (forall code, status_of h <> Exited code)
                /\ exists this, proxy h = Some this).
Proof.
  split; intros Ha.
  - unfold main. rewrite detectEnvironment_absent, Ha. reflexivity.
  - intros h. eapply main_constructs.
    rewrite detectEnvironment_absent, Ha. reflexivity.
Qed.
(** *** [parseInt] on decimal text *)

Lemma read_digits_acc (u : Decimal.uint) (acc : positive) :
  JS.read_digits 10 (Some (Z.pos acc)) (JSON.digits u)
  = Some (Z.pos (Pos.of_uint_acc u acc)).
Proof.
  revert acc.
  induction u as [| u IH | u IH | u IH | u IH | u IH | u IH | u IH | u IH
                 | u IH | u IH]; intros acc; [reflexivity | ..];
    unfold JSON.digits in *;
    cbn [DecimalString.NilEmpty.string_of_uint JS.read_digits Pos.of_uint_acc];
    match goal with
    | |- context [JS.digit_value 10 ?c] =>
        let v := eval vm_compute in (JS.digit_value 10 c) in
        change (JS.digit_value 10 c) with v
    end;
    cbv iota beta; rewrite <- IH; f_equal; f_equal; lia.
Qed.

Lemma read_digits_uint (u : Decimal.uint) (acc : option Z) :
  acc = None \/ acc = Some 0 ->
  JS.read_digits 10 acc (JSON.digits u)
  = match u with
    | Decimal.Nil => acc
    | _ => Some (Z.of_N (Pos.of_uint u))
    end.
Proof.
  revert acc.
  induction u as [| u IH | u IH | u IH | u IH | u IH | u IH | u IH | u IH
                 | u IH | u IH]; intros acc Hacc; [reflexivity | ..];
    unfold JSON.digits in *;
    cbn [DecimalString.NilEmpty.string_of_uint JS.read_digits Pos.of_uint];
    match goal with
    | |- context [JS.digit_value 10 ?c] =>
        let v := eval vm_compute in (JS.digit_value 10 c) in
        change (JS.digit_value 10 c) with v
    end;
    cbv iota beta;
    (destruct Hacc as [-> | ->];
     first [ apply (read_digits_acc u)
           | change (10 * 0 + 0) with 0;
             rewrite (IH (Some 0) (or_intror eq_refl));
             destruct u; reflexivity ]).
Qed.

Lemma trim_start_number (c : ascii) (t : string) :
  number_head c = true -> JS.trim_start (String c t) = String c t.
Proof.
  intros H. destruct t as [| b [| d t]];
    destruct c as [[] [] [] [] [] [] [] []];
    first [discriminate H | vm_compute; reflexivity].
Qed.

Lemma parseInt_print_int (z : Z) : JS.parseInt (JSON.print_int z) = JSON.Int z.
Proof.
  assert (Htrim : JS.trim_start (JSON.print_int z) = JSON.print_int z).
  { destruct (print_int_head z) as (c & t & -> & Hh).
    apply trim_start_number. exact Hh. }
  unfold JS.parseInt. rewrite Htrim. clear Htrim.
  destruct (print_int_cases z) as (u & Hn & Hl & [[Hp Hz] | [Hp Hz]]);
    rewrite Hp; clear Hp.
  - assert (Hu : u <> Decimal.Nil) by (intros ->; discriminate).
    pose proof (read_digits_uint u None (or_introl eq_refl)) as Hr.
    destruct u as [| u | u | u | u | u | u | u | u | u | u];
      try congruence; clear Hu;
      try (cbn [JSON.digits DecimalString.NilEmpty.string_of_uint] in *;
           cbv iota beta; cbv iota beta in Hr;
           rewrite Hr; rewrite <- Hz; f_equal;
           cbn [Z.of_int Z.of_uint]; lia).
    (* a leading zero: the numeral is 0 *)
    cbn [JSON.leading_zero] in Hl.
    destruct u; try discriminate Hl. cbn in Hz. subst z. reflexivity.
  - assert (Hu : u <> Decimal.Nil) by (intros ->; discriminate).
    pose proof (read_digits_uint u None (or_introl eq_refl)) as Hr.
    cbv iota beta.
    destruct u as [| u | u | u | u | u | u | u | u | u | u];
      try congruence; clear Hu;
      try (cbn [JSON.digits DecimalString.NilEmpty.string_of_uint] in *;
           cbv iota beta; cbv iota beta in Hr;
           rewrite Hr; rewrite <- Hz; f_equal;
           cbn [Z.of_int Z.of_uint]; lia).
    cbn [JSON.leading_zero] in Hl.
    destruct u; try discriminate Hl. cbn in Hz. subst z. reflexivity.
Qed.

Lemma print_int_truthy (z : Z) : String.eqb (JSON.print_int z) "" = false.
Proof.
  destruct (print_int_head z) as (c & t & -> & _). reflexivity.
Qed.

(** X5: the port of the proxy is read from decimal text.  When
    SERVER_PORT is the decimal numeral of [n], the object that [main]
    constructs has port [n] if PORT is unset or empty, and port [p] if
    PORT is the decimal numeral of [p] (numerals below 2^53, which
    numbers hold exactly). *)
Theorem main_port_from_decimal_text
    (P : platform) (env : environment) (fuel : nat)
    (files : gmap string node) (h : host) (this : XrayProxy) (n : Z) :
  0 <= n < 2 ^ 53 ->
  SERVER_PORT env = Some (JSON.print_int n) ->
  main P env fuel files = Some h ->
  proxy h = Some this ->
  (PORT env = "" -> port this = JSON.Int n)
  /\ (forall p, 0 <= p < 2 ^ 53 ->
                PORT env = JSON.print_int p -> port this = JSON.Int p).
Proof.
  intros _ Hport Hmain Hproxy.
  destruct (main_proxy P env fuel files h this Hmain Hproxy)
    as (ip & dp & Hd & Hthis).
  rewrite detectEnvironment_absent in Hd.
  destruct (absent (SERVER_IP env) || absent (SERVER_PORT env));
    [discriminate |].
  rewrite Hport in Hd. unfold default, from_option, id in Hd.
  rewrite parseInt_print_int in Hd. inversion Hd; subst dp.
  assert (Hp : port this = finalPort env (JSON.Int n)).
  { destruct Hthis as [-> | ->]; reflexivity. }
  rewrite Hp. unfold finalPort. split.
  - intros ->. reflexivity.
  - intros p _ Hpp. rewrite Hpp, print_int_truthy. apply parseInt_print_int.
Qed.
(** ** The configuration document, read back *)

Lemma stringify_at_items (ind : nat) (x : JSON.value)
    (items : list JSON.value) :
  JSON.stringify_at ind (JSON.Arr (x :: items))
  = "[" +:+ JSON.lines (2 + ind)
              (map (JSON.stringify_at (2 + ind)) (x :: items))
        +:+ String JSON.nl (JSON.spaces ind +:+ "]").
Proof. reflexivity. Qed.

Lemma stringify_at_fields (ind : nat) (kv : string * JSON.value)
    (fields : list (string * JSON.value)) :
  JSON.stringify_at ind (JSON.Obj (kv :: fields))
  = "{" +:+ JSON.lines (2 + ind)
              (map (member_text (2 + ind)) (kv :: fields))
        +:+ String JSON.nl (JSON.spaces ind +:+ "}").
Proof. reflexivity. Qed.

Lemma stringify_as_read (v : JSON.value) :
  forall ind, JSON.stringify_at ind (as_read v) = JSON.stringify_at ind v.
Proof.
  induction v as [| b | n | s | items IH | fields IH] using value_induction;
    intros ind; try reflexivity.
  - destruct n; reflexivity.
  - destruct items as [| x items]; [reflexivity |].
    cbn [as_read map]. rewrite !stringify_at_items. do 3 f_equal.
    rewrite List.Forall_forall in IH.
    cbn [map]. f_equal; [apply IH; left; reflexivity |].
    rewrite List.map_map. apply List.map_ext_in.
    intros y Hy. apply IH. right. exact Hy.
  - destruct fields as [| kv fields]; [reflexivity |].
    cbn [as_read map]. rewrite !stringify_at_fields. do 3 f_equal.
    rewrite List.Forall_forall in IH.
    cbn [map]. f_equal.
    + unfold member_text. cbn [fst snd]. rewrite IH by (left; reflexivity).
      reflexivity.
    + rewrite List.map_map. apply List.map_ext_in.
      intros y Hy. unfold member_text. cbn [fst snd].
      rewrite IH by (right; exact Hy). reflexivity.
Qed.

(** [JSON.parse] reads the text of a value back as that value with null
    in the place of NaN. *)
Lemma parse_stringify_as_read (v : JSON.value) :
  printable (as_read v) = true ->
  JSON.parse (JSON.stringify v) = Some (as_read v).
Proof.
  intros Hp. unfold JSON.stringify. rewrite <- stringify_as_read.
  apply parse_stringify. exact Hp.
Qed.

Lemma config_as_read_printable (this : XrayProxy) :
  (forall l, port this <> JSON.Dec l) ->
  printable (as_read (config this)) = true.
Proof.
  intros H. unfold config. cbn.
  destruct (port this) as [z | l |]; [reflexivity | | reflexivity].
  exfalso. exact (H l eq_refl).
Qed.

(** X6: a port that is NaN is written as null.  [parseInt] gives NaN
    for a port variable without a leading digit; the document that
    [generateConfig] prints then parses, and the port of its inbound is
    null. *)
Theorem nan_port_is_written_as_null (this : XrayProxy) :
  port this = JSON.NaN ->
  exists doc inbound,
    JSON.parse (JSON.stringify (config this)) = Some doc
    /\ JSON.get doc "inbounds" = Normal (Some (JSON.Arr [inbound]))
    /\ JSON.get inbound "port" = Normal (Some JSON.Null)
    /\ JSON.get inbound "listen" = Normal (Some (JSON.Str "0.0.0.0")).
Proof.
  intros Hport.
  eexists (as_read (config this)), _.
  split.
  { apply parse_stringify_as_read, config_as_read_printable.
    intros l. rewrite Hport. discriminate. }
  unfold config. cbn [as_read map fst snd]. rewrite Hport.
  split; [reflexivity |]. split; reflexivity.
Qed.

(** X7: the transport of the inbound, read back from the text that
    [generateConfig] prints: protocol vless over a WebSocket stream
    without TLS, keyed on the access path of the proxy, with the domain
    as Host header. *)
Theorem config_transport_parses_back (this : XrayProxy) :
  (forall l, port this <> JSON.Dec l) ->
  exists doc inbound stream ws headers,
    JSON.parse (JSON.stringify (config this)) = Some doc
    /\ JSON.get doc "inbounds" = Normal (Some (JSON.Arr [inbound]))
    /\ JSON.get inbound "protocol" = Normal (Some (JSON.Str "vless"))
    /\ JSON.get inbound "streamSettings" = Normal (Some stream)
    /\ JSON.get stream "network" = Normal (Some (JSON.Str "ws"))
    /\ JSON.get stream "security" = Normal (Some (JSON.Str "none"))
    /\ JSON.get stream "wsSettings" = Normal (Some ws)
    /\ JSON.get ws "path" = Normal (Some (JSON.Str (path this)))
    /\ JSON.get ws "headers" = Normal (Some headers)
    /\ JSON.get headers "Host" = Normal (Some (JSON.Str (domain this))).
Proof.
  intros Hport.
  eexists (as_read (config this)), _, _, _, _.
  split; [apply parse_stringify_as_read, config_as_read_printable, Hport |].
  unfold config. cbn [as_read map fst snd].
  repeat (split; [reflexivity |]). reflexivity.
Qed.
(** ** The outcomes of provisioning *)

Lemma before_last_slash_sep (a b : string) :
  Path.before_last_slash (a +:+ String "/" b) <> None.
Proof.
  induction a as [| c a IH].
  - change ("" +:+ String "/" b) with (String "/" b).
    cbn [Path.before_last_slash].
    destruct (Path.before_last_slash b); discriminate.
  - rewrite append_cons. cbn [Path.before_last_slash].
    destruct (Path.before_last_slash (a +:+ String "/" b));
      [discriminate | congruence].
Qed.

Lemma ends_with_slash_split (d : string) :
  Path.ends_with_slash d = true -> exists d', d = d' +:+ "/".
Proof.
  induction d as [| c d IH]; [discriminate |].
  cbn [Path.ends_with_slash]. destruct d as [| c' d].
  - intros H. apply Ascii.eqb_eq in H. subst c. exists "". reflexivity.
  - intros H. destruct (IH H) as [d' Hd]. exists (String c d').
    rewrite append_cons, <- Hd. reflexivity.
Qed.

Lemma join2_has_slash (d seg : string) :
  Path.before_last_slash (Path.join2 d seg) <> None.
Proof.
  unfold Path.join2. destruct (Path.ends_with_slash d) eqn:E.
  - destruct (ends_with_slash_split d E) as [d' ->].
    rewrite append_assoc. apply before_last_slash_sep.
  - apply before_last_slash_sep.
Qed.

(** Neither the engine path nor its directory is one of the three
    files that [cleanup] deletes. *)
Lemma engine_paths_apart (d f : string) :
  In f [zipPath; configPath; linksPath] ->
  f <> Path.join d ["xray"; "xray"]
  /\ f <> Path.dirname (Path.join d ["xray"; "xray"]).
Proof.
  intros Hf.
  assert (Hnone : Path.before_last_slash f = None).
  { destruct Hf as [<- | [<- | [<- | []]]]; reflexivity. }
  destruct (xrayPath_shape d) as (x & Hne & Hjoin & Hdir).
  split; intros H; apply (f_equal Path.before_last_slash) in H;
    rewrite Hnone in H; symmetry in H.
  - rewrite Hjoin, before_last_slash_app in H. discriminate.
  - revert H. rewrite Hdir.
    assert (Hx : x = Path.join2 d "xray").
    { apply (f_equal Path.before_last_slash) in Hjoin.
      rewrite before_last_slash_app in Hjoin.
      cbn [Path.join fold_left] in Hjoin.
      assert (Hj : Path.join2 (Path.join2 d "xray") "xray"
                   = Path.join2 d "xray" +:+ "/xray").
      { unfold Path.join2 at 1.
        assert (Hy : exists y, Path.join2 d "xray" = y +:+ "xray").
        { unfold Path.join2. destruct (Path.ends_with_slash d).
          - exists d. reflexivity.
          - exists (d +:+ "/"). rewrite append_assoc. reflexivity. }
        destruct Hy as [y Hy]. rewrite Hy, ends_with_slash_app. reflexivity. }
      rewrite Hj, before_last_slash_app in Hjoin. congruence. }
    rewrite Hx. apply join2_has_slash.
Qed.

(** A write to a name in the working directory. *)
Lemma write_name (p data : string) (files : gmap string node) :
  Path.before_last_slash p = None ->
  Fs.write p data files
  = match files !! p with
    | Some Dir => Throw (EISDIR p)
    | Some (File _ m) => Normal (<[p := File data m]> files)
    | None => Normal (<[p := File data Fs.default_mode]> files)
    end.
Proof.
  intros H. unfold Fs.write. rewrite (parent_of_name p files H). reflexivity.
Qed.

(** What a download does to the files: a resolved one has written the
    destination; one that is rejected or never settles has written
    nothing, or the part of a body that arrived; an exception comes
    from the destination, with nothing written. *)
Lemma downloadFile_files (P : platform) (fuel : nat) (url dest : string)
    (w : world) (r : settled unit) (w' : world) :
  _downloadFile P fuel url dest w = Some (r, w') ->
  match r with
  | Resolved _ => exists body m, fs w' = <[dest := File body m]> (fs w)
  | Rejected e =>
      partly_written dest (fs w) (fs w') /\ exists msg, e = RequestError msg
  | Pending => partly_written dest (fs w) (fs w')
  | Uncaught e =>
      fs w' = fs w /\ forall data, Fs.write dest data (fs w) = Throw e
  end.
Proof.
  revert url w. induction fuel as [| fuel IH]; intros url w H; [discriminate |].
  cbn [_downloadFile] in H. unfold request in H.
  destruct (https_get P (length (requests (trace w))) url)
    as [msg | | st loc body | partial how].
  - inversion H; subst. split; [left; reflexivity | eauto].
  - inversion H; subst. left. reflexivity.
  - destruct (is_redirect st loc).
    + apply IH in H. exact H.
    + destruct (Fs.write dest body (fs (emit (Request url) w)))
        as [files | e] eqn:E; inversion H; subst; cbn [fs set_fs emit] in *.
      * apply write_file in E as (_ & _ & m & ->). eauto.
      * split; [reflexivity |]. intros data.
        exact (write_throws _ _ _ _ _ E).
  - destruct (Fs.write dest partial (fs (emit (Request url) w)))
      as [files | e] eqn:E; cbn [fs set_fs emit] in *.
    + apply write_file in E as (_ & _ & m & ->).
      destruct how; inversion H; subst; cbn [fs set_fs emit];
        first [right; eauto | split; [right; eauto | eauto]].
    + inversion H; subst. split; [reflexivity |]. intros data.
      exact (write_throws _ _ _ _ _ E).
Qed.

(** The directory of the engine, once the callback has looked for it. *)
Lemma engine_directory (P : platform) (this : XrayProxy)
    (files : gmap string node) (bytes : string) (m : Z) :
  xrayPath this = Path.join (script_dir P) ["xray"; "xray"] ->
  files !! zipPath = Some (File bytes m) ->
  match (if negb (Fs.existsSync (Path.dirname (xrayPath this)) files)
         then Fs.mkdirSync (Path.dirname (xrayPath this)) files
         else Normal files) with
  | Throw e =>
      files !! Path.dirname (xrayPath this) = None
      /\ Fs.parent (Path.dirname (xrayPath this)) files = Throw e
  | Normal files1 =>
      files1 !! zipPath = Some (File bytes m)
      /\ files1 !! xrayPath this = files !! xrayPath this
      /\ files1 !! Path.dirname (xrayPath this) <> None
  end.
Proof.
  intros Hpath Hzip.
  destruct (xrayPath_distinct (script_dir P)) as [_ Hnd].
  destruct (engine_paths_apart (script_dir P) zipPath) as [_ Hzd];
    [left; reflexivity |].
  rewrite <- Hpath in Hnd, Hzd.
  set (dir := Path.dirname (xrayPath this)) in *.
  unfold Fs.existsSync, Fs.mkdirSync.
  destruct (files !! dir) as [nd |] eqn:Hdir; cbn [negb].
  - split; [exact Hzip |]. split; [reflexivity |]. rewrite Hdir. discriminate.
  - destruct (Fs.parent dir files) as [[] | e]; cbn [mbind completion_bind].
    + rewrite !lookup_insert_ne by congruence.
      rewrite lookup_insert_eq. split; [exact Hzip |].
      split; [reflexivity | discriminate].
    + split; reflexivity.
Qed.

(** The write stream of the engine path, when its directory is not
    missing. *)
Lemma engine_write (P : platform) (this : XrayProxy) (data : string)
    (files : gmap string node) :
  xrayPath this = Path.join (script_dir P) ["xray"; "xray"] ->
  files !! Path.dirname (xrayPath this) <> None ->
  match Fs.write (xrayPath this) data files with
  | Throw e => refused (xrayPath this) e files
  | Normal files' =>
      exists m', files' = <[xrayPath this := File data m']> files
  end.
Proof.
  intros Hpath Hdir. pose proof (parent_of_engine (script_dir P) files) as Hp.
  rewrite <- Hpath in Hp. unfold Fs.write, refused. rewrite Hp.
  destruct (files !! Path.dirname (xrayPath this)) as [[d0 m0 |] |];
    [| | congruence]; cbn [mbind completion_bind].
  - right. eauto.
  - destruct (files !! xrayPath this) as [[d1 m1 |] |]; eauto.
Qed.

(** How the callback for the entry named xray ends, when the archive
    is on disk. *)
Lemma install_entry_outcome (P : platform) (this : XrayProxy)
    (entry : zip_entry) (w : world) (bytes : string) (m : Z)
    (r : settled bool) (w' : world) :
  xrayPath this = Path.join (script_dir P) ["xray"; "xray"] ->
  fs w !! zipPath = Some (File bytes m) ->
  install_entry this entry w = (r, w') ->
  match r with
  | Resolved true =>
      exists data,
        contents entry = Readable data
        /\ fs w' !! xrayPath this = Some (File data 493)
        /\ fs w' !! zipPath = None
  | Resolved false => False
  | Rejected e =>
      fs w' !! zipPath = Some (File bytes m)
      /\ ((e = ArchiveError
           /\ ((contents entry = Unreadable /\ w' = w)
               \/ exists read m',
                    contents entry = Truncated read
                    /\ fs w' !! xrayPath this = Some (File read m')))
          \/ refused (xrayPath this) e (fs w'))
  | Pending => False
  | Uncaught e =>
      w' = w
      /\ fs w !! Path.dirname (xrayPath this) = None
      /\ Fs.parent (Path.dirname (xrayPath this)) (fs w) = Throw e
  end.
Proof.
  intros Hpath Hzip. unfold install_entry.
  destruct (xrayPath_distinct (script_dir P)) as [Hnz _].
  rewrite <- Hpath in Hnz.
  pose proof (engine_directory P this (fs w) bytes m Hpath Hzip) as Hd.
  assert (Hstep : forall data : string,
    match (if negb (Fs.existsSync (Path.dirname (xrayPath this)) (fs w))
           then Fs.mkdirSync (Path.dirname (xrayPath this)) (fs w)
           else Normal (fs w)) with
    | Throw e => True
    | Normal files1 =>
        match Fs.write (xrayPath this) data files1 with
        | Throw e => refused (xrayPath this) e files1
        | Normal files2 =>
            files2 !! xrayPath this <> None
            /\ files2 !! zipPath = Some (File bytes m)
            /\ exists m', files2 !! xrayPath this = Some (File data m')
        end
        /\ files1 !! zipPath = Some (File bytes m)
    end).
  { intros data.
    destruct (if negb (Fs.existsSync (Path.dirname (xrayPath this)) (fs w))
              then Fs.mkdirSync (Path.dirname (xrayPath this)) (fs w)
              else Normal (fs w)) as [files1 | e]; [| exact I].
    destruct Hd as (Hz1 & _ & Hd1). split; [| exact Hz1].
    pose proof (engine_write P this data files1 Hpath Hd1) as Hw.
    destruct (Fs.write (xrayPath this) data files1) as [files2 | e];
      [| exact Hw].
    destruct Hw as [m' ->]. rewrite lookup_insert_eq.
    rewrite lookup_insert_ne by exact Hnz. eauto. }
  destruct (contents entry) as [| read | data] eqn:Hc; cbn [piped].
  - intros H. inversion H; subst. split; [exact Hzip |]. left. auto.
  - specialize (Hstep read).
    destruct (if negb (Fs.existsSync (Path.dirname (xrayPath this)) (fs w))
              then Fs.mkdirSync (Path.dirname (xrayPath this)) (fs w)
              else Normal (fs w)) as [files1 | e].
    + destruct Hstep as [Hw Hz1].
      destruct (Fs.write (xrayPath this) read files1) as [files2 | e];
        cbn [negb]; intros H; inversion H; subst; cbn [fs set_fs].
      * destruct Hw as (_ & Hz2 & m' & Hx). split; [exact Hz2 |].
        left. split; [reflexivity |]. right. eauto.
      * split; [exact Hz1 |]. right. exact Hw.
    + intros H. inversion H; subst. destruct Hd as [H1 H2]. auto.
  - specialize (Hstep data).
    destruct (if negb (Fs.existsSync (Path.dirname (xrayPath this)) (fs w))
              then Fs.mkdirSync (Path.dirname (xrayPath this)) (fs w)
              else Normal (fs w)) as [files1 | e].
    + destruct Hstep as [Hw Hz1].
      destruct (Fs.write (xrayPath this) data files1) as [files2 | e];
        cbn [negb].
      * destruct Hw as (_ & Hz2 & m' & Hx).
        unfold Fs.chmodSync. rewrite Hx.
        unfold Fs.unlinkSync. rewrite lookup_insert_ne by exact Hnz.
        rewrite Hz2. intros H. inversion H; subst. cbn [fs set_fs].
        exists data. split; [reflexivity |]. split.
        -- rewrite lookup_delete_ne by congruence. apply lookup_insert_eq.
        -- apply lookup_delete_eq.
      * intros H; inversion H; subst; cbn [fs set_fs].
        split; [exact Hz1 |]. right. exact Hw.
    + intros H. inversion H; subst. destruct Hd as [H1 H2]. auto.
Qed.

(** The promise of the extraction, after a download that resolved. *)
Lemma extract_outcome (P : platform) (this : XrayProxy) (w : world)
    (bytes : string) (m : Z) (r : settled bool) (w' : world) :
  xrayPath this = Path.join (script_dir P) ["xray"; "xray"] ->
  fs w !! zipPath = Some (File bytes m) ->
  extract P this w = (r, w') ->
  match r with
  | Resolved true =>
      exists entries entry data,
        yauzl_open P bytes = Some entries
        /\ xray_entry entries = Some entry
        /\ contents entry = Readable data
        /\ fs w' !! xrayPath this = Some (File data 493)
        /\ fs w' !! zipPath = None
  | Resolved false => False
  | Rejected e =>
      fs w' !! zipPath = Some (File bytes m)
      /\ (e = ArchiveError \/ refused (xrayPath this) e (fs w'))
  | Pending =>
      w' = w
      /\ exists entries,
           yauzl_open P bytes = Some entries /\ xray_entry entries = None
  | Uncaught e =>
      w' = w
      /\ fs w !! Path.dirname (xrayPath this) = None
      /\ Fs.parent (Path.dirname (xrayPath this)) (fs w) = Throw e
  end.
Proof.
  intros Hpath Hzip. unfold extract, Fs.readFile. rewrite Hzip.
  destruct (yauzl_open P bytes) as [entries |] eqn:Eo.
  - rewrite read_entries_spec.
    destruct (xray_entry entries) as [entry |] eqn:E.
    + intros H.
      pose proof (install_entry_outcome P this entry w bytes m r w'
                    Hpath Hzip H) as Ho.
      destruct r as [[|] | e | | e]; try exact Ho; try (destruct Ho; fail).
      * destruct Ho as (data & H1 & H2 & H3).
        exists entries, entry, data. auto.
      * destruct Ho as [Hz [[He _] | Hr]]; auto.
    + intros H. inversion H; subst. eauto.
  - intros H. inversion H; subst. auto.
Qed.

(** Every way in which [downloadAndExtract] ends, and what is on disk
    then. *)
Lemma downloadAndExtract_outcome (P : platform) (fuel : nat)
    (this : XrayProxy) (w : world) (r : settled bool) (w2 : world) :
  xrayPath this = Path.join (script_dir P) ["xray"; "xray"] ->
  downloadAndExtract P fuel this w = Some (r, w2) ->
  match r with
  | Resolved true =>
      exists url w1 bytes m entries entry data,
        getXrayDownloadUrl P = Normal url
        /\ _downloadFile P fuel url zipPath w = Some (Resolved tt, w1)
        /\ fs w1 = <[zipPath := File bytes m]> (fs w)
        /\ yauzl_open P bytes = Some entries
        /\ xray_entry entries = Some entry
        /\ contents entry = Readable data
        /\ fs w2 !! xrayPath this = Some (File data 493)
        /\ fs w2 !! zipPath = None
  | Resolved false => partly_written zipPath (fs w) (fs w2)
  | Rejected e =>
      exists url w1 bytes m,
        getXrayDownloadUrl P = Normal url
        /\ _downloadFile P fuel url zipPath w = Some (Resolved tt, w1)
        /\ fs w1 = <[zipPath := File bytes m]> (fs w)
        /\ fs w2 !! zipPath = Some (File bytes m)
        /\ (e = ArchiveError \/ refused (xrayPath this) e (fs w2))
  | Pending =>
      partly_written zipPath (fs w) (fs w2)
      \/ exists bytes m entries,
           fs w2 = <[zipPath := File bytes m]> (fs w)
           /\ yauzl_open P bytes = Some entries
           /\ xray_entry entries = None
  | Uncaught e =>
      (fs w2 = fs w /\ fs w !! zipPath = Some Dir /\ e = EISDIR zipPath)
      \/ exists bytes m,
           fs w2 = <[zipPath := File bytes m]> (fs w)
           /\ fs w2 !! Path.dirname (xrayPath this) = None
           /\ Fs.parent (Path.dirname (xrayPath this)) (fs w2) = Throw e
  end.
Proof.
  intros Hpath. unfold downloadAndExtract.
  destruct (getXrayDownloadUrl P) as [url | e0] eqn:Hurl; [| discriminate].
  destruct (_downloadFile P fuel url zipPath w) as [[d w1] |] eqn:E;
    [| discriminate].
  pose proof (downloadFile_files P fuel url zipPath w d w1 E) as Hf.
  destruct d as [[] | e | | e].
  - destruct Hf as (body & m & Hfs).
    assert (Hzip : fs w1 !! zipPath = Some (File body m)).
    { rewrite Hfs. apply lookup_insert_eq. }
    intros H. inversion H as [Hx]. clear H.
    pose proof (extract_outcome P this w1 body m r w2 Hpath Hzip Hx) as Ho.
    destruct r as [[|] | e | | e].
    + destruct Ho as (entries & entry & data & Ho).
      exists url, w1, body, m, entries, entry, data. auto.
    + destruct Ho.
    + destruct Ho as [Hz He]. exists url, w1, body, m. auto.
    + destruct Ho as (-> & entries & H2 & H3). right. eauto 6.
    + destruct Ho as (-> & H2 & H3). right. eauto 6.
  - intros H. inversion H; subst. exact (proj1 Hf).
  - intros H. inversion H; subst. left. exact Hf.
  - intros H. inversion H; subst. left. destruct Hf as [Hfs Hw].
    specialize (Hw ""). rewrite write_name in Hw by reflexivity.
    destruct (fs w !! zipPath) as [[d0 m0 |] |]; inversion Hw; auto.
Qed.

(** ** The ISP lookup: bounds and labels *)

Lemma getISP_loop_trace (P : platform) (retries : nat) :
  forall (n a : nat) (w : world),
    (a + n = retries + 1)%nat ->
    exists t,
      snd (getISP_loop P retries n a w) = extend t w
      /\ (length (requests t) <= n)%nat
      /\ (length t <= 2 * n - 1)%nat
      /\ (forall e, fst (getISP_loop P retries n a w) <> Rejected e)
      /\ (fst (getISP_loop P retries n a w) = Pending ->
          exists t0 u partial,
            t = t0 ++ [Request u]
            /\ https_get P (length (requests (trace w ++ t0))) u
               = Cut partial Closed).
Proof.
  induction n as [| n IH]; intros a w Hn.
  - exists []. rewrite extend_nil. cbn. repeat split; try lia; discriminate.
  - cbn [getISP_loop]. unfold attempt_promise, request.
    assert (Hfail :
      let again :=
        if Nat.eqb a retries
        then (Resolved (Some "Unknown"), emit (Request (url (source_of a))) w)
        else getISP_loop P retries n (S a)
               (emit (Sleep 1000) (emit (Request (url (source_of a))) w)) in
      exists t,
        snd again = extend t w
        /\ (length (requests t) <= S n)%nat
        /\ (length t <= 2 * S n - 1)%nat
        /\ (forall e, fst again <> Rejected e)
        /\ (fst again = Pending ->
            exists t0 u partial,
              t = t0 ++ [Request u]
              /\ https_get P (length (requests (trace w ++ t0))) u
                 = Cut partial Closed)).
    { cbv zeta. destruct (Nat.eqb a retries) eqn:Ea.
      - exists [Request (url (source_of a))]. cbn.
        repeat split; try lia; discriminate.
      - apply Nat.eqb_neq in Ea.
        destruct (IH (S a)
                    (emit (Sleep 1000) (emit (Request (url (source_of a))) w)))
          as (t & Ht & Hr & Hl & Hj & Hp); [lia |].
        exists (Request (url (source_of a)) :: Sleep 1000 :: t).
        rewrite Ht, !extend_emit.
        split; [reflexivity |]. cbn [requests List.filter is_request length].
        fold (requests t).
        split; [lia |]. split; [lia |]. split; [exact Hj |].
        intros Hpend. destruct (Hp Hpend) as (t0 & u & partial & -> & Hcut).
        exists (Request (url (source_of a)) :: Sleep 1000 :: t0), u, partial.
        split; [reflexivity |]. rewrite <- Hcut. cbn [emit trace].
        rewrite <- !app_assoc. reflexivity. }
    destruct (https_get P (length (requests (trace w))) (url (source_of a)))
      as [msg | | st loc data | partial [| msg |]] eqn:Eget;
      [exact Hfail | exact Hfail | | | exact Hfail | exact Hfail].
    + exists [Request (url (source_of a))].
      destruct (parse (source_of a) data); cbn;
        repeat split; try lia; discriminate.
    + exists [Request (url (source_of a))]. cbn [fst snd].
      split; [reflexivity |]. split; [cbn; lia |]. split; [cbn; lia |].
      split; [discriminate |]. intros _.
      exists [], (url (source_of a)), partial.
      split; [reflexivity |]. rewrite app_nil_r. exact Eget.
Qed.

(** X9: the lookup stops after at most [retries] requests and
    [retries - 1] backoffs, whatever the network answers; it changes
    neither files nor listeners, and its promise is never rejected.  The
    promise is left pending only when the response to the last request
    sent has started and the connection is closed before its end; a
    first response that is cut so leaves it pending after that one
    request. *)
Theorem getISP_is_bounded (P : platform) (retries : nat) (w : world) :
  exists r t,
    getISP P retries w = (r, extend t w)
    /\ (length (requests t) <= retries)%nat
    /\ (length t <= 2 * retries - 1)%nat
    /\ (forall e, r <> Rejected e)
    /\ (r = Pending ->
        exists t0 u partial,
          t = t0 ++ [Request u]
          /\ https_get P (length (requests (trace w ++ t0))) u
             = Cut partial Closed)
    /\ (forall partial,
          retries <> O ->
          https_get P (length (requests (trace w))) "https://api.ip.sb/geoip"
          = Cut partial Closed ->
          r = Pending /\ t = [Request "https://api.ip.sb/geoip"]).
Proof.
  unfold getISP.
  destruct (getISP_loop_trace P retries retries 1 w)
    as (t & Ht & H1 & H2 & H3 & H4); [lia |].
  destruct (getISP_loop P retries retries 1 w) as [r w'] eqn:Erun.
  cbn [fst snd] in *. subst w'. exists r, t.
  split; [reflexivity |]. split; [exact H1 |]. split; [exact H2 |].
  split; [exact H3 |]. split; [exact H4 |].
  intros partial Hpos Hcut. destruct retries as [| k]; [congruence |].
  cbn [getISP_loop] in Erun. unfold attempt_promise, request in Erun.
  change (url (source_of 1)) with "https://api.ip.sb/geoip" in Erun.
  rewrite Hcut in Erun. inversion Erun as [[Hr Hw]].
  split; [reflexivity |].
  apply app_inv_head in Hw. congruence.
Qed.

Lemma getISP_files (P : platform) (retries : nat) (w : world) :
  fs (snd (getISP P retries w)) = fs w.
Proof.
  unfold getISP.
  destruct (getISP_loop_trace P retries retries 1 w) as (t & Ht & _);
    [lia |].
  rewrite Ht. reflexivity.
Qed.

Lemma replace_spaces_no_space (s : string) :
  no_space (Str.replace_spaces s) = true.
Proof.
  unfold no_space. induction s as [| c s IH]; [reflexivity |].
  cbn [Str.replace_spaces Str.all_chars]. rewrite IH, andb_true_r.
  destruct (Ascii.eqb c " ") eqn:E; [reflexivity |]. rewrite E. reflexivity.
Qed.

Lemma parse_no_space (a : nat) (data label : string) :
  parse (source_of a) data = Normal label -> no_space label = true.
Proof.
  destruct (source_of_cases a) as [-> | ->]; cbn [parse].
  - unfold parse_geoip.
    destruct (JSON.parse data) as [info |]; [| discriminate].
    destruct (JSON.get info "country_code") as [cc | e]; [| discriminate].
    cbn [mbind completion_bind].
    destruct (JSON.get info "organization") as [org | e]; [| discriminate].
    cbn [mbind completion_bind].
    intros H. inversion H. apply replace_spaces_no_space.
  - unfold parse_trace. intros H. inversion H. apply replace_spaces_no_space.
Qed.

(** X10: a label that the lookup returns has no space in it: it is
    Unknown, or what a parser returned after replacing the spaces. *)
Theorem getISP_label_has_no_space
    (P : platform) (retries : nat) (w w' : world) (label : string) :
  getISP P retries w = (Resolved (Some label), w') ->
  no_space label = true.
Proof.
  unfold getISP. generalize 1%nat as a. generalize retries at 2 as n.
  intros n. revert w. induction n as [| n IH]; intros w a; [discriminate |].
  cbn [getISP_loop]. unfold attempt_promise, request.
  assert (Hfail :
    (if Nat.eqb a retries
     then (Resolved (Some "Unknown"), emit (Request (url (source_of a))) w)
     else getISP_loop P retries n (S a)
            (emit (Sleep 1000) (emit (Request (url (source_of a))) w)))
    = (Resolved (Some label), w') -> no_space label = true).
  { destruct (Nat.eqb a retries); [| apply IH].
    intros H. inversion H. reflexivity. }
  destruct (https_get P (length (requests (trace w))) (url (source_of a)))
    as [msg | | st loc data | partial [| msg |]];
    [exact Hfail | exact Hfail | | discriminate | exact Hfail | exact Hfail].
  destruct (parse (source_of a) data) as [isp | e] eqn:E; [| discriminate].
  intros H. inversion H; subst. exact (parse_no_space a data label E).
Qed.
(** ** The two parsers on answers without the expected fields *)

(** X11: the first parser on JSON that is not the expected object.
    The text null makes it throw a TypeError; an object without the two
    keys, as an error payload is, gives the label undefined-undefined,
    which the lookup returns as an answer. *)
Theorem parse_geoip_without_fields (data : string) :
  (JSON.parse data = Some JSON.Null -> parse_geoip data = Throw TypeError)
  /\ (forall fields,
        JSON.parse data = Some (JSON.Obj fields) ->
        JSON.lookup_field "country_code" fields = None ->
        JSON.lookup_field "organization" fields = None ->
        parse_geoip data = Normal "undefined-undefined").
Proof.
  unfold parse_geoip. split.
  - intros ->. reflexivity.
  - intros fields -> Hc Ho. cbn [JSON.get mbind completion_bind].
    rewrite Hc, Ho. reflexivity.
Qed.

(** Lines that do not assign [key] leave its value as it is. *)
Lemma trace_fields_keep (key : string) (lines : list string) :
  (forall line k v rest,
     In line lines ->
     JS.split "=" line = k :: v :: rest ->
     Str.truthy k && Str.truthy v = true ->
     JS.trim k <> key) ->
  forall kv : gmap string string,
    fold_left
      (fun kv line =>
         match JS.split "=" line with
         | k :: v :: _ =>
             if Str.truthy k && Str.truthy v
             then assign (JS.trim k) (JS.trim v) kv
             else kv
         | _ => kv
         end) lines kv !! key = kv !! key.
Proof.
  induction lines as [| line lines IH]; intros Hl kv; [reflexivity |].
  cbn [fold_left]. rewrite IH.
  - destruct (JS.split "=" line) as [| k [| v rest]] eqn:E; try reflexivity.
    destruct (Str.truthy k && Str.truthy v) eqn:Et; [| reflexivity].
    unfold assign. destruct (String.eqb (JS.trim k) "__proto__");
      [reflexivity |].
    apply lookup_insert_ne.
    exact (Hl line k v rest (or_introl eq_refl) E Et).
  - intros l k v rest Hin. apply Hl. right. exact Hin.
Qed.

(** X12: the second parser on a text without the two keys.  When no
    line assigns loc or as_organization (a line counts when the text
    before and the text after its first [=] are non-empty), the label is
    UN-CF: the parser has no failure of its own. *)
Theorem parse_trace_without_fields (data : string) :
  (forall line k v rest,
     In line (JS.split JSON.nl data) ->
     JS.split "=" line = k :: v :: rest ->
     Str.truthy k && Str.truthy v = true ->
     JS.trim k <> "loc" /\ JS.trim k <> "as_organization") ->
  parse_trace data = Normal "UN-CF".
Proof.
  intros H. unfold parse_trace, trace_fields.
  rewrite (trace_fields_keep "loc" (JS.split JSON.nl data)),
    (trace_fields_keep "as_organization" (JS.split JSON.nl data));
    try reflexivity;
    intros line k v rest Hin Hs Ht; apply (H line k v rest Hin Hs Ht).
Qed.

(** X13: the last assignment of a key wins.  The value that the second
    parser holds for a key is the text between the first and the second
    [=] of the last line that assigns the key, trimmed.  The key
    __proto__ is not one that an assignment sets. *)
Theorem trace_field_last_wins
    (data key : string) (before after : list string)
    (line k v : string) (rest : list string) :
  JS.split JSON.nl data = before ++ line :: after ->
  JS.split "=" line = k :: v :: rest ->
  Str.truthy k && Str.truthy v = true ->
  JS.trim k = key ->
  key <> "__proto__" ->
  (forall l k' v' rest',
     In l after ->
     JS.split "=" l = k' :: v' :: rest' ->
     Str.truthy k' && Str.truthy v' = true ->
     JS.trim k' <> key) ->
  trace_fields data !! key = Some (JS.trim v).
Proof.
  intros Hlines Hline Ht Hk Hkey Hafter. unfold trace_fields.
  rewrite Hlines, fold_left_app. cbn [fold_left].
  rewrite (trace_fields_keep key after Hafter), Hline, Ht, Hk.
  unfold assign. apply String.eqb_neq in Hkey. rewrite Hkey.
  apply lookup_insert_eq.
Qed.
(** ** What [main] has done when the engine runs, and when it does not *)

Lemma constructed_fields (P : platform) (env : environment)
    (dp : JSON.number) :
  process (constructed P env dp) = None
  /\ xrayPath (constructed P env dp)
     = Path.join (script_dir P) ["xray"; "xray"]
  /\ port (constructed P env dp) = finalPort env dp
  /\ domain (constructed P env dp) = DOMAIN env
  /\ name (constructed P env dp) = NAME env
  /\ uuid (constructed P env dp)
     = (if Str.truthy (UUID env) then UUID env else randomUUID P).
Proof. repeat split. Qed.

Lemma artifacts_apart :
  configPath <> linksPath /\ zipPath <> configPath /\ zipPath <> linksPath.
Proof. repeat split; discriminate. Qed.

(** The host that [serve] leaves when both files can be written. *)
Lemma serve_started (this : XrayProxy) (isp : option string) (w : world) :
  process this = None ->
  child_alive (serve this isp w) = true ->
  exists m1 m2,
    serve this isp w
    = {| proxy := Some (startService this);
         state :=
           set_fs (<[linksPath := File (JS.base64 (cdnLink this isp)) m2]>
                     (<[configPath := File (JSON.stringify (config this)) m1]>
                        (fs w))) w;
         status_of := Running;
         main_promise := Resolved tt |}.
Proof.
  intros Hproc. unfold serve, generateConfig, displayInfo.
  generalize (JSON.stringify (config this)) as text.
  generalize (JS.base64 (cdnLink this isp)) as link. intros link text.
  assert (Hdead : forall w' pr,
            child_alive {| proxy := Some this; state := w';
                           status_of := Running; main_promise := pr |}
            = true -> False).
  { intros w' pr. unfold child_alive. cbn [proxy]. rewrite Hproc.
    discriminate. }
  rewrite write_name by reflexivity.
  destruct (fs w !! configPath) as [[d m |] |];
    cbn [mbind completion_bind fs set_fs];
    try (intros H; exfalso; exact (Hdead _ _ H));
    rewrite write_name by reflexivity.
  - destruct (<[configPath := File text m]> (fs w) !! linksPath)
      as [[d' m' |] |];
      cbn [mbind completion_bind fs set_fs];
      try (intros H; exfalso; exact (Hdead _ _ H));
      intros _; eexists _, _; reflexivity.
  - destruct (<[configPath := File text Fs.default_mode]> (fs w) !! linksPath)
      as [[d' m' |] |];
      cbn [mbind completion_bind fs set_fs];
      try (intros H; exfalso; exact (Hdead _ _ H));
      intros _; eexists _, _; reflexivity.
Qed.

(** A host whose engine runs after [main]: what [main] went through. *)
Lemma main_started (P : platform) (env : environment) (fuel : nat)
    (files : gmap string node) (h : host) :
  main P env fuel files = Some h ->
  child_alive h = true ->
  exists dp isp w2 m1 m2 data,
    let this := constructed P env dp in
    h = {| proxy := Some (startService this);
           state :=
             set_fs (<[linksPath := File (JS.base64 (cdnLink this isp)) m2]>
                       (<[configPath
                          := File (JSON.stringify (config this)) m1]>
                          (fs w2))) w2;
           status_of := Running;
           main_promise := Resolved tt |}
    /\ (exists ip,
          detectEnvironment env = Some (ip, dp)
          /\ fst (getISP P 3 (setupSignalHandlers (boot files)))
             = Resolved isp)
    /\ fs w2 !! xrayPath this = Some (File data 493)
    /\ fs w2 !! zipPath = None
    /\ same_handlers (setupSignalHandlers (boot files)) w2.
Proof.
  unfold main.
  destruct (detectEnvironment env) as [[ip dp] |];
    [| intros H; inversion H; subst; discriminate].
  cbn [constructor].
  change (Build_XrayProxy _ _ _ _ _ _ _) with (constructed P env dp).
  destruct (constructed_fields P env dp) as (Hproc & Hpath & _).
  set (this := constructed P env dp) in *.
  set (w0 := setupSignalHandlers (boot files)).
  assert (Hdead : forall w' st pr,
            child_alive {| proxy := Some this; state := w';
                           status_of := st; main_promise := pr |}
            = true -> False).
  { intros w' st pr. unfold child_alive. cbn [proxy]. rewrite Hproc.
    discriminate. }
  pose proof (getISP_loop_handlers P 3 3 1 w0) as H1.
  unfold getISP.
  destruct (getISP_loop P 3 3 1 w0) as [r w1] eqn:Eisp. cbn [snd] in H1.
  destruct r as [isp | e | | e]; intros H Halive;
    try (inversion H; subst; exfalso; exact (Hdead _ _ _ Halive)).
  destruct (downloadAndExtract P fuel this w1) as [[d w2] |] eqn:E;
    [| discriminate].
  pose proof (downloadAndExtract_outcome P fuel this w1 d w2 Hpath E) as Hout.
  apply downloadAndExtract_handlers in E.
  destruct d as [[|] | e | | e];
    try (inversion H; subst; exfalso; exact (Hdead _ _ _ Halive)).
  inversion H; subst h. clear H.
  destruct (serve_started this isp w2 Hproc Halive) as (m1 & m2 & Hs).
  destruct Hout
    as (url & w1' & bytes & m0 & entries & entry & data & _ & _ & _ & _ & _
        & _ & Hx & Hz).
  exists dp, isp, w2, m1, m2, data. cbv zeta. fold this.
  split; [exact Hs |]. split; [exists ip; split; reflexivity |].
  split; [exact Hx |].
  split; [exact Hz |]. exact (same_handlers_trans _ _ _ H1 E).
Qed.

(** X14: no half-configured engine.  When the engine runs after [main],
    [main] has resolved, the engine binary is installed with mode 0o755,
    config.json holds the text of the configuration of the proxy,
    vless_xray_links.txt holds the Base64 text of its link, xray.zip is
    gone, and the engine was started on the engine path with the
    arguments run -config config.json. *)
Theorem engine_runs_only_when_configured
    (P : platform) (env : environment) (fuel : nat)
    (files : gmap string node) (h : host) :
  main P env fuel files = Some h ->
  child_alive h = true ->
  exists dp isp data m1 m2 c,
    let this := constructed P env dp in
    proxy h = Some (set_process (Some c) this)
    /\ command c = xrayPath this
    /\ args c = ["run"; "-config"; configPath]
    /\ status_of h = Running
    /\ main_promise h = Resolved tt
    /\ fs (state h) !! xrayPath this = Some (File data 493)
    /\ fs (state h) !! configPath
       = Some (File (JSON.stringify (config this)) m1)
    /\ fs (state h) !! linksPath
       = Some (File (JS.base64 (cdnLink this isp)) m2)
    /\ fs (state h) !! zipPath = None.
Proof.
  intros Hmain Halive.
  destruct (main_started P env fuel files h Hmain Halive)
    as (dp & isp & w2 & m1 & m2 & data & Hh & _ & Hx & Hz & _).
  exists dp, isp, data, m1, m2.
  cbv zeta in *. set (this := constructed P env dp) in *.
  destruct (constructed_fields P env dp) as (_ & Hpath & _).
  fold this in Hpath.
  destruct (engine_paths_apart (script_dir P) configPath) as [Hc _];
    [right; left; reflexivity |].
  destruct (engine_paths_apart (script_dir P) linksPath) as [Hl _];
    [right; right; left; reflexivity |].
  rewrite <- Hpath in Hc, Hl.
  destruct artifacts_apart as (Hcl & Hzc & Hzl).
  eexists.
  subst h. cbn [proxy state status_of main_promise fs set_fs].
  split; [reflexivity |]. split; [reflexivity |]. split; [reflexivity |].
  split; [reflexivity |]. split; [reflexivity |].
  split; [rewrite !lookup_insert_ne by congruence; exact Hx |].
  split; [rewrite lookup_insert_ne by congruence; apply lookup_insert_eq |].
  split; [apply lookup_insert_eq |].
  rewrite !lookup_insert_ne by congruence. exact Hz.
Qed.

Lemma serve_resolved (this : XrayProxy) (isp : option string) (w : world) :
  main_promise (serve this isp w) = Resolved tt ->
  child_alive (serve this isp w) = true.
Proof.
  unfold serve.
  destruct (generateConfig this w) as [w1 | e]; [| discriminate].
  destruct (displayInfo this isp w1) as [w2 | e]; [| discriminate].
  reflexivity.
Qed.

(** X15: a [main] that resolves without an engine has written no
    document.  The only way for [main] to end normally without starting
    the engine is a false result of [downloadAndExtract], after a
    download request that failed: the files are then those that [main]
    found, except that xray.zip may hold the part of the archive that
    had arrived; there is no configuration and no link file of this
    run. *)
Theorem main_without_engine_writes_no_document
    (P : platform) (env : environment) (fuel : nat)
    (files : gmap string node) (h : host) :
  main P env fuel files = Some h ->
  main_promise h = Resolved tt ->
  child_alive h = false ->
  partly_written zipPath files (fs (state h))
  /\ fs (state h) !! configPath = files !! configPath
  /\ fs (state h) !! linksPath = files !! linksPath
  /\ status_of h = Running
  /\ exists dp, proxy h = Some (constructed P env dp).
Proof.
  unfold main.
  destruct (detectEnvironment env) as [[ip dp] |];
    [| intros H; inversion H; subst; discriminate].
  cbn [constructor].
  change (Build_XrayProxy _ _ _ _ _ _ _) with (constructed P env dp).
  destruct (constructed_fields P env dp) as (Hproc & Hpath & _).
  set (this := constructed P env dp) in *.
  set (w0 := setupSignalHandlers (boot files)).
  pose proof (getISP_files P 3 w0) as H1.
  destruct (getISP P 3 w0) as [r w1]. cbn [snd] in H1.
  destruct r as [isp | e | | e]; intros H Hres Halive;
    try (inversion H; subst; discriminate).
  destruct (downloadAndExtract P fuel this w1) as [[d w2] |] eqn:E;
    [| discriminate].
  pose proof (downloadAndExtract_outcome P fuel this w1 d w2 Hpath E) as Hout.
  destruct d as [[|] | e | | e];
    try (inversion H; subst; discriminate).
  - inversion H; subst h. apply serve_resolved in Hres. congruence.
  - inversion H; subst h. cbn [state status_of proxy].
    rewrite H1 in Hout. change (fs w0) with files in Hout.
    split; [exact Hout |].
    destruct artifacts_apart as (_ & Hzc & Hzl).
    destruct Hout as [-> | (partial & m & ->)].
    + repeat split; eauto.
    + rewrite !lookup_insert_ne by congruence. repeat split; eauto.
Qed.

(** X16: a termination signal once the engine runs.  The host sends
    SIGTERM to the engine, deletes config.json and vless_xray_links.txt,
    and exits with status 0 after one cleanup; the engine binary stays
    where it was installed. *)
Theorem signal_after_start
    (P : platform) (env : environment) (fuel : nat)
    (files : gmap string node) (h : host) (s : signal) :
  main P env fuel files = Some h ->
  child_alive h = true ->
  s = SIGINT \/ s = SIGTERM ->
  let h' := deliver h (Signal s) in
  status_of h' = Exited 0
  /\ cleanups (state h') = 1%nat
  /\ fs (state h') !! configPath = None
  /\ fs (state h') !! linksPath = None
  /\ fs (state h') !! zipPath = None
  /\ exists this data c,
       proxy h' = Some (set_process (Some c) this)
       /\ received c = [SIGTERM]
       /\ alive c = true
       /\ fs (state h') !! xrayPath this = Some (File data 493).
Proof.
  intros Hmain Halive Hs.
  destruct (main_started P env fuel files h Hmain Halive)
    as (dp & isp & w2 & m1 & m2 & data & Hh & _ & Hx & Hz & Hl & Hc).
  cbv zeta in *. set (this := constructed P env dp) in *.
  destruct (constructed_fields P env dp) as (_ & Hpath & _).
  fold this in Hpath.
  assert (Hinst : installed h).
  { unfold installed. subst h. cbn [state set_fs listeners]. rewrite Hl.
    reflexivity. }
  assert (Hrun : status_of h = Running) by (subst h; reflexivity).
  assert (Hp : proxy h = Some (startService this)) by (subst h; reflexivity).
  rewrite (signal_delivered h (startService this) s Hrun Hp Hinst Hs).
  cbn [status_of state proxy fs cleanups].
  assert (Hcl : cleanups (state h) = O).
  { subst h. cbn [state set_fs cleanups]. rewrite Hc. reflexivity. }
  split; [reflexivity |]. split; [rewrite Hcl; reflexivity |].
  assert (Hfs : fs (state h)
                = <[linksPath := File (JS.base64 (cdnLink this isp)) m2]>
                    (<[configPath := File (JSON.stringify (config this)) m1]>
                       (fs w2))).
  { subst h. reflexivity. }
  destruct artifacts_apart as (Hcl' & Hzc & Hzl).
  split.
  { rewrite removed_artifacts by (right; left; reflexivity).
    rewrite Hfs, lookup_insert_ne by congruence.
    rewrite lookup_insert_eq. reflexivity. }
  split.
  { rewrite removed_artifacts by (right; right; left; reflexivity).
    rewrite Hfs, lookup_insert_eq. reflexivity. }
  split.
  { rewrite removed_artifacts by (left; reflexivity).
    rewrite Hfs, !lookup_insert_ne by congruence. rewrite Hz. reflexivity. }
  exists this, data. eexists.
  split; [reflexivity |]. split; [reflexivity |]. split; [reflexivity |].
  assert (Hout : ~ In (xrayPath this) [zipPath; configPath; linksPath]).
  { rewrite Hpath. intros Hin.
    destruct (engine_paths_apart (script_dir P) _ Hin) as [Hne _].
    apply Hne. reflexivity. }
  rewrite removed_others by exact Hout.
  assert (Hxc : xrayPath this <> configPath).
  { intros Heq. apply Hout. rewrite Heq. right; left; reflexivity. }
  assert (Hxl : xrayPath this <> linksPath).
  { intros Heq. apply Hout. rewrite Heq. right; right; left; reflexivity. }
  rewrite Hfs, !lookup_insert_ne by congruence. exact Hx.
Qed.
(** ** Provisioning: failures of the download and of the archive *)

Lemma download_without_response
    (P : platform) (url dest : string) (w : world) (k : nat) (r : reply) :
  redirects P (length (requests (trace w))) url k r ->
  rejects r = true ->
  forall fuel : nat,
    (k < fuel)%nat ->
    exists w',
      _downloadFile P fuel url dest w
      = Some (match r with
              | Failed msg => Rejected (RequestError msg)
              | _ => Pending
              end, w')
      /\ fs w' = fs w
      /\ length (requests (trace w'))
         = (length (requests (trace w)) + k + 1)%nat.
Proof.
  intros Hchain Hrej. remember (length (requests (trace w))) as n eqn:Hn.
  revert w Hn. induction Hchain as [n url r Hget Hfinal
                                   | n url st loc b k r Hget Hred Hchain IH];
    intros w Hn fuel Hfuel; (destruct fuel as [| fuel]; [lia |]);
    cbn [_downloadFile]; unfold request; rewrite <- Hn, Hget.
  - destruct r as [msg | | st loc body | partial how];
      [| | discriminate Hrej | discriminate Hrej];
      eexists; (split; [reflexivity |]);
      (split; [reflexivity | rewrite requests_emit_request; lia]).
  - rewrite Hred. cbn [default].
    destruct (IH Hrej (emit (Request url) w)) with (fuel := fuel)
      as (w' & Hrun & Hfs & Hcount);
      [rewrite requests_emit_request, <- Hn; reflexivity | lia |].
    exists w'. split; [exact Hrun |]. split; [exact Hfs |].
    rewrite Hcount. lia.
Qed.

(** X17: a download without a response.  When the chain of redirects
    from the asset URL ends in a request error, [downloadAndExtract]
    resolves with false: the [catch] has caught the rejection.  When it
    ends in a request that is never answered, the promise of
    [downloadAndExtract] stays pending: the download has no timeout.
    In both cases no file has changed. *)
Theorem download_without_response_gives_false
    (P : platform) (fuel : nat) (this : XrayProxy) (w : world)
    (url : string) (k : nat) (r : reply) :
  getXrayDownloadUrl P = Normal url ->
  redirects P (length (requests (trace w))) url k r ->
  rejects r = true ->
  (k < fuel)%nat ->
  exists w',
    downloadAndExtract P fuel this w
    = Some (match r with
            | Failed _ => Resolved false
            | _ => Pending
            end, w')
    /\ fs w' = fs w
    /\ length (requests (trace w'))
       = (length (requests (trace w)) + k + 1)%nat.
Proof.
  intros Hurl Hchain Hrej Hfuel.
  destruct (download_without_response P url zipPath w k r Hchain Hrej
              fuel Hfuel) as (w' & Hrun & Hfs & Hcount).
  exists w'. unfold downloadAndExtract. rewrite Hurl, Hrun.
  destruct r as [msg | | st loc body | partial how];
    [| | discriminate Hrej | discriminate Hrej]; auto.
Qed.

Lemma download_cut
    (P : platform) (url dest : string) (w : world) (k : nat)
    (partial : string) (how : cut) (files : gmap string node) :
  redirects P (length (requests (trace w))) url k (Cut partial how) ->
  Fs.write dest partial (fs w) = Normal files ->
  forall fuel : nat,
    (k < fuel)%nat ->
    exists w',
      _downloadFile P fuel url dest w
      = Some (match how with
              | Reset msg => Rejected (RequestError msg)
              | _ => Pending
              end, w')
      /\ fs w' = files
      /\ length (requests (trace w'))
         = (length (requests (trace w)) + k + 1)%nat.
Proof.
  intros Hchain. remember (length (requests (trace w))) as n eqn:Hn.
  remember (Cut partial how) as r eqn:Hr.
  revert w Hn. induction Hchain as [n url r Hget Hfinal
                                   | n url st loc b k r Hget Hred Hchain IH];
    intros w Hn Hwrite fuel Hfuel; (destruct fuel as [| fuel]; [lia |]);
    cbn [_downloadFile]; unfold request; rewrite <- Hn, Hget.
  - subst r. cbn [fs emit]. rewrite Hwrite.
    eexists. split; [reflexivity |].
    split; [reflexivity |].
    cbn [trace set_fs]. rewrite requests_emit_request. lia.
  - rewrite Hred. cbn [default].
    destruct (IH Hr (emit (Request url) w)) with (fuel := fuel)
      as (w' & Hrun & Hfs & Hcount);
      [rewrite requests_emit_request, <- Hn; reflexivity | exact Hwrite
      | lia |].
    exists w'. split; [exact Hrun |]. split; [exact Hfs |].
    rewrite Hcount. lia.
Qed.

(** X30: a download whose body is cut short.  When the chain of
    redirects from the asset URL ends in a response that starts and does
    not end, and xray.zip is not a directory, the part of the body that
    arrived is at xray.zip.  If the request then emits an error,
    [downloadAndExtract] resolves with false; if the connection is
    closed, or stays open and silent, its promise stays pending: the
    download listens to no event of the response but the end of the
    file, and has no timeout. *)
Theorem download_cut_short
    (P : platform) (fuel : nat) (this : XrayProxy) (w : world)
    (url : string) (k : nat) (partial : string) (how : cut) :
  getXrayDownloadUrl P = Normal url ->
  redirects P (length (requests (trace w))) url k (Cut partial how) ->
  fs w !! zipPath <> Some Dir ->
  (k < fuel)%nat ->
  exists w' m,
    downloadAndExtract P fuel this w
    = Some (match how with
            | Reset _ => Resolved false
            | _ => Pending
            end, w')
    /\ fs w' = <[zipPath := File partial m]> (fs w)
    /\ length (requests (trace w'))
       = (length (requests (trace w)) + k + 1)%nat.
Proof.
  intros Hurl Hchain Hfree Hfuel.
  destruct (write_not_dir zipPath partial (fs w) eq_refl Hfree) as [m Hw].
  destruct (download_cut P url zipPath w k partial how _ Hchain Hw
              fuel Hfuel) as (w' & Hrun & Hfs & Hcount).
  exists w', m. unfold downloadAndExtract. rewrite Hurl, Hrun.
  destruct how; auto.
Qed.

(** The callback on an entry whose stream fails while it is copied. *)
Lemma install_truncated (P : platform) (this : XrayProxy) (entry : zip_entry)
    (w : world) (bytes read : string) (m : Z) :
  xrayPath this = Path.join (script_dir P) ["xray"; "xray"] ->
  fs w !! zipPath = Some (File bytes m) ->
  contents entry = Truncated read ->
  installable (xrayPath this) (fs w) ->
  exists w2 m',
    install_entry this entry w = (Rejected ArchiveError, w2)
    /\ fs w2 !! xrayPath this = Some (File read m')
    /\ (fs w !! xrayPath this = None -> m' = Fs.default_mode)
    /\ fs w2 !! Path.dirname (xrayPath this) = Some Dir
    /\ fs w2 !! zipPath = Some (File bytes m).
Proof.
  intros Hpath Hzip Hdata.
  destruct (xrayPath_distinct (script_dir P)) as [Hnz Hnd].
  destruct (engine_paths_apart (script_dir P) zipPath) as [_ Hzd];
    [left; reflexivity |].
  pose proof (parent_of_engine (script_dir P)) as Hparent.
  rewrite <- Hpath in Hnz, Hnd, Hzd, Hparent.
  unfold install_entry, installable. rewrite Hdata. cbn [piped negb].
  set (dir := Path.dirname (xrayPath this)) in *.
  set (target := xrayPath this) in *.
  unfold Fs.existsSync, Fs.mkdirSync, Fs.write.
  intros [Hfree [Hdir | [Hdir Hup]]]; rewrite Hdir; cbn [negb].
  - rewrite Hparent, Hdir. cbn [mbind completion_bind].
    destruct (fs w !! target) as [[d1 m1 |] |] eqn:Ht; [| congruence |];
      eexists _, _; (split; [reflexivity |]); cbn [fs set_fs];
      rewrite lookup_insert_eq, !lookup_insert_ne by congruence;
      (split; [reflexivity |]); (split; [congruence || reflexivity |]); auto.
  - rewrite Hup. cbn [mbind completion_bind].
    rewrite Hparent. fold dir. rewrite lookup_insert_eq.
    cbn [mbind completion_bind]. rewrite lookup_insert_ne by exact Hnd.
    destruct (fs w !! target) as [[d1 m1 |] |] eqn:Ht; [| congruence |];
      eexists _, _; (split; [reflexivity |]); cbn [fs set_fs];
      rewrite lookup_insert_eq, !lookup_insert_ne by congruence;
      rewrite lookup_insert_eq;
      (split; [reflexivity |]); (split; [congruence || reflexivity |]);
      (split; [reflexivity |]);
      rewrite !lookup_insert_ne by congruence; exact Hzip.
Qed.

(** X18: an archive that cannot be read.  When the download has
    resolved and the archive reader fails, [downloadAndExtract] is
    rejected: the promise of the extraction is returned, not awaited, so
    the [catch] that would give false does not see the failure.  The
    archive stays at xray.zip.  When the reader fails on the file, or
    when it opens the entry named xray, nothing else has changed.  When
    the stream of that entry fails while it is copied to an engine path
    that can take it, the directory of the engine is there and the
    engine path holds what was read before the failure; its mode has
    not been set. *)
Theorem unreadable_archive_rejects
    (P : platform) (fuel : nat) (this : XrayProxy) (w w1 : world)
    (url bytes : string) (m : Z) :
  xrayPath this = Path.join (script_dir P) ["xray"; "xray"] ->
  getXrayDownloadUrl P = Normal url ->
  _downloadFile P fuel url zipPath w = Some (Resolved tt, w1) ->
  fs w1 !! zipPath = Some (File bytes m) ->
  ((yauzl_open P bytes = None
    \/ exists entries entry,
         yauzl_open P bytes = Some entries
         /\ xray_entry entries = Some entry
         /\ contents entry = Unreadable) ->
   downloadAndExtract P fuel this w = Some (Rejected ArchiveError, w1))
  /\ (forall entries entry read,
        yauzl_open P bytes = Some entries ->
        xray_entry entries = Some entry ->
        contents entry = Truncated read ->
        installable (xrayPath this) (fs w1) ->
        exists w2 m',
          downloadAndExtract P fuel this w = Some (Rejected ArchiveError, w2)
          /\ fs w2 !! xrayPath this = Some (File read m')
          /\ (fs w1 !! xrayPath this = None -> m' = Fs.default_mode)
          /\ fs w2 !! Path.dirname (xrayPath this) = Some Dir
          /\ fs w2 !! zipPath = Some (File bytes m)).
Proof.
  intros Hpath Hurl Hdl Hzip.
  unfold downloadAndExtract. rewrite Hurl, Hdl.
  unfold extract, Fs.readFile. rewrite Hzip. split.
  - intros [-> | (entries & entry & -> & Hentry & Hdata)]; [reflexivity |].
    rewrite read_entries_spec, Hentry. unfold install_entry. rewrite Hdata.
    reflexivity.
  - intros entries entry read -> Hentry Hdata Hroom.
    rewrite read_entries_spec, Hentry.
    destruct (install_truncated P this entry w1 bytes read m Hpath Hzip
                Hdata Hroom) as (w2 & m' & -> & H). eauto.
Qed.

(** ** Cleanup, twice *)

Lemma removed_twice (files : gmap string node) :
  let once := removed linksPath (removed configPath (removed zipPath files)) in
  removed linksPath (removed configPath (removed zipPath once)) = once.
Proof.
  cbv zeta. apply map_eq. intros p.
  destruct (decide (In p [zipPath; configPath; linksPath])) as [Hin | Hout].
  - rewrite !removed_artifacts by exact Hin. apply after_removal_twice.
  - rewrite !removed_others by exact Hout. reflexivity.
Qed.

(** X19: [cleanup] after [cleanup].  A second run finds nothing more to
    delete and leaves the files as the first run left them; the engine,
    if it still runs, is sent SIGTERM a second time. *)
Theorem cleanup_twice (this : XrayProxy) (w : world) :
  exists this1 w1 this2 w2,
    cleanup this w = Normal (this1, w1)
    /\ cleanup this1 w1 = Normal (this2, w2)
    /\ fs w2 = fs w1
    /\ cleanups w2 = S (S (cleanups w))
    /\ (process this = None -> this2 = this)
    /\ (forall c, process this = Some c -> alive c = true ->
                  exists c2, process this2 = Some c2
                             /\ received c2
                                = received c ++ [SIGTERM; SIGTERM]).
Proof.
  eexists _, _, _, _. rewrite !cleanup_spec.
  split; [reflexivity |]. split; [reflexivity |].
  cbn [fs cleanups]. split; [apply removed_twice |].
  split; [reflexivity |]. split.
  - intros Hp. unfold signalled. rewrite Hp. cbn. rewrite Hp. reflexivity.
  - intros c Hp Ha. unfold signalled at 2. rewrite Hp.
    unfold signalled. cbn [process set_process].
    eexists. split; [reflexivity |].
    unfold kill. rewrite Ha. cbn [alive received].
    rewrite <- app_assoc. reflexivity.
Qed.
(** ** Signals without a listener, and the exit of a failed start *)

Lemma main_listeners (P : platform) (env : environment) (fuel : nat)
    (files : gmap string node) (h : host) (this : XrayProxy) :
  main P env fuel files = Some h ->
  proxy h = Some this ->
  same_handlers (setupSignalHandlers (boot files)) (state h).
Proof.
  unfold main.
  destruct (detectEnvironment env) as [[ip dp] |];
    [| intros H; inversion H; subst; discriminate].
  cbn [constructor].
  set (t := Build_XrayProxy _ _ _ _ _ _ _).
  set (w0 := setupSignalHandlers (boot files)).
  pose proof (getISP_loop_handlers P 3 3 1 w0) as H1.
  unfold getISP.
  destruct (getISP_loop P 3 3 1 w0) as [r w1]. cbn [snd] in H1.
  destruct r as [isp | e | | e]; intros H _;
    try (inversion H; subst; exact H1).
  destruct (downloadAndExtract P fuel t w1) as [[d w2] |] eqn:E;
    [| discriminate].
  apply downloadAndExtract_handlers in E.
  pose proof (same_handlers_trans _ _ _ H1 E) as H2.
  destruct d as [[|] | e | | e]; inversion H; subst; try exact H2.
  destruct (serve_handlers t isp w2) as (Hs & _).
  exact (same_handlers_trans _ _ _ H2 Hs).
Qed.

(** X20: a signal the program does not listen to.  On a host that
    [main] has left running, SIGHUP and SIGKILL end the process by
    their default action: no listener runs, so no cleanup runs, the
    engine is sent nothing and the files stay. *)
Theorem unhandled_signal_skips_cleanup
    (P : platform) (env : environment) (fuel : nat)
    (files : gmap string node) (h : host) (s : signal) :
  main P env fuel files = Some h ->
  status_of h = Running ->
  s = SIGHUP \/ s = SIGKILL ->
  deliver h (Signal s) = set_status (Killed s) h.
Proof.
  intros Hmain Hrun Hs.
  assert (Hp : exists this, proxy h = Some this).
  { destruct (detectEnvironment env) as [[ip dp] |] eqn:Hd.
    - apply (main_constructs P env fuel files h ip dp Hd Hmain).
    - exfalso. unfold main in Hmain. rewrite Hd in Hmain.
      inversion Hmain; subst. discriminate. }
  destruct Hp as [this Hp].
  destruct (main_listeners P env fuel files h this Hmain Hp) as [Hl _].
  unfold deliver, still_running. rewrite Hrun.
  destruct Hs as [-> | ->]; [| reflexivity].
  unfold listeners_for. rewrite Hl. reflexivity.
Qed.

(** X21: a start that failed ends with status 0.  When [main] has left
    the host running without an engine (the download failed, the
    archive could not be read, or a file could not be written) and the
    event loop has nothing left, the process exits with status 0; no
    cleanup runs, so what provisioning left on disk stays there. *)
Theorem failed_start_exits_with_status_0
    (P : platform) (env : environment) (fuel : nat)
    (files : gmap string node) (h : host) :
  main P env fuel files = Some h ->
  status_of h = Running ->
  child_alive h = false ->
  deliver h LoopEmpty = set_status (Exited 0) h
  /\ cleanups (state h) = O.
Proof.
  intros Hmain Hrun Hdead.
  assert (Hp : exists this, proxy h = Some this).
  { destruct (detectEnvironment env) as [[ip dp] |] eqn:Hd.
    - apply (main_constructs P env fuel files h ip dp Hd Hmain).
    - exfalso. unfold main in Hmain. rewrite Hd in Hmain.
      inversion Hmain; subst. discriminate. }
  destruct Hp as [this Hp].
  destruct (main_listeners P env fuel files h this Hmain Hp) as [Hl Hc].
  split.
  - apply loop_empty_delivered; [exact Hrun | | exact Hdead].
    unfold installed. rewrite Hl. reflexivity.
  - rewrite Hc. reflexivity.
Qed.

(** X22: a termination signal after [main], whatever [main] did.  On a
    host that [main] has left running, with or without an engine, a
    SIGINT or SIGTERM runs the cleanup once and ends the process with
    status 0; no regular file is left at xray.zip, config.json or
    vless_xray_links.txt, and every other path is as it was. *)
Theorem signal_after_main_leaves_no_artifact
    (P : platform) (env : environment) (fuel : nat)
    (files : gmap string node) (h : host) (s : signal) :
  main P env fuel files = Some h ->
  status_of h = Running ->
  s = SIGINT \/ s = SIGTERM ->
  let h' := deliver h (Signal s) in
  status_of h' = Exited 0
  /\ cleanups (state h') = 1%nat
  /\ (forall f data m, In f [zipPath; configPath; linksPath] ->
                       fs (state h') !! f <> Some (File data m))
  /\ (forall p, ~ In p [zipPath; configPath; linksPath] ->
                fs (state h') !! p = fs (state h) !! p).
Proof.
  intros Hmain Hrun Hs.
  assert (Hp : exists this, proxy h = Some this).
  { destruct (detectEnvironment env) as [[ip dp] |] eqn:Hd.
    - apply (main_constructs P env fuel files h ip dp Hd Hmain).
    - exfalso. unfold main in Hmain. rewrite Hd in Hmain.
      inversion Hmain; subst. discriminate. }
  destruct Hp as [this Hp].
  destruct (main_listeners P env fuel files h this Hmain Hp) as [Hl Hc].
  assert (Hinst : installed h) by (unfold installed; rewrite Hl; reflexivity).
  cbv zeta. rewrite (signal_delivered h this s Hrun Hp Hinst Hs).
  cbn [status_of state fs cleanups].
  split; [reflexivity |]. split; [rewrite Hc; reflexivity |]. split.
  - intros f data m Hf. rewrite removed_artifacts by exact Hf.
    destruct (fs (state h) !! f) as [[d0 m0 |] |]; discriminate.
  - intros p Hp'. apply removed_others. exact Hp'.
Qed.
(** ** Files that cannot be written *)

(** X23: a start stopped by a write error.  When config.json is a
    directory, [main] is rejected with what [writeFileSync] throws and
    nothing is written; when vless_xray_links.txt is, config.json has
    been written before the rejection.  In both cases the engine is not
    started. *)
Theorem write_failure_stops_the_start
    (this : XrayProxy) (isp : option string) (w : world) :
  (fs w !! configPath = Some Dir ->
   serve this isp w
   = {| proxy := Some this; state := w; status_of := Running;
        main_promise := Rejected (EISDIR configPath) |})
  /\ (fs w !! configPath <> Some Dir ->
      fs w !! linksPath = Some Dir ->
      exists m,
        serve this isp w
        = {| proxy := Some this;
             state :=
               set_fs (<[configPath := File (JSON.stringify (config this)) m]>
                         (fs w)) w;
             status_of := Running;
             main_promise := Rejected (EISDIR linksPath) |}).
Proof.
  unfold serve, generateConfig, displayInfo.
  generalize (JSON.stringify (config this)) as text.
  generalize (JS.base64 (cdnLink this isp)) as link. intros link text.
  split.
  - intros Hc. rewrite write_name by reflexivity. rewrite Hc. reflexivity.
  - intros Hc Hl.
    destruct (write_not_dir configPath text (fs w) eq_refl Hc) as [m ->].
    exists m. cbn [mbind completion_bind fs set_fs].
    rewrite write_name by reflexivity.
    rewrite lookup_insert_ne by discriminate. rewrite Hl. reflexivity.
Qed.

(** ** An answer that is not JSON, seen from [main] *)

(** X24: the host dies of an unparsable answer.  With the host contract
    present, when the first request of the lookup is answered with a
    body that is not JSON, the host process has crashed with the
    SyntaxError after that one request: the download has not been
    asked for, and the files are as [main] found them. *)
Theorem main_crashes_on_unparsable_answer
    (P : platform) (env : environment) (fuel : nat)
    (files : gmap string node)
    (statusCode : Z) (location : option string) (body : string) :
  absent (SERVER_IP env) || absent (SERVER_PORT env) = false ->
  https_get P 0 "https://api.ip.sb/geoip" = Response statusCode location body ->
  JSON.parse body = None ->
  exists dp,
    main P env fuel files
    = Some {| proxy := Some (constructed P env dp);
              state := emit (Request "https://api.ip.sb/geoip")
                         (setupSignalHandlers (boot files));
              status_of := Crashed SyntaxError;
              main_promise := Pending |}.
Proof.
  intros Ha Hget Hparse. unfold main.
  rewrite detectEnvironment_absent, Ha. cbn [constructor].
  unfold getISP. cbn [getISP_loop]. rewrite source_of_first.
  unfold attempt_promise, request. cbn [nth apiSources url parse].
  change (length (requests (trace (setupSignalHandlers (boot files)))))
    with O.
  rewrite Hget. unfold parse_geoip. rewrite Hparse.
  eexists. reflexivity.
Qed.

(** ** The access path in the link *)






(** ** From the environment to the configuration on disk *)

(** X26: end to end.  With SERVER_PORT the decimal numeral of [n], no
    PORT and no UUID in the environment, when the engine runs after
    [main], config.json holds text that parses as JSON, and the document
    has one inbound, on port [n], whose one client has the identifier
    that [crypto.randomUUID] gave. *)
Theorem config_on_disk_binds_assigned_port
    (P : platform) (env : environment) (fuel : nat)
    (files : gmap string node) (h : host) (n : Z) :
  0 < n < 2 ^ 53 ->
  SERVER_PORT env = Some (JSON.print_int n) ->
  PORT env = "" ->
  UUID env = "" ->
  main P env fuel files = Some h ->
  child_alive h = true ->
  exists text m doc inbound settings client,
    fs (state h) !! configPath = Some (File text m)
    /\ JSON.parse text = Some doc
    /\ JSON.get doc "inbounds" = Normal (Some (JSON.Arr [inbound]))
    /\ JSON.get inbound "port" = Normal (Some (JSON.Num (JSON.Int n)))
    /\ JSON.get inbound "settings" = Normal (Some settings)
    /\ JSON.get settings "clients" = Normal (Some (JSON.Arr [client]))
    /\ JSON.get client "id" = Normal (Some (JSON.Str (randomUUID P))).
Proof.
  intros _ Hport Hp Hu Hmain Halive.
  destruct (main_started P env fuel files h Hmain Halive)
    as (dp & isp & w2 & m1 & m2 & data & Hh & (ip & Hd & _) & _).
  cbv zeta in Hh.
  rewrite detectEnvironment_absent in Hd.
  destruct (absent (SERVER_IP env) || absent (SERVER_PORT env));
    [discriminate |].
  rewrite Hport in Hd. unfold default, from_option, id in Hd.
  rewrite parseInt_print_int in Hd. inversion Hd; subst dp ip.
  set (this := constructed P env (JSON.Int n)) in *.
  assert (Hpn : port this = JSON.Int n).
  { unfold this, constructed, finalPort. rewrite Hp. reflexivity. }
  assert (Hid : uuid this = randomUUID P).
  { unfold this, constructed. cbn [constructor fst uuid]. rewrite Hu.
    reflexivity. }
  exists (JSON.stringify (config this)), m1, (config this).
  eexists _, _, _.
  split.
  { subst h. cbn [state fs set_fs].
    rewrite lookup_insert_ne by discriminate. apply lookup_insert_eq. }
  split; [apply parse_stringify, (config_printable this n Hpn) |].
  split; [unfold config; reflexivity |].
  split; [rewrite Hpn; reflexivity |].
  split; [reflexivity |]. split; [reflexivity |].
  rewrite Hid. reflexivity.
Qed.
(** ** The identity across restarts *)

(** X27: a fixed identifier survives a restart.  With UUID set, the
    configuration and the link of the proxy that [main] constructs do
    not depend on the platform: another run, with another random
    identifier at hand and from another directory, prints the same
    config.json and the same link.  With UUID unset, two runs whose
    random identifiers differ print different configurations. *)
Theorem identity_across_restarts
    (P P' : platform) (env : environment) (dp : JSON.number) :
  (UUID env <> "" ->
   config (constructed P env dp) = config (constructed P' env dp)
   /\ forall isp, cdnLink (constructed P env dp) isp
                  = cdnLink (constructed P' env dp) isp)
  /\ (UUID env = "" ->
      randomUUID P <> randomUUID P' ->
      config (constructed P env dp) <> config (constructed P' env dp)).
Proof.
  unfold constructed, config, cdnLink.
  cbn [constructor fst uuid path domain port name]. split.
  - intros Hu. destruct (UUID env) as [| c u]; [congruence |].
    cbn [Str.truthy]. split; reflexivity.
  - intros -> Hr. cbn [Str.truthy]. intros H. apply Hr.
    injection H as H. clear - H.
    repeat match goal with
           | H : _ /\ _ |- _ => destruct H
           end.
    congruence.
Qed.

(** ** The order of the events *)

Lemma main_without_proxy (P : platform) (env : environment) (fuel : nat)
    (files : gmap string node) (h : host) :
  main P env fuel files = Some h ->
  proxy h = None ->
  trace (state h) = [].
Proof.
  intros Hmain Hp. destruct (detectEnvironment env) as [[ip dp] |] eqn:Hd.
  - destruct (main_constructs P env fuel files h ip dp Hd Hmain)
      as [_ [this Hthis]]. congruence.
  - unfold main in Hmain. rewrite Hd in Hmain. inversion Hmain. reflexivity.
Qed.

(** X28: the stages do not overlap.  A run of [main] that constructs
    its proxy begins with the two registrations of the signal listeners;
    then come the events of the ISP lookup (at most three requests, to
    the two sources, with pauses of one second), then the requests of
    the download and nothing else: the first goes to the asset URL, each
    further one to the Location of the redirect that answered the one
    before it, and the last is not answered by a redirect.  A run that
    constructs no proxy has no event at all. *)
Theorem main_requests_in_stages
    (P : platform) (env : environment) (fuel : nat)
    (files : gmap string node) (h : host) (asset : string) :
  getXrayDownloadUrl P = Normal asset ->
  main P env fuel files = Some h ->
  (proxy h = None /\ trace (state h) = [])
  \/ exists lookup urls,
       trace (state h)
       = Listen "SIGINT" :: Listen "SIGTERM" :: lookup ++ map Request urls
       /\ forallb is_lookup_event lookup = true
       /\ (length (requests lookup) <= 3)%nat
       /\ (urls = [] \/ hops P (length (requests lookup)) asset urls).
Proof.
  intros Hurl Hmain. destruct (proxy h) as [this |] eqn:Hp.
  - right.
    destruct (main_trace P env fuel files h this asset Hurl Hmain Hp)
      as (t & Ht & lookup & urls & -> & Hl & Hn & Hh).
    exists lookup, urls. auto.
  - left. split; [reflexivity |].
    exact (main_without_proxy P env fuel files h Hmain Hp).
Qed.

(** ** A lookup that fails, seen from [main] *)

Lemma getISP_gives_up (P : platform) (retries : nat) (w : world) :
  (1 <= retries)%nat ->
  (forall i, (i < retries)%nat ->
             rejects (https_get P (length (requests (trace w)) + i)
                        (url (source_of (1 + i)))) = true) ->
  fst (getISP P retries w) = Resolved (Some "Unknown").
Proof.
  intros Hpos Hrej. unfold getISP.
  replace retries with ((retries - 1) + 1)%nat at 2 by lia.
  rewrite getISP_loop_failed_rounds; [| lia | intros i Hi; apply Hrej; lia].
  replace (1 + (retries - 1))%nat with retries by lia.
  cbn [getISP_loop].
  destruct (attempt_rejected P (source_of retries)
              (extend (failed_rounds (retries - 1) 1) w)) as [e ->].
  - specialize (Hrej (retries - 1)%nat ltac:(lia)).
    replace (1 + (retries - 1))%nat with retries in Hrej by lia.
    rewrite requests_failed_rounds. exact Hrej.
  - rewrite Nat.eqb_refl. reflexivity.
Qed.

(** X29: a failed lookup does not stop the start.  When the three
    requests of the lookup fail and the engine runs after [main], the
    link written to vless_xray_links.txt is the link of the proxy with
    the label Unknown. *)
Theorem main_tolerates_lookup_failure
    (P : platform) (env : environment) (fuel : nat)
    (files : gmap string node) (h : host) :
  (forall i, (i < 3)%nat ->
             rejects (https_get P i (url (source_of (1 + i)))) = true) ->
  main P env fuel files = Some h ->
  child_alive h = true ->
  exists dp m,
    fs (state h) !! linksPath
    = Some (File (JS.base64 (cdnLink (constructed P env dp) (Some "Unknown")))
              m).
Proof.
  intros Hrej Hmain Halive.
  destruct (main_started P env fuel files h Hmain Halive)
    as (dp & isp & w2 & m1 & m2 & data & Hh & (ip & _ & Hisp) & _).
  rewrite getISP_gives_up in Hisp; [| lia | exact Hrej].
  inversion Hisp; subst isp.
  exists dp, m2. cbv zeta in Hh. subst h. cbn [state fs set_fs].
  apply lookup_insert_eq.
Qed.

(** ** The theorems at sample inputs *)


(** C10 on the sample host with WSPATH set to [ws]. *)
Lemma supplied_access_path_witness :
  WSPATH Sample.env_with_path <> ""
  /\ (let this :=
        fst (constructor Sample.linux_x64 Sample.env_with_path "example.com"
               "" (JSON.Int 25565) "Panel" (boot ∅)) in
      Str.startsWith "/" (path this) = true
      /\ (Str.startsWith "/" (WSPATH Sample.env_with_path) = true ->
          path this = WSPATH Sample.env_with_path)
      /\ (Str.startsWith "/" (WSPATH Sample.env_with_path) = false ->
          path this = "/" +:+ WSPATH Sample.env_with_path)).
Proof.
  assert (H : WSPATH Sample.env_with_path <> "") by discriminate.
  split; [exact H |].
  exact (supplied_access_path Sample.linux_x64 Sample.env_with_path
           "example.com" "" "Panel" (JSON.Int 25565) (boot ∅) H).
Defined.

(** C7 on the sample host: one redirect, then the archive. *)
Lemma download_follows_every_redirect_witness :
  redirects Sample.linux_x64 (length (requests (trace (boot Sample.disk))))
    Sample.asset_url 1 (Response 200 None "PK-xray")
  /\ forall fuel : nat,
       ((fuel <= 1)%nat ->
        _downloadFile Sample.linux_x64 fuel Sample.asset_url zipPath
          (boot Sample.disk) = None)
       /\ ((1 < fuel)%nat ->
           exists r w',
             _downloadFile Sample.linux_x64 fuel Sample.asset_url zipPath
               (boot Sample.disk) = Some (r, w')
             /\ length (requests (trace w'))
                = (length (requests (trace (boot Sample.disk))) + 1 + 1)%nat
             /\ r = Resolved tt
             /\ fs w'
                = <[zipPath := File "PK-xray" Fs.default_mode]> Sample.disk).
Proof.
  assert (H1 : redirects Sample.linux_x64
                 (length (requests (trace (boot Sample.disk))))
                 Sample.asset_url 1 (Response 200 None "PK-xray")).
  { apply (redirects_step Sample.linux_x64 0 Sample.asset_url 302
             Sample.mirror_url "" 0); [reflexivity | reflexivity |].
    apply redirects_end; reflexivity. }
  split; [exact H1 |].
  exact (proj1 (download_follows_every_redirect Sample.linux_x64
                  Sample.asset_url zipPath (boot Sample.disk))
           1%nat 200 None "PK-xray" H1).
Defined.

(** C2 where the ISP service answers with a page that is not JSON. *)
Lemma getISP_parse_failure_is_uncaught_witness :
  (1 <= 3)%nat
  /\ https_get Sample.blocked (length (requests (trace (boot ∅))))
       "https://api.ip.sb/geoip"
     = Response 403 None "<html>Access denied</html>"
  /\ JSON.parse "<html>Access denied</html>" = None
  /\ getISP Sample.blocked 3 (boot ∅)
     = (Uncaught SyntaxError,
        emit (Request "https://api.ip.sb/geoip") (boot ∅)).
Proof.
  assert (H1 : (1 <= 3)%nat) by (repeat constructor).
  assert (H2 : https_get Sample.blocked (length (requests (trace (boot ∅))))
                 "https://api.ip.sb/geoip"
               = Response 403 None "<html>Access denied</html>")
    by reflexivity.
  assert (H3 : JSON.parse "<html>Access denied</html>" = None) by reflexivity.
  split; [exact H1 |]. split; [exact H2 |]. split; [exact H3 |].
  exact (getISP_parse_failure_is_uncaught Sample.blocked 3 (boot ∅) 403 None
           "<html>Access denied</html>" H1 H2 H3).
Defined.

(** C3 where the archive has no entry named xray. *)
Lemma missing_entry_never_settles_witness :
  getXrayDownloadUrl Sample.no_engine = Normal Sample.asset_url
  /\ _downloadFile Sample.no_engine 2 Sample.asset_url zipPath (boot ∅)
     = Some (Resolved tt, Sample.downloaded)
  /\ fs Sample.downloaded !! zipPath = Some (File "PK-xray" Fs.default_mode)
  /\ (forall e,
        In e [ {| fileName := "geoip.dat"; contents := Readable "GEO" |};
               {| fileName := "README.md"; contents := Readable "# Xray" |} ] ->
        fileName e <> "xray")
  /\ downloadAndExtract Sample.no_engine 2 Sample.proxy0 (boot ∅)
     = Some (Pending, Sample.downloaded).
Proof.
  assert (H1 : getXrayDownloadUrl Sample.no_engine = Normal Sample.asset_url)
    by reflexivity.
  assert (H2 : _downloadFile Sample.no_engine 2 Sample.asset_url zipPath
                 (boot ∅) = Some (Resolved tt, Sample.downloaded))
    by (vm_compute; reflexivity).
  assert (H3 : fs Sample.downloaded !! zipPath
               = Some (File "PK-xray" Fs.default_mode))
    by (vm_compute; reflexivity).
  assert (H4 : forall e,
             In e [ {| fileName := "geoip.dat"; contents := Readable "GEO" |};
                    {| fileName := "README.md"; contents := Readable "# Xray" |} ] ->
             fileName e <> "xray").
  { intros e [<- | [<- | []]]; discriminate. }
  split; [exact H1 |]. split; [exact H2 |]. split; [exact H3 |].
  split; [exact H4 |].
  exact (missing_entry_never_settles Sample.no_engine 2 Sample.proxy0 (boot ∅)
           Sample.downloaded Sample.asset_url "PK-xray" Fs.default_mode _
           H1 H2 H3 eq_refl H4).
Defined.

(** C4 on the sample host, from the disk of the container. *)
Lemma provisioning_installs_engine_witness :
  xrayPath Sample.proxy0
  = Path.join (script_dir Sample.linux_x64) ["xray"; "xray"]
  /\ getXrayDownloadUrl Sample.linux_x64 = Normal Sample.asset_url
  /\ _downloadFile Sample.linux_x64 2 Sample.asset_url zipPath
       (boot Sample.disk)
     = Some (Resolved tt, Sample.fetched)
  /\ fs Sample.fetched !! zipPath = Some (File "PK-xray" Fs.default_mode)
  /\ yauzl_open Sample.linux_x64 "PK-xray" = Some Sample.archive
  /\ xray_entry Sample.archive
     = Some {| fileName := "xray"; contents := Readable "ELF" |}
  /\ installable (xrayPath Sample.proxy0) (fs Sample.fetched)
  /\ exists w2,
       downloadAndExtract Sample.linux_x64 2 Sample.proxy0 (boot Sample.disk)
       = Some (Resolved true, w2)
       /\ fs w2 !! xrayPath Sample.proxy0 = Some (File "ELF" 493)
       /\ fs w2 !! Path.dirname (xrayPath Sample.proxy0) = Some Dir
       /\ fs w2 !! zipPath = None.
Proof.
  assert (H1 : xrayPath Sample.proxy0
               = Path.join (script_dir Sample.linux_x64) ["xray"; "xray"])
    by reflexivity.
  assert (H2 : getXrayDownloadUrl Sample.linux_x64 = Normal Sample.asset_url)
    by reflexivity.
  assert (H3 : _downloadFile Sample.linux_x64 2 Sample.asset_url zipPath
                 (boot Sample.disk) = Some (Resolved tt, Sample.fetched))
    by (vm_compute; reflexivity).
  assert (H4 : fs Sample.fetched !! zipPath
               = Some (File "PK-xray" Fs.default_mode))
    by (vm_compute; reflexivity).
  assert (H5 : yauzl_open Sample.linux_x64 "PK-xray" = Some Sample.archive)
    by reflexivity.
  assert (H6 : xray_entry Sample.archive
               = Some {| fileName := "xray"; contents := Readable "ELF" |})
    by reflexivity.
  assert (H7 : installable (xrayPath Sample.proxy0) (fs Sample.fetched)).
  { split; [vm_compute; discriminate |].
    right. split; vm_compute; reflexivity. }
  split; [exact H1 |]. split; [exact H2 |]. split; [exact H3 |].
  split; [exact H4 |]. split; [exact H5 |]. split; [exact H6 |].
  split; [exact H7 |].
  exact (proj1 (provisioning_installs_engine Sample.linux_x64 2 Sample.proxy0
                  (boot Sample.disk) Sample.fetched Sample.asset_url "PK-xray"
                  "ELF" Fs.default_mode Sample.archive _ H1 H2 H3 H4 H5 H6
                  eq_refl) H7).
Defined.

(** C6 on the sample host, port 25565, on the disk of the container. *)
Lemma config_parses_back_witness :
  port Sample.proxy0 = JSON.Int 25565
  /\ 0 < 25565 < 2 ^ 53
  /\ exists doc inbound settings client,
       JSON.parse (JSON.stringify (config Sample.proxy0)) = Some doc
       /\ JSON.get doc "inbounds" = Normal (Some (JSON.Arr [inbound]))
       /\ JSON.get inbound "port" = Normal (Some (JSON.Num (JSON.Int 25565)))
       /\ JSON.get inbound "listen" = Normal (Some (JSON.Str "0.0.0.0"))
       /\ JSON.get inbound "settings" = Normal (Some settings)
       /\ JSON.get settings "clients" = Normal (Some (JSON.Arr [client]))
       /\ JSON.get client "id"
          = Normal (Some (JSON.Str (uuid Sample.proxy0)))
       /\ (exists m,
             generateConfig Sample.proxy0 (boot Sample.disk)
             = Normal
                 (boot (<[configPath
                          := File (JSON.stringify (config Sample.proxy0)) m]>
                          Sample.disk)))
       /\ generateConfig Sample.proxy0 Cases.config_is_directory
          = Throw (EISDIR configPath).
Proof.
  assert (H1 : port Sample.proxy0 = JSON.Int 25565) by reflexivity.
  assert (H2 : 0 < 25565 < 2 ^ 53) by (split; reflexivity).
  assert (H3 : fs (boot Sample.disk) !! configPath <> Some Dir)
    by (vm_compute; discriminate).
  assert (H4 : fs Cases.config_is_directory !! configPath = Some Dir)
    by (vm_compute; reflexivity).
  split; [exact H1 |]. split; [exact H2 |].
  destruct (config_parses_back Sample.proxy0 25565 H1 H2)
    as (doc & inbound & settings & client & Hdoc & Hin & Hport & Hlisten
        & Hset & Hcl & Hid & Hgen).
  exists doc, inbound, settings, client.
  split; [exact Hdoc |]. split; [exact Hin |]. split; [exact Hport |].
  split; [exact Hlisten |]. split; [exact Hset |]. split; [exact Hcl |].
  split; [exact Hid |].
  split; [exact (proj1 (Hgen (boot Sample.disk)) H3) |].
  exact (proj2 (Hgen Cases.config_is_directory) H4).
Defined.

(** C1 on the sample host, once the engine runs: SIGTERM, then a
    SIGINT and an empty event loop that find the process gone. *)
Lemma signal_runs_cleanup_once_witness :
  status_of Sample.started = Running
  /\ proxy Sample.started = Some (startService Sample.proxy0)
  /\ installed Sample.started
  /\ (SIGTERM = SIGINT \/ SIGTERM = SIGTERM)
  /\ (let h' := run Sample.started [Signal SIGTERM; Signal SIGINT; LoopEmpty] in
      status_of h' = Exited 0
      /\ cleanups (state h') = S (cleanups (state Sample.started))
      /\ proxy h' = Some (signalled (startService Sample.proxy0))
      /\ (forall f, In f [zipPath; configPath; linksPath] ->
                    fs (state h') !! f
                    = after_removal (fs (state Sample.started) !! f))
      /\ (forall p, ~ In p [zipPath; configPath; linksPath] ->
                    fs (state h') !! p = fs (state Sample.started) !! p)).
Proof.
  assert (H1 : status_of Sample.started = Running) by (vm_compute; reflexivity).
  assert (H2 : proxy Sample.started = Some (startService Sample.proxy0))
    by (vm_compute; reflexivity).
  assert (H3 : installed Sample.started) by (vm_compute; reflexivity).
  assert (H4 : SIGTERM = SIGINT \/ SIGTERM = SIGTERM) by (right; reflexivity).
  split; [exact H1 |]. split; [exact H2 |]. split; [exact H3 |].
  split; [exact H4 |].
  exact (proj1 (signal_runs_cleanup_once Sample.started
                  (startService Sample.proxy0) H1 H2 H3)
           SIGTERM [Signal SIGINT; LoopEmpty] H4).
Defined.

(** The lookup on a host without network: three attempts, two backoffs. *)
Lemma getISP_unknown_after_retries_witness :
  (1 <= 3)%nat
  /\ (forall i, (i < 3)%nat ->
                rejects (https_get Sample.offline
                           (length (requests (trace (boot ∅))) + i)
                           (url (source_of (1 + i)))) = true)
  /\ getISP Sample.offline 3 (boot ∅)
     = (Resolved (Some "Unknown"),
        extend (failed_rounds (3 - 1) 1 ++ [Request (url (source_of 3))])
          (boot ∅)).
Proof.
  assert (H1 : (1 <= 3)%nat) by (repeat constructor).
  assert (H2 : forall i, (i < 3)%nat ->
                 rejects (https_get Sample.offline
                            (length (requests (trace (boot ∅))) + i)
                            (url (source_of (1 + i)))) = true)
    by (intros i _; reflexivity).
  split; [exact H1 |]. split; [exact H2 |].
  exact (getISP_unknown_after_retries Sample.offline 3 (boot ∅) H1 H2).
Defined.

(** The lookup when the first request fails and the second source
    answers. *)
Lemma getISP_first_answer_witness :
  (1 < 3)%nat
  /\ (forall i, (i < 1)%nat ->
                rejects (https_get Sample.flaky
                           (length (requests (trace (boot ∅))) + i)
                           (url (source_of (1 + i)))) = true)
  /\ https_get Sample.flaky (length (requests (trace (boot ∅))) + 1)
       (url (source_of (1 + 1)))
     = Response 200 None Sample.trace_body
  /\ parse (source_of (1 + 1)) Sample.trace_body = Normal "DE-Example_Net"
  /\ getISP Sample.flaky 3 (boot ∅)
     = (Resolved (Some "DE-Example_Net"),
        extend (failed_rounds 1 1 ++ [Request (url (source_of (1 + 1)))])
          (boot ∅)).
Proof.
  assert (H1 : (1 < 3)%nat) by (repeat constructor).
  assert (H2 : forall i, (i < 1)%nat ->
                 rejects (https_get Sample.flaky
                            (length (requests (trace (boot ∅))) + i)
                            (url (source_of (1 + i)))) = true).
  { intros i Hi. destruct i as [| i]; [reflexivity |].
    exfalso. apply Nat.succ_lt_mono in Hi. inversion Hi. }
  assert (H3 : https_get Sample.flaky (length (requests (trace (boot ∅))) + 1)
                 (url (source_of (1 + 1)))
               = Response 200 None Sample.trace_body) by reflexivity.
  assert (H4 : parse (source_of (1 + 1)) Sample.trace_body
               = Normal "DE-Example_Net") by (vm_compute; reflexivity).
  split; [exact H1 |]. split; [exact H2 |]. split; [exact H3 |].
  split; [exact H4 |].
  exact (getISP_first_answer Sample.flaky 3 1 (boot ∅) 200 None
           Sample.trace_body "DE-Example_Net" H1 H2 H3 H4).
Defined.

(** The handlers of the sample host once [main] has started the engine. *)
Lemma main_installs_handlers_witness :
  main Sample.linux_x64 Sample.env 2 Sample.disk = Some Sample.started
  /\ status_of Sample.started = Running
  /\ installed Sample.started
  /\ cleanups (state Sample.started) = O
  /\ (exists this, proxy Sample.started = Some this)
  /\ exists t,
       trace (state Sample.started)
       = Listen "SIGINT" :: Listen "SIGTERM" :: t
       /\ Forall (fun e => forall ev, e <> Listen ev) t.
Proof.
  assert (H1 : main Sample.linux_x64 Sample.env 2 Sample.disk
               = Some Sample.started)
    by (vm_compute; reflexivity).
  assert (H2 : status_of Sample.started = Running) by (vm_compute; reflexivity).
  split; [exact H1 |]. split; [exact H2 |].
  exact (main_installs_handlers Sample.linux_x64 Sample.env 2 Sample.disk
           Sample.started H1 H2).
Defined.

(** ** The further theorems at sample inputs *)

(** X4 without SERVER_PORT, and on the sample host. *)
Lemma main_exits_without_host_contract_witness :
  (absent (SERVER_IP Cases.env_without_port)
   || absent (SERVER_PORT Cases.env_without_port) = true
   /\ main Sample.linux_x64 Cases.env_without_port 2 ∅
      = Some (host_exit_1 ∅))
  /\ (absent (SERVER_IP Sample.env) || absent (SERVER_PORT Sample.env) = false
      /\ forall h, main Sample.linux_x64 Sample.env 2 Sample.disk = Some h ->
                   (forall code, status_of h <> Exited code)
                   /\ exists this, proxy h = Some this).
Proof.
  split.
  - split; [reflexivity |].
    exact (proj1 (main_exits_without_host_contract Sample.linux_x64
                    Cases.env_without_port 2 ∅) eq_refl).
  - split; [reflexivity |].
    exact (proj2 (main_exits_without_host_contract Sample.linux_x64
                    Sample.env 2 ∅) eq_refl).
Defined.

(** X5 on the sample host: SERVER_PORT is 25565. *)
Lemma main_port_from_decimal_text_witness :
  0 <= 25565 < 2 ^ 53
  /\ SERVER_PORT Sample.env = Some (JSON.print_int 25565)
  /\ main Sample.linux_x64 Sample.env 2 Sample.disk = Some Sample.started
  /\ proxy Sample.started = Some (startService Sample.proxy0)
  /\ (PORT Sample.env = "" -> port (startService Sample.proxy0) = JSON.Int 25565)
  /\ (forall p, 0 <= p < 2 ^ 53 ->
                PORT Sample.env = JSON.print_int p ->
                port (startService Sample.proxy0) = JSON.Int p).
Proof.
  assert (H1 : 0 <= 25565 < 2 ^ 53) by (split; [discriminate | reflexivity]).
  assert (H2 : SERVER_PORT Sample.env = Some (JSON.print_int 25565))
    by reflexivity.
  assert (H3 : main Sample.linux_x64 Sample.env 2 Sample.disk = Some Sample.started)
    by (vm_compute; reflexivity).
  assert (H4 : proxy Sample.started = Some (startService Sample.proxy0))
    by (vm_compute; reflexivity).
  split; [exact H1 |]. split; [exact H2 |]. split; [exact H3 |].
  split; [exact H4 |].
  exact (main_port_from_decimal_text Sample.linux_x64 Sample.env 2 Sample.disk
           Sample.started (startService Sample.proxy0) 25565 H1 H2 H3 H4).
Defined.

(** X6 for the proxy of an environment whose SERVER_PORT is [auto]. *)
Lemma nan_port_is_written_as_null_witness :
  port (constructed Sample.linux_x64 Cases.env_port_auto (JS.parseInt "auto"))
  = JSON.NaN
  /\ exists doc inbound,
       JSON.parse
         (JSON.stringify
            (config (constructed Sample.linux_x64 Cases.env_port_auto
                       (JS.parseInt "auto"))))
       = Some doc
       /\ JSON.get doc "inbounds" = Normal (Some (JSON.Arr [inbound]))
       /\ JSON.get inbound "port" = Normal (Some JSON.Null)
       /\ JSON.get inbound "listen" = Normal (Some (JSON.Str "0.0.0.0")).
Proof.
  assert (H : port (constructed Sample.linux_x64 Cases.env_port_auto
                      (JS.parseInt "auto")) = JSON.NaN) by reflexivity.
  split; [exact H |].
  exact (nan_port_is_written_as_null _ H).
Defined.

(** X7 on the sample host. *)
Lemma config_transport_parses_back_witness :
  (forall l, port Sample.proxy0 <> JSON.Dec l)
  /\ exists doc inbound stream ws headers,
       JSON.parse (JSON.stringify (config Sample.proxy0)) = Some doc
       /\ JSON.get doc "inbounds" = Normal (Some (JSON.Arr [inbound]))
       /\ JSON.get inbound "protocol" = Normal (Some (JSON.Str "vless"))
       /\ JSON.get inbound "streamSettings" = Normal (Some stream)
       /\ JSON.get stream "network" = Normal (Some (JSON.Str "ws"))
       /\ JSON.get stream "security" = Normal (Some (JSON.Str "none"))
       /\ JSON.get stream "wsSettings" = Normal (Some ws)
       /\ JSON.get ws "path" = Normal (Some (JSON.Str (path Sample.proxy0)))
       /\ JSON.get ws "headers" = Normal (Some headers)
       /\ JSON.get headers "Host"
          = Normal (Some (JSON.Str (domain Sample.proxy0))).
Proof.
  assert (H : forall l, port Sample.proxy0 <> JSON.Dec l)
    by (intros l; discriminate).
  split; [exact H |].
  exact (config_transport_parses_back Sample.proxy0 H).
Defined.


(** X9 where the ISP service closes the connection in the middle of
    its answer: the lookup is left pending after one request. *)
Lemma getISP_is_bounded_witness :
  https_get Cases.hung_up (length (requests (trace (boot ∅))))
    "https://api.ip.sb/geoip" = Cut "{" Closed
  /\ exists r t,
       getISP Cases.hung_up 3 (boot ∅) = (r, extend t (boot ∅))
       /\ r = Pending
       /\ t = [Request "https://api.ip.sb/geoip"].
Proof.
  assert (H1 : https_get Cases.hung_up (length (requests (trace (boot ∅))))
                 "https://api.ip.sb/geoip" = Cut "{" Closed) by reflexivity.
  assert (H2 : 3%nat <> O) by discriminate.
  split; [exact H1 |].
  destruct (getISP_is_bounded Cases.hung_up 3 (boot ∅))
    as (r & t & Hrun & _ & _ & _ & _ & Hcut).
  exists r, t. split; [exact Hrun |]. exact (Hcut "{" H2 H1).
Defined.

(** X10 on the sample host: the label has an underscore where the
    organization has a space. *)
Lemma getISP_label_has_no_space_witness :
  getISP Sample.linux_x64 3 (boot ∅)
  = (Resolved (Some "US-Example_Net"),
     emit (Request Sample.geoip_url) (boot ∅))
  /\ no_space "US-Example_Net" = true.
Proof.
  assert (H : getISP Sample.linux_x64 3 (boot ∅)
              = (Resolved (Some "US-Example_Net"),
                 emit (Request Sample.geoip_url) (boot ∅)))
    by (vm_compute; reflexivity).
  split; [exact H |].
  exact (getISP_label_has_no_space Sample.linux_x64 3 (boot ∅) _ _ H).
Defined.

(** X11 on the text null and on an error payload. *)
Lemma parse_geoip_without_fields_witness :
  (JSON.parse "null" = Some JSON.Null /\ parse_geoip "null" = Throw TypeError)
  /\ (JSON.parse Cases.error_payload
      = Some (JSON.Obj [ ("code", JSON.Num (JSON.Int 401));
                         ("message", JSON.Str "Unauthorized") ])
      /\ parse_geoip Cases.error_payload = Normal "undefined-undefined").
Proof.
  assert (H1 : JSON.parse "null" = Some JSON.Null) by reflexivity.
  assert (H2 : JSON.parse Cases.error_payload
               = Some (JSON.Obj [ ("code", JSON.Num (JSON.Int 401));
                                  ("message", JSON.Str "Unauthorized") ]))
    by (vm_compute; reflexivity).
  split.
  - split; [exact H1 |].
    exact (proj1 (parse_geoip_without_fields "null") H1).
  - split; [exact H2 |].
    exact (proj2 (parse_geoip_without_fields Cases.error_payload) _ H2
             eq_refl eq_refl).
Defined.

(** X12 on a trace of two lines, neither of them about loc or
    as_organization. *)
Lemma parse_trace_without_fields_witness :
  (forall line k v rest,
     In line (JS.split JSON.nl Cases.trace_without_keys) ->
     JS.split "=" line = k :: v :: rest ->
     Str.truthy k && Str.truthy v = true ->
     JS.trim k <> "loc" /\ JS.trim k <> "as_organization")
  /\ parse_trace Cases.trace_without_keys = Normal "UN-CF".
Proof.
  assert (H : forall line k v rest,
            In line (JS.split JSON.nl Cases.trace_without_keys) ->
            JS.split "=" line = k :: v :: rest ->
            Str.truthy k && Str.truthy v = true ->
            JS.trim k <> "loc" /\ JS.trim k <> "as_organization").
  { intros line k v rest Hin Hs _.
    change (In line ["fl=29f1"; "ip=1.2.3.4"]) in Hin.
    destruct Hin as [<- | [<- | []]]; vm_compute in Hs;
      inversion Hs; subst; split; discriminate. }
  split; [exact H |].
  exact (parse_trace_without_fields Cases.trace_without_keys H).
Defined.

(** X14 on the sample host. *)
Lemma engine_runs_only_when_configured_witness :
  main Sample.linux_x64 Sample.env 2 Sample.disk = Some Sample.started
  /\ child_alive Sample.started = true
  /\ exists dp isp data m1 m2 c,
       let this := constructed Sample.linux_x64 Sample.env dp in
       proxy Sample.started = Some (set_process (Some c) this)
       /\ command c = xrayPath this
       /\ args c = ["run"; "-config"; configPath]
       /\ status_of Sample.started = Running
       /\ main_promise Sample.started = Resolved tt
       /\ fs (state Sample.started) !! xrayPath this = Some (File data 493)
       /\ fs (state Sample.started) !! configPath
          = Some (File (JSON.stringify (config this)) m1)
       /\ fs (state Sample.started) !! linksPath
          = Some (File (JS.base64 (cdnLink this isp)) m2)
       /\ fs (state Sample.started) !! zipPath = None.
Proof.
  assert (H1 : main Sample.linux_x64 Sample.env 2 Sample.disk = Some Sample.started)
    by (vm_compute; reflexivity).
  assert (H2 : child_alive Sample.started = true) by (vm_compute; reflexivity).
  split; [exact H1 |]. split; [exact H2 |].
  exact (engine_runs_only_when_configured Sample.linux_x64 Sample.env 2 Sample.disk
           Sample.started H1 H2).
Defined.

(** X15 on a host without network, where the lookup gives up, the
    download fails and [main] resolves; and on a host where the
    connection is reset in the middle of the archive. *)
Lemma main_without_engine_writes_no_document_witness :
  (main Sample.offline Sample.env 1 ∅ = Some Cases.gave_up
   /\ main_promise Cases.gave_up = Resolved tt
   /\ child_alive Cases.gave_up = false
   /\ partly_written zipPath ∅ (fs (state Cases.gave_up))
   /\ fs (state Cases.gave_up) !! configPath = (∅ : gmap string node) !! configPath
   /\ fs (state Cases.gave_up) !! linksPath = (∅ : gmap string node) !! linksPath
   /\ status_of Cases.gave_up = Running
   /\ exists dp, proxy Cases.gave_up
                 = Some (constructed Sample.offline Sample.env dp))
  /\ (main Cases.broken_off Sample.env 2 Sample.disk = Some Cases.cut_off
      /\ main_promise Cases.cut_off = Resolved tt
      /\ child_alive Cases.cut_off = false
      /\ fs (state Cases.cut_off) !! zipPath
         = Some (File "PK" Fs.default_mode)
      /\ partly_written zipPath Sample.disk (fs (state Cases.cut_off))
      /\ fs (state Cases.cut_off) !! configPath = Sample.disk !! configPath
      /\ fs (state Cases.cut_off) !! linksPath = Sample.disk !! linksPath
      /\ status_of Cases.cut_off = Running
      /\ exists dp, proxy Cases.cut_off
                    = Some (constructed Cases.broken_off Sample.env dp)).
Proof.
  assert (H1 : main Sample.offline Sample.env 1 ∅ = Some Cases.gave_up)
    by (vm_compute; reflexivity).
  assert (H2 : main_promise Cases.gave_up = Resolved tt)
    by (vm_compute; reflexivity).
  assert (H3 : child_alive Cases.gave_up = false) by (vm_compute; reflexivity).
  assert (H4 : main Cases.broken_off Sample.env 2 Sample.disk
               = Some Cases.cut_off) by (vm_compute; reflexivity).
  assert (H5 : main_promise Cases.cut_off = Resolved tt)
    by (vm_compute; reflexivity).
  assert (H6 : child_alive Cases.cut_off = false) by (vm_compute; reflexivity).
  assert (H7 : fs (state Cases.cut_off) !! zipPath
               = Some (File "PK" Fs.default_mode))
    by (vm_compute; reflexivity).
  split.
  - split; [exact H1 |]. split; [exact H2 |]. split; [exact H3 |].
    exact (main_without_engine_writes_no_document Sample.offline Sample.env 1
             ∅ Cases.gave_up H1 H2 H3).
  - split; [exact H4 |]. split; [exact H5 |]. split; [exact H6 |].
    split; [exact H7 |].
    exact (main_without_engine_writes_no_document Cases.broken_off Sample.env
             2 Sample.disk Cases.cut_off H4 H5 H6).
Defined.

(** X16 on the sample host: SIGTERM once the engine runs. *)
Lemma signal_after_start_witness :
  main Sample.linux_x64 Sample.env 2 Sample.disk = Some Sample.started
  /\ child_alive Sample.started = true
  /\ (SIGTERM = SIGINT \/ SIGTERM = SIGTERM)
  /\ (let h' := deliver Sample.started (Signal SIGTERM) in
      status_of h' = Exited 0
      /\ cleanups (state h') = 1%nat
      /\ fs (state h') !! configPath = None
      /\ fs (state h') !! linksPath = None
      /\ fs (state h') !! zipPath = None
      /\ exists this data c,
           proxy h' = Some (set_process (Some c) this)
           /\ received c = [SIGTERM]
           /\ alive c = true
           /\ fs (state h') !! xrayPath this = Some (File data 493)).
Proof.
  assert (H1 : main Sample.linux_x64 Sample.env 2 Sample.disk = Some Sample.started)
    by (vm_compute; reflexivity).
  assert (H2 : child_alive Sample.started = true) by (vm_compute; reflexivity).
  assert (H3 : SIGTERM = SIGINT \/ SIGTERM = SIGTERM) by (right; reflexivity).
  split; [exact H1 |]. split; [exact H2 |]. split; [exact H3 |].
  exact (signal_after_start Sample.linux_x64 Sample.env 2 Sample.disk Sample.started
           SIGTERM H1 H2 H3).
Defined.

(** X17 without network: the one request for the asset fails. *)
Lemma download_without_response_gives_false_witness :
  getXrayDownloadUrl Sample.offline = Normal Sample.asset_url
  /\ redirects Sample.offline (length (requests (trace (boot ∅))))
       Sample.asset_url 0 (Failed "ENETUNREACH")
  /\ rejects (Failed "ENETUNREACH") = true
  /\ (0 < 1)%nat
  /\ exists w',
       downloadAndExtract Sample.offline 1 Sample.proxy0 (boot ∅)
       = Some (Resolved false, w')
       /\ fs w' = fs (boot ∅)
       /\ length (requests (trace w'))
          = (length (requests (trace (boot ∅))) + 0 + 1)%nat.
Proof.
  assert (H1 : getXrayDownloadUrl Sample.offline = Normal Sample.asset_url)
    by reflexivity.
  assert (H2 : redirects Sample.offline (length (requests (trace (boot ∅))))
                 Sample.asset_url 0 (Failed "ENETUNREACH")).
  { apply redirects_end; [reflexivity | exact I]. }
  assert (H3 : rejects (Failed "ENETUNREACH") = true) by reflexivity.
  assert (H4 : (0 < 1)%nat) by (repeat constructor).
  split; [exact H1 |]. split; [exact H2 |]. split; [exact H3 |].
  split; [exact H4 |].
  exact (download_without_response_gives_false Sample.offline 1 Sample.proxy0
           (boot ∅) Sample.asset_url 0 (Failed "ENETUNREACH") H1 H2 H3 H4).
Defined.

(** X18 where the asset URL is answered with status 404 and a page:
    the page is saved as the archive, and the archive reader refuses
    it; and where the entry named xray of the archive is damaged. *)
Lemma unreadable_archive_rejects_witness :
  (xrayPath Sample.proxy0
   = Path.join (script_dir Cases.missing_release) ["xray"; "xray"]
   /\ getXrayDownloadUrl Cases.missing_release = Normal Sample.asset_url
   /\ _downloadFile Cases.missing_release 1 Sample.asset_url zipPath (boot ∅)
      = Some (Resolved tt, Cases.page_saved)
   /\ fs Cases.page_saved !! zipPath
      = Some (File "Not Found" Fs.default_mode)
   /\ yauzl_open Cases.missing_release "Not Found" = None
   /\ downloadAndExtract Cases.missing_release 1 Sample.proxy0 (boot ∅)
      = Some (Rejected ArchiveError, Cases.page_saved))
  /\ (_downloadFile Cases.damaged 2 Sample.asset_url zipPath
        (boot Sample.disk)
      = Some (Resolved tt, Sample.fetched)
      /\ fs Sample.fetched !! zipPath
         = Some (File "PK-xray" Fs.default_mode)
      /\ yauzl_open Cases.damaged "PK-xray" = Some Cases.damaged_archive
      /\ xray_entry Cases.damaged_archive
         = Some {| fileName := "xray"; contents := Truncated "EL" |}
      /\ installable (xrayPath Sample.proxy0) (fs Sample.fetched)
      /\ exists w2 m',
           downloadAndExtract Cases.damaged 2 Sample.proxy0 (boot Sample.disk)
           = Some (Rejected ArchiveError, w2)
           /\ fs w2 !! xrayPath Sample.proxy0 = Some (File "EL" m')
           /\ (fs Sample.fetched !! xrayPath Sample.proxy0 = None ->
               m' = Fs.default_mode)
           /\ fs w2 !! Path.dirname (xrayPath Sample.proxy0) = Some Dir
           /\ fs w2 !! zipPath = Some (File "PK-xray" Fs.default_mode)).
Proof.
  assert (H0 : xrayPath Sample.proxy0
               = Path.join (script_dir Cases.missing_release) ["xray"; "xray"])
    by reflexivity.
  assert (H1 : getXrayDownloadUrl Cases.missing_release
               = Normal Sample.asset_url) by reflexivity.
  assert (H2 : _downloadFile Cases.missing_release 1 Sample.asset_url zipPath
                 (boot ∅) = Some (Resolved tt, Cases.page_saved))
    by (vm_compute; reflexivity).
  assert (H3 : fs Cases.page_saved !! zipPath
               = Some (File "Not Found" Fs.default_mode))
    by (vm_compute; reflexivity).
  assert (H4 : yauzl_open Cases.missing_release "Not Found" = None)
    by reflexivity.
  assert (H5 : _downloadFile Cases.damaged 2 Sample.asset_url zipPath
                 (boot Sample.disk) = Some (Resolved tt, Sample.fetched))
    by (vm_compute; reflexivity).
  assert (H6 : fs Sample.fetched !! zipPath
               = Some (File "PK-xray" Fs.default_mode))
    by (vm_compute; reflexivity).
  assert (H7 : yauzl_open Cases.damaged "PK-xray" = Some Cases.damaged_archive)
    by reflexivity.
  assert (H8 : xray_entry Cases.damaged_archive
               = Some {| fileName := "xray"; contents := Truncated "EL" |})
    by reflexivity.
  assert (H9 : installable (xrayPath Sample.proxy0) (fs Sample.fetched)).
  { split; [vm_compute; discriminate |].
    right. split; vm_compute; reflexivity. }
  split.
  - split; [exact H0 |]. split; [exact H1 |]. split; [exact H2 |].
    split; [exact H3 |]. split; [exact H4 |].
    exact (proj1 (unreadable_archive_rejects Cases.missing_release 1
                    Sample.proxy0 (boot ∅) Cases.page_saved Sample.asset_url
                    "Not Found" Fs.default_mode H0 H1 H2 H3) (or_introl H4)).
  - split; [exact H5 |]. split; [exact H6 |]. split; [exact H7 |].
    split; [exact H8 |]. split; [exact H9 |].
    exact (proj2 (unreadable_archive_rejects Cases.damaged 2 Sample.proxy0
                    (boot Sample.disk) Sample.fetched Sample.asset_url
                    "PK-xray" Fs.default_mode eq_refl eq_refl H5 H6)
             Cases.damaged_archive _ "EL" H7 H8 eq_refl H9).
Defined.

(** X20 on the sample host: SIGHUP once the engine runs. *)
Lemma unhandled_signal_skips_cleanup_witness :
  main Sample.linux_x64 Sample.env 2 Sample.disk = Some Sample.started
  /\ status_of Sample.started = Running
  /\ (SIGHUP = SIGHUP \/ SIGHUP = SIGKILL)
  /\ deliver Sample.started (Signal SIGHUP)
     = set_status (Killed SIGHUP) Sample.started.
Proof.
  assert (H1 : main Sample.linux_x64 Sample.env 2 Sample.disk = Some Sample.started)
    by (vm_compute; reflexivity).
  assert (H2 : status_of Sample.started = Running) by (vm_compute; reflexivity).
  assert (H3 : SIGHUP = SIGHUP \/ SIGHUP = SIGKILL) by (left; reflexivity).
  split; [exact H1 |]. split; [exact H2 |]. split; [exact H3 |].
  exact (unhandled_signal_skips_cleanup Sample.linux_x64 Sample.env 2 Sample.disk
           Sample.started SIGHUP H1 H2 H3).
Defined.

(** X21 on a host without network. *)
Lemma failed_start_exits_with_status_0_witness :
  main Sample.offline Sample.env 1 ∅ = Some Cases.gave_up
  /\ status_of Cases.gave_up = Running
  /\ child_alive Cases.gave_up = false
  /\ deliver Cases.gave_up LoopEmpty = set_status (Exited 0) Cases.gave_up
  /\ cleanups (state Cases.gave_up) = O.
Proof.
  assert (H1 : main Sample.offline Sample.env 1 ∅ = Some Cases.gave_up)
    by (vm_compute; reflexivity).
  assert (H2 : status_of Cases.gave_up = Running) by (vm_compute; reflexivity).
  assert (H3 : child_alive Cases.gave_up = false) by (vm_compute; reflexivity).
  split; [exact H1 |]. split; [exact H2 |]. split; [exact H3 |].
  exact (failed_start_exits_with_status_0 Sample.offline Sample.env 1 ∅
           Cases.gave_up H1 H2 H3).
Defined.

(** X23 with a directory in the place of config.json, and in the place
    of the link file. *)
Lemma write_failure_stops_the_start_witness :
  (fs Cases.config_is_directory !! configPath = Some Dir
   /\ serve Sample.proxy0 (Some "US-Example_Net") Cases.config_is_directory
      = {| proxy := Some Sample.proxy0; state := Cases.config_is_directory;
           status_of := Running;
           main_promise := Rejected (EISDIR configPath) |})
  /\ (fs Cases.links_is_directory !! configPath <> Some Dir
      /\ fs Cases.links_is_directory !! linksPath = Some Dir
      /\ exists m,
           serve Sample.proxy0 (Some "US-Example_Net") Cases.links_is_directory
           = {| proxy := Some Sample.proxy0;
                state :=
                  set_fs (<[configPath
                            := File (JSON.stringify (config Sample.proxy0)) m]>
                            (fs Cases.links_is_directory))
                    Cases.links_is_directory;
                status_of := Running;
                main_promise := Rejected (EISDIR linksPath) |}).
Proof.
  assert (H1 : fs Cases.config_is_directory !! configPath = Some Dir)
    by (vm_compute; reflexivity).
  assert (H2 : fs Cases.links_is_directory !! configPath <> Some Dir)
    by (vm_compute; discriminate).
  assert (H3 : fs Cases.links_is_directory !! linksPath = Some Dir)
    by (vm_compute; reflexivity).
  split.
  - split; [exact H1 |].
    exact (proj1 (write_failure_stops_the_start Sample.proxy0
                    (Some "US-Example_Net") Cases.config_is_directory) H1).
  - split; [exact H2 |]. split; [exact H3 |].
    exact (proj2 (write_failure_stops_the_start Sample.proxy0
                    (Some "US-Example_Net") Cases.links_is_directory) H2 H3).
Defined.

(** X24 where the ISP service answers with a page that is not JSON. *)
Lemma main_crashes_on_unparsable_answer_witness :
  absent (SERVER_IP Sample.env) || absent (SERVER_PORT Sample.env) = false
  /\ https_get Sample.blocked 0 "https://api.ip.sb/geoip"
     = Response 403 None "<html>Access denied</html>"
  /\ JSON.parse "<html>Access denied</html>" = None
  /\ exists dp,
       main Sample.blocked Sample.env 2 ∅
       = Some {| proxy := Some (constructed Sample.blocked Sample.env dp);
                 state := emit (Request "https://api.ip.sb/geoip")
                            (setupSignalHandlers (boot ∅));
                 status_of := Crashed SyntaxError;
                 main_promise := Pending |}.
Proof.
  assert (H1 : absent (SERVER_IP Sample.env)
               || absent (SERVER_PORT Sample.env) = false) by reflexivity.
  assert (H2 : https_get Sample.blocked 0 "https://api.ip.sb/geoip"
               = Response 403 None "<html>Access denied</html>")
    by reflexivity.
  assert (H3 : JSON.parse "<html>Access denied</html>" = None)
    by reflexivity.
  split; [exact H1 |]. split; [exact H2 |]. split; [exact H3 |].
  exact (main_crashes_on_unparsable_answer Sample.blocked Sample.env 2 ∅
           403 None "<html>Access denied</html>" H1 H2 H3).
Defined.


(** X26 on the sample host: port 25565, a generated identifier. *)
Lemma config_on_disk_binds_assigned_port_witness :
  0 < 25565 < 2 ^ 53
  /\ SERVER_PORT Sample.env = Some (JSON.print_int 25565)
  /\ PORT Sample.env = ""
  /\ UUID Sample.env = ""
  /\ main Sample.linux_x64 Sample.env 2 Sample.disk = Some Sample.started
  /\ child_alive Sample.started = true
  /\ exists text m doc inbound settings client,
       fs (state Sample.started) !! configPath = Some (File text m)
       /\ JSON.parse text = Some doc
       /\ JSON.get doc "inbounds" = Normal (Some (JSON.Arr [inbound]))
       /\ JSON.get inbound "port" = Normal (Some (JSON.Num (JSON.Int 25565)))
       /\ JSON.get inbound "settings" = Normal (Some settings)
       /\ JSON.get settings "clients" = Normal (Some (JSON.Arr [client]))
       /\ JSON.get client "id"
          = Normal (Some (JSON.Str (randomUUID Sample.linux_x64))).
Proof.
  assert (H1 : 0 < 25565 < 2 ^ 53) by (split; reflexivity).
  assert (H2 : SERVER_PORT Sample.env = Some (JSON.print_int 25565))
    by reflexivity.
  assert (H3 : PORT Sample.env = "") by reflexivity.
  assert (H4 : UUID Sample.env = "") by reflexivity.
  assert (H5 : main Sample.linux_x64 Sample.env 2 Sample.disk = Some Sample.started)
    by (vm_compute; reflexivity).
  assert (H6 : child_alive Sample.started = true) by (vm_compute; reflexivity).
  split; [exact H1 |]. split; [exact H2 |]. split; [exact H3 |].
  split; [exact H4 |]. split; [exact H5 |]. split; [exact H6 |].
  exact (config_on_disk_binds_assigned_port Sample.linux_x64 Sample.env 2 Sample.disk
           Sample.started 25565 H1 H2 H3 H4 H5 H6).
Defined.

(** X27 on the sample environment with a fixed identifier, and
    without. *)
Lemma identity_across_restarts_witness :
  (UUID Cases.env_fixed_uuid <> ""
   /\ config (constructed Sample.linux_x64 Cases.env_fixed_uuid
                (JSON.Int 25565))
      = config (constructed Cases.restarted Cases.env_fixed_uuid
                  (JSON.Int 25565))
   /\ forall isp,
        cdnLink (constructed Sample.linux_x64 Cases.env_fixed_uuid
                   (JSON.Int 25565)) isp
        = cdnLink (constructed Cases.restarted Cases.env_fixed_uuid
                     (JSON.Int 25565)) isp)
  /\ (UUID Sample.env = ""
      /\ randomUUID Sample.linux_x64 <> randomUUID Cases.restarted
      /\ config (constructed Sample.linux_x64 Sample.env (JSON.Int 25565))
         <> config (constructed Cases.restarted Sample.env (JSON.Int 25565))).
Proof.
  assert (H1 : UUID Cases.env_fixed_uuid <> "") by discriminate.
  assert (H2 : UUID Sample.env = "") by reflexivity.
  assert (H3 : randomUUID Sample.linux_x64 <> randomUUID Cases.restarted)
    by discriminate.
  split.
  - split; [exact H1 |].
    exact (proj1 (identity_across_restarts Sample.linux_x64 Cases.restarted
                    Cases.env_fixed_uuid (JSON.Int 25565)) H1).
  - split; [exact H2 |]. split; [exact H3 |].
    exact (proj2 (identity_across_restarts Sample.linux_x64 Cases.restarted
                    Sample.env (JSON.Int 25565)) H2 H3).
Defined.

(** X28 on the sample host: the two registrations, one lookup, then
    the asset and its mirror. *)
Lemma main_requests_in_stages_witness :
  getXrayDownloadUrl Sample.linux_x64 = Normal Sample.asset_url
  /\ main Sample.linux_x64 Sample.env 2 Sample.disk = Some Sample.started
  /\ trace (state Sample.started)
     = [Listen "SIGINT"; Listen "SIGTERM"; Request Sample.geoip_url;
        Request Sample.asset_url; Request Sample.mirror_url]
  /\ ((proxy Sample.started = None /\ trace (state Sample.started) = [])
      \/ exists lookup urls,
           trace (state Sample.started)
           = Listen "SIGINT" :: Listen "SIGTERM"
             :: lookup ++ map Request urls
           /\ forallb is_lookup_event lookup = true
           /\ (length (requests lookup) <= 3)%nat
           /\ (urls = []
               \/ hops Sample.linux_x64 (length (requests lookup))
                    Sample.asset_url urls)).
Proof.
  assert (H1 : getXrayDownloadUrl Sample.linux_x64 = Normal Sample.asset_url)
    by reflexivity.
  assert (H2 : main Sample.linux_x64 Sample.env 2 Sample.disk
               = Some Sample.started)
    by (vm_compute; reflexivity).
  assert (H3 : trace (state Sample.started)
               = [Listen "SIGINT"; Listen "SIGTERM";
                  Request Sample.geoip_url; Request Sample.asset_url;
                  Request Sample.mirror_url])
    by (vm_compute; reflexivity).
  split; [exact H1 |]. split; [exact H2 |]. split; [exact H3 |].
  exact (main_requests_in_stages Sample.linux_x64 Sample.env 2 Sample.disk
           Sample.started Sample.asset_url H1 H2).
Defined.

(** X29 where the lookup is down and the download works. *)
Lemma main_tolerates_lookup_failure_witness :
  (forall i, (i < 3)%nat ->
             rejects (https_get Cases.lookup_down i (url (source_of (1 + i))))
             = true)
  /\ main Cases.lookup_down Sample.env 2 Sample.disk = Some Cases.started_unlabelled
  /\ child_alive Cases.started_unlabelled = true
  /\ exists dp m,
       fs (state Cases.started_unlabelled) !! linksPath
       = Some (File (JS.base64
                       (cdnLink (constructed Cases.lookup_down Sample.env dp)
                          (Some "Unknown"))) m).
Proof.
  assert (H1 : forall i, (i < 3)%nat ->
                 rejects (https_get Cases.lookup_down i
                            (url (source_of (1 + i)))) = true).
  { intros i Hi. cbn [https_get Cases.lookup_down].
    apply Nat.ltb_lt in Hi. rewrite Hi. reflexivity. }
  assert (H2 : main Cases.lookup_down Sample.env 2 Sample.disk
               = Some Cases.started_unlabelled) by (vm_compute; reflexivity).
  assert (H3 : child_alive Cases.started_unlabelled = true)
    by (vm_compute; reflexivity).
  split; [exact H1 |]. split; [exact H2 |]. split; [exact H3 |].
  exact (main_tolerates_lookup_failure Cases.lookup_down Sample.env 2 Sample.disk
           Cases.started_unlabelled H1 H2 H3).
Defined.

(** X13 on a trace whose line about loc has no-break spaces around
    the key and the value: the key is loc, the value US. *)
Lemma trace_field_last_wins_witness :
  JS.split JSON.nl Cases.trace_padded
  = ["fl=29f1"] ++ (Cases.padded_key +:+ "=" +:+ Cases.padded_value) :: []
  /\ JS.split "=" (Cases.padded_key +:+ "=" +:+ Cases.padded_value)
     = [Cases.padded_key; Cases.padded_value]
  /\ Str.truthy Cases.padded_key && Str.truthy Cases.padded_value = true
  /\ JS.trim Cases.padded_key = "loc"
  /\ "loc" <> "__proto__"
  /\ JS.trim Cases.padded_value = "US"
  /\ trace_fields Cases.trace_padded !! "loc"
     = Some (JS.trim Cases.padded_value).
Proof.
  assert (H1 : JS.split JSON.nl Cases.trace_padded
               = ["fl=29f1"]
                 ++ (Cases.padded_key +:+ "=" +:+ Cases.padded_value) :: [])
    by (vm_compute; reflexivity).
  assert (H2 : JS.split "=" (Cases.padded_key +:+ "=" +:+ Cases.padded_value)
               = [Cases.padded_key; Cases.padded_value])
    by (vm_compute; reflexivity).
  assert (H3 : Str.truthy Cases.padded_key && Str.truthy Cases.padded_value
               = true) by reflexivity.
  assert (H4 : JS.trim Cases.padded_key = "loc") by (vm_compute; reflexivity).
  assert (H5 : JS.trim Cases.padded_value = "US") by (vm_compute; reflexivity).
  assert (H6 : forall l k' v' rest',
             In l [] ->
             JS.split "=" l = k' :: v' :: rest' ->
             Str.truthy k' && Str.truthy v' = true ->
             JS.trim k' <> "loc")
    by (intros l k' v' rest' []).
  assert (H7 : "loc" <> "__proto__") by discriminate.
  split; [exact H1 |]. split; [exact H2 |]. split; [exact H3 |].
  split; [exact H4 |]. split; [exact H7 |]. split; [exact H5 |].
  exact (trace_field_last_wins Cases.trace_padded "loc"
           ["fl=29f1"] [] (Cases.padded_key +:+ "=" +:+ Cases.padded_value)
           Cases.padded_key Cases.padded_value [] H1 H2 H3 H4 H7 H6).
Defined.

(** The label read from that trace. *)
Example parse_trace_padded : parse_trace Cases.trace_padded = Normal "US-CF".
Proof. vm_compute. reflexivity. Qed.

(** X22 on the host where the asset URL is answered with a page: the
    rejected start has left the page at xray.zip, the signal removes
    it. *)
Lemma signal_after_main_leaves_no_artifact_witness :
  main Cases.missing_release Sample.env 1 ∅ = Some Cases.start_rejected
  /\ status_of Cases.start_rejected = Running
  /\ (SIGINT = SIGINT \/ SIGINT = SIGTERM)
  /\ Fs.existsSync zipPath (fs (state Cases.start_rejected)) = true
  /\ (let h' := deliver Cases.start_rejected (Signal SIGINT) in
      status_of h' = Exited 0
      /\ cleanups (state h') = 1%nat
      /\ (forall f data m, In f [zipPath; configPath; linksPath] ->
                           fs (state h') !! f <> Some (File data m))
      /\ (forall p, ~ In p [zipPath; configPath; linksPath] ->
                    fs (state h') !! p = fs (state Cases.start_rejected) !! p)).
Proof.
  assert (H1 : main Cases.missing_release Sample.env 1 ∅
               = Some Cases.start_rejected) by (vm_compute; reflexivity).
  assert (H2 : status_of Cases.start_rejected = Running)
    by (vm_compute; reflexivity).
  assert (H3 : SIGINT = SIGINT \/ SIGINT = SIGTERM) by (left; reflexivity).
  assert (H4 : Fs.existsSync zipPath (fs (state Cases.start_rejected)) = true)
    by (vm_compute; reflexivity).
  split; [exact H1 |]. split; [exact H2 |]. split; [exact H3 |].
  split; [exact H4 |].
  exact (signal_after_main_leaves_no_artifact Cases.missing_release Sample.env
           1 ∅ Cases.start_rejected SIGINT H1 H2 H3).
Defined.

(** X30 where the connection is reset after two bytes of the archive:
    one redirect, then the response that is cut. *)
Lemma download_cut_short_witness :
  getXrayDownloadUrl Cases.broken_off = Normal Sample.asset_url
  /\ redirects Cases.broken_off
       (length (requests (trace (boot Sample.disk)))) Sample.asset_url 1
       (Cut "PK" (Reset "ECONNRESET"))
  /\ fs (boot Sample.disk) !! zipPath <> Some Dir
  /\ (1 < 2)%nat
  /\ exists w' m,
       downloadAndExtract Cases.broken_off 2 Sample.proxy0 (boot Sample.disk)
       = Some (Resolved false, w')
       /\ fs w' = <[zipPath := File "PK" m]> (fs (boot Sample.disk))
       /\ length (requests (trace w'))
          = (length (requests (trace (boot Sample.disk))) + 1 + 1)%nat.
Proof.
  assert (H1 : getXrayDownloadUrl Cases.broken_off = Normal Sample.asset_url)
    by reflexivity.
  assert (H2 : redirects Cases.broken_off
                 (length (requests (trace (boot Sample.disk))))
                 Sample.asset_url 1 (Cut "PK" (Reset "ECONNRESET"))).
  { apply (redirects_step Cases.broken_off 0 Sample.asset_url 302
             Sample.mirror_url "" 0); [reflexivity | reflexivity |].
    apply redirects_end; [reflexivity | exact I]. }
  assert (H3 : fs (boot Sample.disk) !! zipPath <> Some Dir)
    by (vm_compute; discriminate).
  assert (H4 : (1 < 2)%nat) by (repeat constructor).
  split; [exact H1 |]. split; [exact H2 |]. split; [exact H3 |].
  split; [exact H4 |].
  exact (download_cut_short Cases.broken_off 2 Sample.proxy0
           (boot Sample.disk) Sample.asset_url 1 "PK" (Reset "ECONNRESET")
           H1 H2 H3 H4).
Defined.
